(** * TelegramBot: journal pipeline, input normaliser, token counter,
      user store and daily-prompt scheduler

    Shallow embedding of the decision logic of [New_Main.py], [db_utils.py],
    [utils.py] and [test_topic_escaping.py], and of the parser of the
    analysis response in [multimode_bot_final.py].

    Conventions.
    - A Python [str] is a [string]; a character is a code point below 256.
      On that range [str.isspace], the regex class [\s] and case-insensitive
      matching of an ASCII literal are exactly the predicates defined below.
    - [x | None] is [option x]; a function that may raise returns an
      [outcome].
    - The one-line forms [if status_msg: try: ...; except Exception: pass] of
      [New_Main.py] are read as the nested statements that
      [multimode_bot_final.py] spells out for the same code.
    - External collaborators (the model gateway, the chat transport, the
      clock, SQLite's connection) are explicit arguments. A call of the
      transport may raise: [delivers] says which calls succeed.
    - Code that sends messages and changes the store runs in a monad of
      state and exceptions in which the state survives a raise.
    - [str.format] is the scanner of CPython's [MarkupIterator_next]; what
      a field with an attribute, an index, a conversion or a format
      specification gives is left to an argument.
    - Pictographs that open fixed user-facing texts are left out of the
      literals. *)

From stdpp Require Import base option list gmap strings.
From Stdlib Require Import ZArith NArith Ascii Lia DecimalString.


(* ===================================================================== *)
(** * Part I: the program                                                 *)
(* ===================================================================== *)

(** ** Python string primitives *)

Module Py.

Definition ord (c : ascii) : N := N_of_ascii c.
Definition chr (n : N) : ascii := ascii_of_N n.

Definition newline : ascii := chr 10.
Definition tab : ascii := chr 9.
Definition dquote : ascii := chr 34.
Definition backslash : ascii := chr 92.

(** One-character strings for the characters that cannot be written inside
    a literal. *)
Definition s_of (c : ascii) : string := String c EmptyString.
Definition NL : string := s_of newline.
Definition DQ : string := s_of dquote.

(** [c1 <= c <= c2] on characters compares code points. *)
Definition char_between (lo c hi : ascii) : bool :=
  ((ord lo <=? ord c) && (ord c <=? ord hi))%N.

(** [str.isspace] for one code point below 256: TAB..CR, FS..US, SPACE,
    NEL and NBSP. *)
Definition isspace (c : ascii) : bool :=
  let n := ord c in
  (((9 <=? n) && (n <=? 13)) || ((28 <=? n) && (n <=? 32))
   || (n =? 133) || (n =? 160))%N.

(** ASCII lower-casing, the case folding that [re.IGNORECASE] applies to
    code points below 256 when the pattern character is an ASCII one. *)
Definition lower (c : ascii) : ascii :=
  if char_between "A" c "Z" then chr (ord c + 32) else c.

Definition eq_exact (a b : ascii) : bool := Ascii.eqb a b.
Definition eq_ignorecase (a b : ascii) : bool := Ascii.eqb (lower a) (lower b).

Fixpoint lstrip (s : string) : string :=
  match s with
  | EmptyString => EmptyString
  | String c s' => if isspace c then lstrip s' else s
  end.

Fixpoint rstrip (s : string) : string :=
  match s with
  | EmptyString => EmptyString
  | String c s' =>
      match rstrip s' with
      | EmptyString => if isspace c then EmptyString else String c EmptyString
      | r => String c r
      end
  end.

(** [s.strip()] *)
Definition strip (s : string) : string := rstrip (lstrip s).

(** [s.replace(old, new)] for a one-character [old], which is every use in
    the modelled code. *)
Fixpoint replace (old : ascii) (new : string) (s : string) : string :=
  match s with
  | EmptyString => EmptyString
  | String c s' =>
      if Ascii.eqb c old then new +:+ replace old new s'
      else String c (replace old new s')
  end.

(** The rest of [s] after the pattern literal [p] when [s] starts with it. *)
Fixpoint skip_prefix (eqc : ascii -> ascii -> bool) (p s : string) : option string :=
  match p, s with
  | EmptyString, _ => Some s
  | String a p', String b s' => if eqc a b then skip_prefix eqc p' s' else None
  | String _ _, EmptyString => None
  end.

(** Leftmost occurrence of the literal [p] in [s]: the text before it and
    the text after it. This is [re.search] of a literal, [str.partition],
    and the scan behind [str.find], [in] and [str.split]. *)
Fixpoint search (eqc : ascii -> ascii -> bool) (p s : string) : option (string * string) :=
  match skip_prefix eqc p s with
  | Some rest => Some (EmptyString, rest)
  | None =>
      match s with
      | EmptyString => None
      | String c s' =>
          match search eqc p s' with
          | Some (before, after) => Some (String c before, after)
          | None => None
          end
      end
  end.

(** [sub in s] *)
Definition contains (sub s : string) : bool :=
  match search eq_exact sub s with Some _ => true | None => false end.

(** [s.find(sub)]: index of the first occurrence, or -1. *)
Definition find (sub s : string) : Z :=
  match search eq_exact sub s with
  | Some (before, _) => Z.of_nat (String.length before)
  | None => (-1)%Z
  end.

Fixpoint drop (n : nat) (s : string) : string :=
  match n, s with
  | O, _ => s
  | S n', String _ s' => drop n' s'
  | S _, EmptyString => EmptyString
  end.

Fixpoint take (n : nat) (s : string) : string :=
  match n, s with
  | O, _ => EmptyString
  | S n', String c s' => String c (take n' s')
  | S _, EmptyString => EmptyString
  end.

(** [s[i:]], with Python's reading of a negative index. *)
Definition slice_from (i : Z) (s : string) : string :=
  if (i <? 0)%Z
  then drop (Z.to_nat (Z.of_nat (String.length s) + i)) s
  else drop (Z.to_nat i) s.

(** [s.split(sep)] for a one-character separator. *)
Fixpoint split (sep : ascii) (s : string) : list string :=
  match s with
  | EmptyString => [EmptyString]
  | String c s' =>
      if Ascii.eqb c sep then EmptyString :: split sep s'
      else match split sep s' with
           | w :: ws => String c w :: ws
           | [] => [String c EmptyString]
           end
  end.

(** [s.split(sep)[0]] for a literal separator. *)
Definition split_head (sep s : string) : string :=
  match search eq_exact sep s with
  | Some (before, _) => before
  | None => s
  end.

(** [sep.join(l)] *)
Fixpoint join (sep : string) (l : list string) : string :=
  match l with
  | [] => EmptyString
  | [x] => x
  | x :: l' => x +:+ sep +:+ join sep l'
  end.

(** [str(i)] for a non-negative integer. *)
Definition str_of_nat (n : nat) : string := NilEmpty.string_of_uint (Nat.to_uint n).

(** [enumerate(l)] *)
Fixpoint enumerate_from {A} (i : nat) (l : list A) : list (nat * A) :=
  match l with
  | [] => []
  | x :: l' => (i, x) :: enumerate_from (S i) l'
  end.
Definition enumerate {A} (l : list A) : list (nat * A) := enumerate_from 0 l.

(** Truthiness of a string. *)
Definition truthy (s : string) : bool :=
  match s with EmptyString => false | _ => true end.

(** Results of code that may raise. *)
Inductive exn : Type :=
  | NameError (name : string)
  | AttributeError (attr : string)
  | TypeError
  | ValueError
  | KeyError (key : string)
  | IndexError
  | JSONDecodeError
  | SendFailed.

Inductive outcome (A : Type) : Type :=
  | Returns (a : A)
  | Raises (e : exn).
Arguments Returns {A} a.
Arguments Raises {A} e.

(** *** [str.format]

    The scanner of CPython's [str.format], character by character. Text
    outside braces is copied, a doubled brace stands for one brace, and a
    single opening brace starts a replacement field: its name runs to the
    first closing brace, colon or exclamation mark that is not inside square
    brackets, an opening brace inside the name is an error, a conversion is
    the one character behind the exclamation mark, and a format
    specification runs to the closing brace that matches, counting nested
    braces. A field is replaced as soon as it has been read, so the first
    error from the left is the one raised. *)

Inductive format_mode : Type :=
  | Literal
  | AfterOpen
  | AfterClose
  | FieldName (name : string) (in_brackets : bool)
  | Conversion (name : string)
  | AfterConversion (name : string) (conversion : ascii)
  | FormatSpec (name : string) (conversion : option ascii) (spec : string) (depth : nat).

Inductive format_step : Type :=
  | Continue (mode : format_mode)
  | Emit (c : ascii)
  | Field (name : string) (conversion : option ascii) (spec : string)
  | Malformed.

Definition field_name_step (name : string) (in_brackets : bool) (c : ascii) : format_step :=
  if in_brackets then Continue (FieldName (name +:+ s_of c) (negb (Ascii.eqb c "]")))
  else if Ascii.eqb c "{" then Malformed
  else if Ascii.eqb c "[" then Continue (FieldName (name +:+ s_of c) true)
  else if Ascii.eqb c "}" then Field name None EmptyString
  else if Ascii.eqb c ":" then Continue (FormatSpec name None EmptyString 1)
  else if Ascii.eqb c "!" then Continue (Conversion name)
  else Continue (FieldName (name +:+ s_of c) false).

Definition format_next (mode : format_mode) (c : ascii) : format_step :=
  match mode with
  | Literal =>
      if Ascii.eqb c "{" then Continue AfterOpen
      else if Ascii.eqb c "}" then Continue AfterClose
      else Emit c
  | AfterOpen => if Ascii.eqb c "{" then Emit c else field_name_step EmptyString false c
  | AfterClose => if Ascii.eqb c "}" then Emit c else Malformed
  | FieldName name in_brackets => field_name_step name in_brackets c
  | Conversion name => Continue (AfterConversion name c)
  | AfterConversion name conversion =>
      if Ascii.eqb c "}" then Field name (Some conversion) EmptyString
      else if Ascii.eqb c ":" then Continue (FormatSpec name (Some conversion) EmptyString 1)
      else Malformed
  | FormatSpec name conversion spec depth =>
      if Ascii.eqb c "{" then Continue (FormatSpec name conversion (spec +:+ s_of c) (S depth))
      else if Ascii.eqb c "}" then
        match depth with
        | 1 => Field name conversion spec
        | _ => Continue (FormatSpec name conversion (spec +:+ s_of c) (pred depth))
        end
      else Continue (FormatSpec name conversion (spec +:+ s_of c) depth)
  end.

(** The end of the string is fine only outside a field and not right behind
    a single brace; everywhere else it is a [ValueError]. *)
Fixpoint format_from (render : string -> option ascii -> string -> outcome string)
    (mode : format_mode) (s : string) : outcome string :=
  match s with
  | EmptyString => match mode with Literal => Returns EmptyString | _ => Raises ValueError end
  | String c s' =>
      match format_next mode c with
      | Continue mode' => format_from render mode' s'
      | Emit ch =>
          match format_from render Literal s' with
          | Returns r => Returns (String ch r)
          | Raises e => Raises e
          end
      | Field name conversion spec =>
          match render name conversion spec with
          | Returns v =>
              match format_from render Literal s' with
              | Returns r => Returns (v +:+ r)
              | Raises e => Raises e
              end
          | Raises e => Raises e
          end
      | Malformed => Raises ValueError
      end
  end.

Definition is_decimal (c : ascii) : bool := char_between "0" c "9".

Definition PY_SSIZE_T_MAX : N := 9223372036854775807.

(** [get_integer] of the format machinery on a 64-bit build: [None] when
    the name is not made of decimal digits, [ValueError] when the number
    does not fit. *)
Fixpoint get_integer (accumulator : N) (name : string) : option (outcome N) :=
  match name with
  | EmptyString => Some (Returns accumulator)
  | String c name' =>
      if is_decimal c then
        let digitval := (ord c - 48)%N in
        if ((PY_SSIZE_T_MAX - digitval) / 10 <? accumulator)%N then Some (Raises ValueError)
        else get_integer (accumulator * 10 + digitval)%N name'
      else None
  end.

Fixpoint keyword (kwargs : list (string * string)) (name : string) : option string :=
  match kwargs with
  | [] => None
  | (k, v) :: more => if String.eqb k name then Some v else keyword more name
  end.

(** The value of a replacement field when [format] is called with keyword
    arguments only, all of them strings. A field that is just a name is
    looked up among the keywords; an empty or numeric name asks for a
    positional argument, and there is none. A field with an attribute or
    index access, a conversion or a format specification is left to
    [exotic], which stands for what the interpreter makes of it. *)
Definition render_field (exotic : string -> option ascii -> string -> outcome string)
    (kwargs : list (string * string))
    (name : string) (conversion : option ascii) (spec : string) : outcome string :=
  match conversion, spec with
  | None, EmptyString =>
      if contains "." name || contains "[" name then exotic name conversion spec
      else
        match name with
        | EmptyString => Raises IndexError
        | _ =>
            match get_integer 0 name with
            | Some (Returns _) => Raises IndexError
            | Some (Raises e) => Raises e
            | None =>
                match keyword kwargs name with
                | Some v => Returns v
                | None => Raises (KeyError name)
                end
            end
        end
  | _, _ => exotic name conversion spec
  end.

(** [template.format] called with keyword arguments. *)
Definition format (exotic : string -> option ascii -> string -> outcome string)
    (template : string) (kwargs : list (string * string)) : outcome string :=
  format_from (render_field exotic kwargs) Literal template.

End Py.

Import Py.

(** ** utils.py *)

Module Utils.



End Utils.

(** ** New_Main.py: chatbot mode *)

Module Chatbot.


End Chatbot.

(** ** New_Main.py: the journal pipeline, [handle_journal_logic] *)

Module Journal.

Definition err_tags : list string :=
  ["[BLOCKED:"; "[API ERROR:"; "[No text content received]"].

(** The gate in front of both parsers:
    [text and not any(err_tag in text for err_tag in [...])]. *)
Definition usable (response : option string) : bool :=
  match response with
  | None => false
  | Some text =>
      truthy text && negb (existsb (fun err_tag => contains err_tag text) err_tags)
  end.

(** *** Categorization (lines 683-691) *)

(** What a greedy group of [.] takes without [re.DOTALL]: the characters up
    to the next newline. *)
Fixpoint take_line (s : string) : string :=
  match s with
  | EmptyString => EmptyString
  | String c s' => if Ascii.eqb c newline then EmptyString else String c (take_line s')
  end.

(** Group 1 of [re.search] with [re.IGNORECASE] for the pattern made of the
    label, any run of whitespace, and a greedy group of [.]. The literal is
    looked for from left to right; behind it the whitespace run takes every
    whitespace character and the group the rest of that line, so the first
    occurrence of the literal always completes the match. *)
Definition re_search_label (label text : string) : option string :=
  match search eq_ignorecase label text with
  | Some (_, rest) => Some (take_line (lstrip rest))
  | None => None
  end.

Definition field (label text : string) : string :=
  match re_search_label label text with
  | Some group1 => strip group1
  | None => "N/A"
  end.

Record categorization : Type := {
  sentiment : string;
  topics : string;
  categories : string
}.

Definition parse_categorization (categorization_response : option string) : categorization :=
  match categorization_response with
  | Some text =>
      if usable categorization_response
      then {| sentiment := field "Sentiment:" text;
              topics := field "Topics:" text;
              categories := field "Categories:" text |}
      else {| sentiment := "N/A"; topics := "N/A"; categories := "N/A" |}
  | None => {| sentiment := "N/A"; topics := "N/A"; categories := "N/A" |}
  end.

(** *** Diagram labels (lines 753-754) *)

(** The chain of calls inside the f-string; the last pattern, written
    as a triple-quoted literal, is the one-character string of a double
    quote, and its replacement is the empty string. *)
Definition sanitize_label (topic : string) : string :=
  replace dquote EmptyString
    (replace "`" EmptyString
      (replace "'" EmptyString
        (replace " " "_"
          (replace "-" "_" (strip topic))))).

(** The condition of the comprehension: [topic.strip() and topic != 'N/A']. *)
Definition keeps (topic : string) : bool :=
  truthy (strip topic) && negb (String.eqb topic "N/A").

Definition node (name kind colour : string) (i : nat) (item : string) : string :=
  name +:+ str_of_nat i +:+ " [label=" +:+ DQ +:+ kind +:+ ": " +:+ sanitize_label item +:+ DQ
  +:+ ", fillcolor=" +:+ DQ +:+ colour +:+ DQ +:+ "]; main -> " +:+ name +:+ str_of_nat i +:+ ";".

Definition dot_nodes (name kind colour : string) (items : string) : list string :=
  map (fun p => node name kind colour (fst p) (snd p))
      (List.filter (fun p => keeps (snd p)) (enumerate (split "," items))).

Definition topics_dot_str (topics : string) : string :=
  join " " (dot_nodes "topic" "Topic" "lightgreen" topics).

Definition categories_dot_str (categories : string) : string :=
  join " " (dot_nodes "cat" "Category" "lightcoral" categories).

(** *** Reflective analysis (lines 767-796) *)

Definition DOT_START : string := "--- DOT START ---".
Definition DOT_END : string := "--- DOT END ---".

(** [re.search] with [re.DOTALL] for the start marker, a lazy group of any
    characters, and the end marker: the text before the match, group 1 and
    the text after the match. The lazy group stops at the first end marker
    behind the start marker; an end marker behind a later start marker is
    also behind the first one, so the leftmost start marker decides. *)
Definition dot_match (text : string) : option (string * string * string) :=
  match search eq_exact DOT_START text with
  | Some (before, rest) =>
      match search eq_exact DOT_END rest with
      | Some (group1, after) => Some (before, group1, after)
      | None => None
      end
  | None => None
  end.

Record analysis : Type := {
  ai_analysis_output_for_user : string;
  ai_analysis_text_for_db : option string;
  dot_code_for_db : option string
}.

Definition no_analysis : analysis :=
  {| ai_analysis_output_for_user := "Sorry, I couldn't generate an analysis for this entry.";
     ai_analysis_text_for_db := None;
     dot_code_for_db := None |}.

Definition parse_analysis (analysis_response_text : option string) : analysis :=
  match analysis_response_text with
  | Some text =>
      if usable analysis_response_text then
        match dot_match text with
        | Some (_, group1, _) =>
            let analysis_output_candidate := split_head DOT_START text in
            let reflection_marker_generic := "**Analysis for " in
            let output :=
              if contains reflection_marker_generic analysis_output_candidate
              then
                let marker_end_index := (find ":**" analysis_output_candidate + 3)%Z in
                strip (slice_from marker_end_index analysis_output_candidate)
              else strip analysis_output_candidate in
            {| ai_analysis_output_for_user := output;
               ai_analysis_text_for_db := Some output;
               dot_code_for_db := Some (strip group1) |}
        | None =>
            {| ai_analysis_output_for_user := text;
               ai_analysis_text_for_db := Some text;
               dot_code_for_db := None |}
        end
      else if truthy text then
        let output := "AI analysis was blocked or encountered an error: " +:+ text in
        {| ai_analysis_output_for_user := output;
           ai_analysis_text_for_db := Some output;
           dot_code_for_db := None |}
      else no_analysis
  | None => no_analysis
  end.

End Journal.

(** ** multimode_bot_final.py: the analysis parser of the earlier variant *)

Module Legacy.

(** The pattern of a marker matched at the start of [s]: three dashes, any
    whitespace, the words of the marker in any case, any whitespace, three
    dashes. What follows the match. *)
Definition marker_at (words s : string) : option string :=
  match skip_prefix eq_exact "---" s with
  | Some s1 =>
      match skip_prefix eq_ignorecase words (lstrip s1) with
      | Some s2 => skip_prefix eq_exact "---" (lstrip s2)
      | None => None
      end
  | None => None
  end.

(** The first place where the marker matches: the text before it and the
    text behind it. *)
Fixpoint first_marker (words s : string) : option (string * string) :=
  match marker_at words s with
  | Some after => Some (EmptyString, after)
  | None =>
      match s with
      | EmptyString => None
      | String c s' =>
          match first_marker words s' with
          | Some (before, after) => Some (String c before, after)
          | None => None
          end
      end
  end.

(** The last place where the marker matches, which is where a greedy group
    of any characters in front of it ends. *)
Fixpoint last_marker (words s : string) : option (string * string) :=
  match s with
  | EmptyString => None
  | String c s' =>
      match last_marker words s' with
      | Some (before, after) => Some (String c before, after)
      | None =>
          match marker_at words s with
          | Some after => Some (EmptyString, after)
          | None => None
          end
      end
  end.

(** [re.search] with [re.DOTALL | re.I] for the start marker, a greedy
    group and the end marker (line 636): the text before the match, group 1
    and the text behind the match. *)
Definition dot_match (text : string) : option (string * string * string) :=
  match first_marker "DOT START" text with
  | Some (before, rest) =>
      match last_marker "DOT END" rest with
      | Some (group1, after) => Some (before, group1, after)
      | None => None
      end
  | None => None
  end.

(** Lines 634-639: the analysis shown and the diagram description. The
    substitution of line 637 removes the one match that the search found. *)
Definition parse_analysis (analysis_response_text : option string) : string * option string :=
  match analysis_response_text with
  | Some text =>
      if truthy text && negb (contains "[BLOCKED:" text) && negb (contains "[API ERROR:" text)
      then
        match dot_match text with
        | Some (before, group1, after) => (strip (before +:+ after), Some (strip group1))
        | None => (text, None)
        end
      else if truthy text then ("Analysis failed/blocked: " +:+ text, None)
      else ("Analysis failed.", None)
  | None => ("Analysis failed.", None)
  end.

End Legacy.

(** ** test_topic_escaping.py *)

Module TestTopicEscaping.

Definition processed_topic (topic_str : string) : string :=
  replace dquote (s_of backslash +:+ DQ)
    (replace "`" EmptyString
      (replace "'" EmptyString
        (replace " " "_"
          (replace "-" "_" (strip topic_str))))).

Definition generate_topic_dot_string (topic_str : string) (index : nat) : string :=
  "topic" +:+ str_of_nat index +:+ " [label=" +:+ DQ +:+ "Topic: " +:+ processed_topic topic_str
  +:+ DQ +:+ ", fillcolor=" +:+ DQ +:+ "lightgreen" +:+ DQ +:+ "]; main -> topic"
  +:+ str_of_nat index +:+ ";".

(** The loop of [main] over [topics_string.split(',')]. *)
Fixpoint generated_dot_parts (indexed : list (nat * string)) : list string :=
  match indexed with
  | [] => []
  | (i, topic_from_split) :: more =>
      let topic_stripped := strip topic_from_split in
      if truthy topic_stripped && negb (String.eqb topic_stripped "N/A")
      then generate_topic_dot_string topic_stripped i :: generated_dot_parts more
      else generated_dot_parts more
  end.

Definition final_topics_dot_str (topics_string : string) : string :=
  join " " (generated_dot_parts (enumerate (split "," topics_string))).

End TestTopicEscaping.

(** ** The clock *)

Module Clock.

(** One reading of the system clock: seconds since 1970-01-01T00:00 UTC and
    the offset of the process's local time zone, in seconds. *)
Record clock : Type := {
  unix_time : Z;
  utcoffset : Z
}.

(** [datetime.now()], a naive local time, and [datetime.now(timezone.utc)],
    both as seconds on their own calendar. *)
Definition now (c : clock) : Z := (unix_time c + utcoffset c)%Z.
Definition now_utc (c : clock) : Z := unix_time c.

(** Year, month and day of a day number, days counted from 1970-01-01
    (proleptic Gregorian calendar). *)
Definition civil_from_days (days : Z) : Z * Z * Z :=
  (let z := days + 719468 in
   let era := z / 146097 in
   let doe := z - era * 146097 in
   let yoe := (doe - doe / 1460 + doe / 36524 - doe / 146096) / 365 in
   let doy := doe - (365 * yoe + yoe / 4 - yoe / 100) in
   let mp := (5 * doy + 2) / 153 in
   let d := doy - (153 * mp + 2) / 5 + 1 in
   let m := if mp <? 10 then mp + 3 else mp - 9 in
   let y := yoe + era * 400 + (if m <=? 2 then 1 else 0) in
   (y, m, d))%Z.

Definition digits (n : Z) : string := str_of_nat (Z.to_nat n).

Definition pad2 (n : Z) : string :=
  if (n <? 10)%Z then "0" +:+ digits n else digits n.

Definition pad4 (n : Z) : string :=
  if (n <? 10)%Z then "000" +:+ digits n
  else if (n <? 100)%Z then "00" +:+ digits n
  else if (n <? 1000)%Z then "0" +:+ digits n
  else digits n.

(** [t.strftime("%Y-%m-%d")] *)
Definition strftime_Ymd (t : Z) : string :=
  match civil_from_days (t / 86400) with
  | (y, m, d) => pad4 y +:+ "-" +:+ pad2 m +:+ "-" +:+ pad2 d
  end.

(** [t.strftime('%Y-%m-%d %H:%M:%S %Z')] for a time in UTC. *)
Definition strftime_YmdHMSZ (t : Z) : string :=
  strftime_Ymd t +:+ " " +:+ pad2 ((t mod 86400) / 3600) +:+ ":"
  +:+ pad2 ((t mod 3600) / 60) +:+ ":" +:+ pad2 (t mod 60) +:+ " UTC".

(** [t.time()] to the minute: comparing it with a time that has neither
    seconds nor microseconds only looks at hour and minute. *)
Definition minute_of_day (t : Z) : Z := ((t mod 86400) / 60)%Z.

End Clock.

(** ** New_Main.py: the model gateway helpers *)

Module Gateway.

(** What the call to the model does, seen from [transcribe_audio_with_gemini]. *)
Inductive audio_response : Type :=
  | AudioBlocked (block_reason : string)
  | AudioText (text : string)
  | AudioNoText
  | AudioException (name : string).

Definition transcribe_audio_with_gemini
    (file_exists genai_model : bool) (response : audio_response) : option string :=
  if negb file_exists then Some "[File Not Found Error]"
  else if negb genai_model then Some "[AI Service Unavailable]"
  else match response with
       | AudioBlocked block_reason => Some ("[BLOCKED: " +:+ block_reason +:+ "]")
       | AudioText text => Some (strip text)
       | AudioNoText => Some "[No transcription content]"
       | AudioException name => Some ("[AI Transcription Error: " +:+ name +:+ "]")
       end.

Definition punctuation_prompt (raw_text : string) : string :=
  "Add appropriate punctuation, capitalization, and sentence breaks to the following raw text. Make it read naturally. Preserve original words/meaning."
  +:+ NL +:+ NL +:+ "    Raw Text: " +:+ DQ +:+ raw_text +:+ DQ
  +:+ NL +:+ NL +:+ "    Formatted Text:".

(** [add_punctuation_with_gemini]; [generate] is the text that
    [generate_gemini_response] returns for a one-part prompt. The second
    component tells whether the model was asked. *)
Definition add_punctuation_with_gemini
    (genai_model : bool) (generate : string -> option string) (raw_text : string)
    : string * bool :=
  if negb (truthy raw_text) || String.eqb (strip raw_text) EmptyString then (raw_text, false)
  else if negb genai_model then (raw_text, false)
  else match generate (punctuation_prompt raw_text) with
       | Some formatted_text =>
           if truthy formatted_text
              && negb (contains "[BLOCKED:" formatted_text)
              && negb (contains "[API ERROR:" formatted_text)
              && negb (contains "[No text content received]" formatted_text)
           then (strip formatted_text, true)
           else (raw_text, true)
       | None => (raw_text, true)
       end.

End Gateway.

(** ** Code that runs with effects

    A handler is a function of its state that either returns a value or
    raises, and leaves a state in both cases: what was done before an
    exception stays done. *)

Module Effects.

Definition step (S A : Type) : Type := S -> outcome A * S.

Definition ret {S A} (a : A) : step S A := fun s => (Returns a, s).

Definition raise {S A} (e : exn) : step S A := fun s => (Raises e, s).

Definition bind {S A B} (m : step S A) (k : A -> step S B) : step S B :=
  fun s =>
    match m s with
    | (Returns a, s') => k a s'
    | (Raises e, s') => (Raises e, s')
    end.

Definition get {S} : step S S := fun s => (Returns s, s).

(** [try: m / except Exception: handler] *)
Definition try_ {S A} (m : step S A) (handler : exn -> step S A) : step S A :=
  fun s =>
    match m s with
    | (Returns a, s') => (Returns a, s')
    | (Raises e, s') => handler e s'
    end.

(** [try: m / except Exception: pass] *)
Definition guarded {S} (m : step S unit) : step S unit := try_ m (fun _ => ret tt).

Fixpoint for_each {S A} (l : list A) (body : A -> step S unit) : step S unit :=
  match l with
  | [] => ret tt
  | x :: l' => bind (body x) (fun _ => for_each l' body)
  end.

Notation "x <- m ;; k" := (bind m (fun x => k))
  (at level 100, m at next level, right associativity).
Notation "m ;; k" := (bind m (fun _ => k))
  (at level 100, right associativity).

End Effects.

Import Effects.

(** ** New_Main.py: input normalisation and dispatch *)

Module Input.

Record message : Type := {
  text : option string;
  voice : bool;
  photo : bool
}.

(** What opening the downloaded image and asking the model gives. *)
Inductive vision_outcome : Type :=
  | ImageGone
  | ImageUnreadable
  | VisionAnswer (extracted_text_result : option string).

(** The collaborators of one call. [delivers n] tells whether the call
    number [n] that this run makes to the chat transport (a reply, an edit,
    a deletion, a download) goes through; one that does not raises. *)
Record world : Type := {
  genai_model : bool;
  audio_file_exists : bool;
  audio : Gateway.audio_response;
  generate : string -> option string;
  vision : vision_outcome;
  escape_markdown : string -> string;
  delivers : nat -> bool
}.

(** What the user and the services see, in order. Pictographs that open the
    fixed status texts are left out of the literals. *)
Inductive event : Type :=
  | Status (text : string)
  | StatusEdit (text : string)
  | StatusDelete
  | GetFile
  | Download (extension : string)
  | Transcribe
  | AskModel (prompt : string)
  | AskVision
  | Reply (text : string)
  | RemoveTemp
  | Photo (caption : string)
  | MapStatusEdit (text : string)
  | MapStatusDelete.

Definition range_step (stop step : nat) : list nat :=
  map (fun k => k * step) (seq 0 ((stop + step - 1) / step)).

(** [[s[i:i+max_len] for i in range(0, len(s), max_len)]] *)
Definition chunks (max_len : nat) (s : string) : list string :=
  map (fun i => take max_len (drop i s)) (range_step (String.length s) max_len).

Definition code_block (chunk : string) : string := "```" +:+ NL +:+ chunk +:+ NL +:+ "```".

Definition max_len : nat := 4000.

Definition or_default (value : option string) (default : string) : string :=
  match value with
  | Some v => if truthy v then v else default
  | None => default
  end.

Definition result : Type := option string * option string * option string.

(** The local variables of [get_text_from_input] that its handlers read
    ([status_msg] and [temp_file_path]: whether they have been assigned),
    the number of calls made to the transport, and what was seen. *)
Record frame : Type := {
  calls : nat;
  trace : list event;
  status_msg : bool;
  temp_file_path : bool;
  input_type : option string
}.

Definition start : frame :=
  {| calls := 0; trace := []; status_msg := false; temp_file_path := false;
     input_type := None |}.

Definition note (e : event) : step frame unit :=
  fun f =>
    (Returns tt,
     {| calls := calls f; trace := trace f ++ [e]; status_msg := status_msg f;
        temp_file_path := temp_file_path f; input_type := input_type f |}).

(** One call to the transport. *)
Definition call (w : world) (e : event) : step frame unit :=
  fun f =>
    if delivers w (calls f)
    then (Returns tt,
          {| calls := S (calls f); trace := trace f ++ [e]; status_msg := status_msg f;
             temp_file_path := temp_file_path f; input_type := input_type f |})
    else (Raises SendFailed,
          {| calls := S (calls f); trace := trace f; status_msg := status_msg f;
             temp_file_path := temp_file_path f; input_type := input_type f |}).

Definition assign_status_msg : step frame unit :=
  fun f =>
    (Returns tt,
     {| calls := calls f; trace := trace f; status_msg := true;
        temp_file_path := temp_file_path f; input_type := input_type f |}).

Definition assign_temp_file_path : step frame unit :=
  fun f =>
    (Returns tt,
     {| calls := calls f; trace := trace f; status_msg := status_msg f;
        temp_file_path := true; input_type := input_type f |}).

Definition assign_input_type (t : string) : step frame unit :=
  fun f =>
    (Returns tt,
     {| calls := calls f; trace := trace f; status_msg := status_msg f;
        temp_file_path := temp_file_path f; input_type := Some t |}).

(** The voice branch behind the call of [transcribe_audio_with_gemini],
    whose result is [raw_text] (lines 532-551). The handlers of the reply
    of a chunk name [telegram.error.BadRequest], and [New_Main.py] binds no
    name [telegram]: when such a reply raises, looking the handler up
    raises [NameError]. *)
Definition voice_steps (w : world) (raw_text : option string) : step frame result :=
  let failed : step frame result :=
    guarded (call w StatusDelete) ;;
    f <- get ;;
    ret (None, input_type f,
         Some (or_default raw_text "Transcription failed (Unknown error).")) in
  match raw_text with
  | None => failed
  | Some raw =>
      if contains "[" raw then failed
      else
        call w (StatusEdit "Enhancing transcript...") ;;
        let (punctuated_text, asked) :=
          Gateway.add_punctuation_with_gemini (genai_model w) (generate w) raw in
        (if asked then note (AskModel (Gateway.punctuation_prompt raw)) else ret tt) ;;
        call w StatusDelete ;;
        let display_transcript := punctuated_text in
        try_ (call w (Reply (escape_markdown w "*Audio Transcript* (AI Enhanced):")))
             (fun _ => call w (Reply "Audio Transcript (AI Enhanced):")) ;;
        let safe_display_transcript := escape_markdown w display_transcript in
        for_each (chunks max_len safe_display_transcript)
          (fun chunk =>
             try_ (call w (Reply (code_block chunk)))
                  (fun _ => raise (NameError "telegram"))) ;;
        f <- get ;;
        ret (Some punctuated_text, input_type f, None)
  end.

(** Lines 523-531. *)
Definition voice_branch (w : world) : step frame result :=
  assign_input_type "audio" ;;
  call w (Status "Downloading audio...") ;;
  assign_status_msg ;;
  assign_temp_file_path ;;
  call w GetFile ;;
  call w (Download ".ogg") ;;
  call w (StatusEdit "Transcribing audio with AI...") ;;
  note Transcribe ;;
  voice_steps w
    (Gateway.transcribe_audio_with_gemini (audio_file_exists w) (genai_model w) (audio w)).

(** Lines 566-569: what is made of the answer of the model. *)
Definition classify (input_type : option string) (extracted_text_result : option string)
    : result :=
  match extracted_text_result with
  | None => (None, input_type, Some "AI Vision OCR failed.")
  | Some r =>
      if contains "[API ERROR:" r
      then (None, input_type, Some (or_default (Some r) "AI Vision OCR failed."))
      else if contains "[BLOCKED:" r
      then (None, input_type, Some ("AI Vision OCR failed (" +:+ r +:+ ")."))
      else if negb (truthy r) || contains "[No text content received]" r
      then (None, input_type, Some "AI Vision found no text in the image.")
      else (Some r, input_type, None)
  end.

(** Lines 553-569. *)
Definition photo_branch (w : world) : step frame result :=
  assign_input_type "image" ;;
  call w (Status "Downloading image...") ;;
  assign_status_msg ;;
  assign_temp_file_path ;;
  call w GetFile ;;
  call w (Download ".jpg") ;;
  call w (StatusEdit "Processing image with AI Vision (OCR)...") ;;
  f <- get ;;
  match vision w with
  | ImageGone => ret (None, input_type f, Some "Error finding image.")
  | ImageUnreadable => ret (None, input_type f, Some "Error processing image file.")
  | VisionAnswer extracted_text_result =>
      note AskVision ;;
      call w StatusDelete ;;
      ret (classify (input_type f) extracted_text_result)
  end.

(** The body of the [try] statement of [get_text_from_input]. *)
Definition main_try (w : world) (m : message) : step frame result :=
  if truthy (default EmptyString (text m)) then ret (text m, Some "text", None)
  else if voice m then voice_branch w
  else if photo m then photo_branch w
  else ret (None, None, Some "Unsupported message type.").

(** A deletion of the status message inside its own [try]. *)
Definition delete_status_quietly (w : world) (f : frame) : frame :=
  if status_msg f then snd (guarded (call w StatusDelete) f) else f.

(** The handler [except Exception] of lines 573-576. *)
Definition unexpected (w : world) (f : frame) : result * frame :=
  ((None, input_type f, Some "An unexpected error occurred processing your input."),
   delete_status_quietly w f).

(** Whether the temporary file is on disk when the [finally] block looks. *)
Definition temp_file_exists (w : world) (f : frame) : bool :=
  temp_file_path f &&
  (if bool_decide (input_type f = Some "audio") then audio_file_exists w
   else match vision w with ImageGone => false | _ => true end).

(** The [finally] block of lines 577-581. *)
Definition finally (w : world) (f : frame) : frame :=
  delete_status_quietly w
    (if temp_file_exists w f then snd (note RemoveTemp f) else f).

(** [get_text_from_input]: the triple (final text, input type, error
    message) and what was seen. Nothing gets out of it by an exception:
    what the body raises is answered by the handler, and the handler and
    the [finally] block keep their own calls inside [try]. *)
Definition get_text_from_input (w : world) (m : message) : result * list event :=
  let (r, f) :=
    match main_try w m start with
    | (Returns r, f) => (r, f)
    | (Raises _, f) => unexpected w f
    end in
  (r, trace (finally w f)).

Definition CHATBOT_MODE : string := "CHATBOT_MODE".
Definition JOURNAL_MODE : string := "JOURNAL_MODE".
Definition OCR_MODE : string := "OCR_MODE".

(** Where [handle_input] ends. *)
Inductive dispatch : Type :=
  | AskForMode
  | ErrorReply (error_message : string)
  | Unprocessed
  | ToChatbot (text : string)
  | ToJournal (text : string) (input_type : option string)
  | ToOcr (text : string) (input_type : option string)
  | InvalidMode.

(** [handle_input]: where it ends and the trace of the normalisation. The
    two store calls that make sure the user has a row, between the check of
    the mode and the normalisation, are those of [Commands.start_command]
    and are not repeated here. *)
Definition handle_input (w : world) (mode : option string) (m : message)
    : dispatch * list event :=
  if negb (truthy (default EmptyString mode)) then (AskForMode, [])
  else
    match get_text_from_input w m with
    | ((extracted_text, input_type, error_message), trace) =>
        if truthy (default EmptyString error_message)
        then (ErrorReply (default EmptyString error_message), trace)
        else match extracted_text with
             | None => (Unprocessed, trace)
             | Some t =>
                 if String.eqb (default EmptyString mode) CHATBOT_MODE then (ToChatbot t, trace)
                 else if String.eqb (default EmptyString mode) JOURNAL_MODE
                 then (ToJournal t input_type, trace)
                 else if String.eqb (default EmptyString mode) OCR_MODE
                 then (ToOcr t input_type, trace)
                 else (InvalidMode, trace)
             end
    end.


End Input.

(** ** New_Main.py: the token counter *)

Module Tokens.

Record token_data : Type := {
  total : Z;
  daily_date : string;
  daily_count : Z;
  session : Z
}.

Definition default_data : token_data :=
  {| total := 0; daily_date := EmptyString; daily_count := 0; session := 0 |}.

(** The file [token_usage.json] ([None]: missing or unreadable), whether it
    can be written, and the session entry of [token_data_cache]. *)
Record state : Type := {
  file : option token_data;
  writable : bool;
  cache_session : Z
}.

Definition load_token_data (st : state) : token_data :=
  match file st with
  | Some data => data
  | None => default_data
  end.

Definition save_token_data (st : state) (data : token_data) : state * bool :=
  if writable st
  then ({| file := Some data; writable := true; cache_session := cache_session st |}, true)
  else (st, false).

Definition initialize_token_data (st : state) : state :=
  let loaded_data := load_token_data st in
  let cache := {| total := total loaded_data; daily_date := daily_date loaded_data;
                  daily_count := daily_count loaded_data; session := 0 |} in
  fst (save_token_data
         {| file := file st; writable := writable st; cache_session := 0 |} cache).

Definition increment_token_usage (c : Clock.clock) (prompt_tokens candidate_tokens : Z)
    (st : state) : state :=
  let today := Clock.strftime_Ymd (Clock.now c) in
  let total_increment := (prompt_tokens + candidate_tokens)%Z in
  let current_data := load_token_data st in
  let (date, count) :=
    if negb (String.eqb (daily_date current_data) today) then (today, 0%Z)
    else (daily_date current_data, daily_count current_data) in
  let session' := (cache_session st + total_increment)%Z in
  let current_data' :=
    {| total := (total current_data + total_increment)%Z;
       daily_date := date;
       daily_count := (count + total_increment)%Z;
       session := session' |} in
  fst (save_token_data
         {| file := file st; writable := writable st; cache_session := session' |}
         current_data').

(** [tokens_command]: the new state and the three numbers shown (session,
    today, all time). *)
Definition tokens_command (c : Clock.clock) (st : state) : state * (Z * Z * Z) :=
  let current_data := load_token_data st in
  let today := Clock.strftime_Ymd (Clock.now c) in
  if negb (String.eqb (daily_date current_data) today) then
    let current_data' :=
      {| total := total current_data; daily_date := today; daily_count := 0;
         session := session current_data |} in
    (fst (save_token_data st current_data'),
     (cache_session st, 0%Z, total current_data))
  else (st, (cache_session st, daily_count current_data, total current_data)).

End Tokens.

(** ** db_utils.py *)

Module Db.

(** Values of the preferences mapping: JSON null, booleans, integers and
    strings, the kinds that the program itself writes. *)
Inductive jval : Type :=
  | JNull
  | JBool (b : bool)
  | JNum (z : Z)
  | JStr (s : string).

#[global] Instance jval_eq_dec : EqDecision jval.
Proof. solve_decision. Defined.

(** The content of the column [preferences], told by what [json.loads]
    makes of it: an object, another JSON value, or a text that is not JSON
    (the empty text among them). *)
Inductive pref_text : Type :=
  | JsonObject (d : gmap string jval)
  | JsonOther
  | NotJson (raw : string).

Definition text_truthy (t : pref_text) : bool :=
  match t with
  | NotJson raw => truthy raw
  | _ => true
  end.

Record user_row : Type := {
  telegram_username : option string;
  display_name : option string;
  first_seen : Z;
  last_interaction : option Z;
  preferences : option pref_text
}.

(** The names bound at the top level of [db_utils.py]: its three import
    statements and its definitions. *)
Definition module_names : list string :=
  ["sqlite3"; "os"; "datetime"; "timezone";
   "BASE_DIR"; "DATA_DIR"; "DATABASE_PATH";
   "get_db_connection"; "create_tables"; "add_user"; "get_user";
   "update_user_preferences"; "add_journal_entry"; "update_journal_entry_analysis";
   "get_journal_entries_by_user"; "add_feedback"; "add_daily_prompt";
   "get_random_daily_prompt"; "get_all_daily_prompts"].

(** Looking a global name up inside the module. *)
Definition global (name : string) : outcome unit :=
  if bool_decide (name ∈ module_names) then Returns tt else Raises (NameError name).

(** Looking an attribute of the module up from outside, [db_utils.name]:
    [value] is what the name stands for when the module defines it. *)
Definition attribute {A} (name : string) (value : A) : outcome A :=
  if bool_decide (name ∈ module_names) then Returns value else Raises (AttributeError name).

Definition bind {A B} (x : outcome A) (f : A -> outcome B) : outcome B :=
  match x with
  | Returns a => f a
  | Raises e => Raises e
  end.

(** [json.loads] and [json.dumps] of the standard library. A text that is
    JSON but no object gives a value without [update]. *)
Definition loads (t : pref_text) : outcome (option (gmap string jval)) :=
  match t with
  | JsonObject d => Returns (Some d)
  | JsonOther => Returns None
  | NotJson _ => Raises JSONDecodeError
  end.

Definition dumps (d : gmap string jval) : pref_text := JsonObject d.

(** The two calls as [db_utils.py] writes them: the name [json] is looked
    up in the module first. *)
Definition json_loads (t : pref_text) : outcome (option (gmap string jval)) :=
  bind (global "json") (fun _ => loads t).

Definition json_dumps (d : gmap string jval) : outcome pref_text :=
  bind (global "json") (fun _ => Returns (dumps d)).

(** [add_user]; [connects] tells whether [get_db_connection] gives a
    connection, [current_ts] is the clock. The statement is an insert that
    on a conflict of the key updates the row, taking the first non-NULL of
    the new and the stored display name. *)
Definition add_user (connects : bool) (current_ts : Z) (users : gmap Z user_row)
    (user_id : Z) (telegram_username' display_name' : option string)
    : gmap Z user_row * bool :=
  if negb connects then (users, false)
  else
    match users !! user_id with
    | None =>
        (<[user_id := {| telegram_username := telegram_username';
                         display_name := display_name';
                         first_seen := current_ts;
                         last_interaction := Some current_ts;
                         preferences := None |}]> users, true)
    | Some row =>
        (<[user_id := {| telegram_username := telegram_username';
                         display_name :=
                           match display_name' with
                           | Some d => Some d
                           | None => display_name row
                           end;
                         first_seen := first_seen row;
                         last_interaction := Some current_ts;
                         preferences := preferences row |}]> users, true)
    end.

(** [get_user]: the row as it was read, and the table with the time of
    the last interaction set. *)
Definition get_user (connects : bool) (current_ts : Z) (users : gmap Z user_row)
    (user_id : Z) : gmap Z user_row * option user_row :=
  if negb connects then (users, None)
  else
    match users !! user_id with
    | Some row =>
        (<[user_id := {| telegram_username := telegram_username row;
                         display_name := display_name row;
                         first_seen := first_seen row;
                         last_interaction := Some current_ts;
                         preferences := preferences row |}]> users, Some row)
    | None => (users, None)
    end.

Definition set_display_name (d : string) (ts : Z) (row : user_row) : user_row :=
  {| telegram_username := telegram_username row;
     display_name := Some d;
     first_seen := first_seen row;
     last_interaction := Some ts;
     preferences := preferences row |}.

Definition set_preferences (p : pref_text) (ts : Z) (row : user_row) : user_row :=
  {| telegram_username := telegram_username row;
     display_name := display_name row;
     first_seen := first_seen row;
     last_interaction := Some ts;
     preferences := Some p |}.

(** [update_user_preferences]. The updates are pending until [commit]; when
    the function is left by an exception the connection is closed without
    it and the table stays as it was. Only [sqlite3.Error] is caught. *)
Definition update_user_preferences (connects : bool) (now : Z) (users : gmap Z user_row)
    (user_id : Z) (display_name' : option string) (other_prefs : option (gmap string jval))
    : gmap Z user_row * outcome bool :=
  if negb connects then (users, Returns false)
  else
    let current_prefs_json := preferences <$> users !! user_id in
    let current_prefs :=
      match current_prefs_json with
      | Some (Some t) => if text_truthy t then json_loads t else Returns (Some ∅)
      | _ => Returns (Some ∅)
      end in
    match current_prefs with
    | Raises e => (users, Raises e)
    | Returns current_prefs =>
        let pending :=
          match display_name' with
          | Some d => alter (set_display_name d now) user_id users
          | None => users
          end in
        match other_prefs with
        | None => (pending, Returns true)
        | Some other =>
            match current_prefs with
            | None => (users, Raises (AttributeError "update"))
            | Some current =>
                match json_dumps (other ∪ current) with
                | Raises e => (users, Raises e)
                | Returns t => (alter (set_preferences t now) user_id pending, Returns true)
                end
            end
        end
    end.

(** *** Journal entries *)

Record entry : Type := {
  entry_user : Z;
  timestamp : Z;
  raw_text : string;
  input_type : option string;
  word_count : Z;
  sentiment : option string;
  topics : option string;
  categories : option string;
  ai_analysis_text : option string;
  dot_code : option string
}.

(** A table with an AUTOINCREMENT key: the rows and the largest key ever
    given out. *)
Record table (A : Type) : Type := {
  rows : gmap Z A;
  last_id : Z
}.
Arguments rows {A} t.
Arguments last_id {A} t.

Definition insert_row {A} (x : A) (t : table A) : table A * Z :=
  let id := (last_id t + 1)%Z in
  ({| rows := <[id := x]> (rows t); last_id := id |}, id).

(** [add_journal_entry] with the analysis columns left at their default. *)
Definition add_journal_entry (connects : bool) (ts : Z) (t : table entry)
    (user_id : Z) (raw_text' : string) (input_type' : option string) (word_count' : Z)
    : table entry * option Z :=
  if negb connects then (t, None)
  else
    let (t', id) :=
      insert_row {| entry_user := user_id; timestamp := ts; raw_text := raw_text';
                    input_type := input_type'; word_count := word_count';
                    sentiment := None; topics := None; categories := None;
                    ai_analysis_text := None; dot_code := None |} t in
    (t', Some id).

Definition or_kept {A} (new old : option A) : option A :=
  match new with
  | Some x => Some x
  | None => old
  end.

(** [update_journal_entry_analysis]: only the arguments that are not [None]
    enter the statement. *)
Definition update_journal_entry_analysis (connects : bool) (t : table entry) (entry_id : Z)
    (sentiment' topics' categories' ai_analysis_text' dot_code' : option string)
    : table entry * bool :=
  if negb connects then (t, false)
  else
    match sentiment', topics', categories', ai_analysis_text', dot_code' with
    | None, None, None, None, None => (t, true)
    | _, _, _, _, _ =>
        ({| rows :=
              alter (fun e =>
                {| entry_user := entry_user e; timestamp := timestamp e;
                   raw_text := raw_text e; input_type := input_type e;
                   word_count := word_count e;
                   sentiment := or_kept sentiment' (sentiment e);
                   topics := or_kept topics' (topics e);
                   categories := or_kept categories' (categories e);
                   ai_analysis_text := or_kept ai_analysis_text' (ai_analysis_text e);
                   dot_code := or_kept dot_code' (dot_code e) |}) entry_id (rows t);
            last_id := last_id t |}, true)
    end.

(** [get_journal_entries_by_user]: the rows of the user, the latest first,
    at most [limit] of them. SQL leaves the order of rows with the same
    timestamp open; here the one with the larger key comes first. *)
Definition newer (a b : Z * entry) : bool :=
  (timestamp (snd b) <? timestamp (snd a))%Z
  || ((timestamp (snd a) =? timestamp (snd b))%Z && (fst b <? fst a)%Z).

Fixpoint insert_sorted (x : Z * entry) (l : list (Z * entry)) : list (Z * entry) :=
  match l with
  | [] => [x]
  | y :: l' => if newer x y then x :: y :: l' else y :: insert_sorted x l'
  end.

Definition newest_first (l : list (Z * entry)) : list (Z * entry) :=
  foldr insert_sorted [] l.

Definition get_journal_entries_by_user (connects : bool) (t : table entry)
    (user_id : Z) (limit : nat) : list (Z * entry) :=
  if negb connects then []
  else firstn limit
         (newest_first
            (List.filter (fun kv => (entry_user (snd kv) =? user_id)%Z)
                         (map_to_list (rows t)))).

(** *** Feedback and daily prompts *)

Record feedback : Type := {
  feedback_user : Z;
  feedback_timestamp : Z;
  feedback_text : string
}.

Definition add_feedback (connects : bool) (ts : Z) (t : table feedback)
    (user_id : Z) (feedback_text' : string) : table feedback * bool :=
  if negb connects then (t, false)
  else (fst (insert_row {| feedback_user := user_id; feedback_timestamp := ts;
                           feedback_text := feedback_text' |} t), true).

Record prompt : Type := {
  prompt_text : string;
  date_added : Z
}.

Definition has_text (text : string) (p : prompt) : bool := String.eqb (prompt_text p) text.

(** [add_daily_prompt]: the text is UNIQUE, a second insert of it raises
    [sqlite3.IntegrityError], which is answered by [None]. *)
Definition add_daily_prompt (connects : bool) (ts : Z) (t : table prompt)
    (prompt_text' : string) : table prompt * option Z :=
  if negb connects then (t, None)
  else if existsb (fun kv => has_text prompt_text' (snd kv)) (map_to_list (rows t))
  then (t, None)
  else
    let (t', id) := insert_row {| prompt_text := prompt_text'; date_added := ts |} t in
    (t', Some id).

(** [get_random_daily_prompt]; [pick] stands for the draw of RANDOM(). *)
Definition get_random_daily_prompt (connects : bool) (pick : nat) (t : table prompt)
    : option (Z * string) :=
  if negb connects then None
  else
    let all := map_to_list (rows t) in
    (fun kv => (fst kv, prompt_text (snd kv))) <$> all !! (pick mod length all).

End Db.

(** ** New_Main.py: the daily prompt scheduler *)

Module Scheduler.

Import Db.

(** Truth value of [preferences.get(key)]. *)
Definition truthy_val (v : option jval) : bool :=
  match v with
  | None => false
  | Some JNull => false
  | Some (JBool b) => b
  | Some (JNum z) => negb (z =? 0)%Z
  | Some (JStr s) => truthy s
  end.

Definition is_digit (c : ascii) : bool := char_between "0" c "9".
Definition digit (c : ascii) : Z := Z.of_N (ord c - 48).

(** The directive [%H]: two digits below 24 when they are there, else one
    digit. The colon that follows cannot be matched by going back to the
    one-digit reading, since the second character is then a digit. *)
Definition parse_hour (s : string) : option (Z * string) :=
  match s with
  | String a (String b rest) =>
      if is_digit a && is_digit b && (10 * digit a + digit b <? 24)%Z
      then Some ((10 * digit a + digit b)%Z, rest)
      else if is_digit a then Some (digit a, String b rest) else None
  | String a rest => if is_digit a then Some (digit a, rest) else None
  | EmptyString => None
  end.

(** The directive [%M]: two digits below 60 when they are there, else one
    digit. *)
Definition parse_minute (s : string) : option (Z * string) :=
  match s with
  | String a (String b rest) =>
      if is_digit a && is_digit b && (digit a <? 6)%Z
      then Some ((10 * digit a + digit b)%Z, rest)
      else if is_digit a then Some (digit a, String b rest) else None
  | String a rest => if is_digit a then Some (digit a, rest) else None
  | EmptyString => None
  end.

(** [datetime.strptime(s, '%H:%M').time()] as a minute of the day; [None]
    is [ValueError], also raised when text is left over. *)
Definition strptime_HM (s : string) : option Z :=
  match parse_hour s with
  | Some (h, String ":" rest) =>
      match parse_minute rest with
      | Some (m, EmptyString) => Some (h * 60 + m)%Z
      | _ => None
      end
  | _ => None
  end.

Record state : Type := {
  users : gmap Z user_row;
  prompts : table prompt;
  outbox : list (Z * string)
}.

(** The collaborators of one scan: the connection, the transport (whether
    a message to this user is delivered), the draw of the prompt for this
    user, and the clock. *)
Record world : Type := {
  connects : bool;
  delivers : Z -> bool;
  pick : Z -> nat;
  clock : Clock.clock
}.

(** One turn of the loop over [users_to_prompt]; the exception, if any, is
    one that leaves the loop. *)
Definition prompt_user (w : world) (user_id : Z) (preferences_str : option pref_text)
    (st : state) : state * option exn :=
  let now_utc := Clock.now_utc (clock w) in
  let today_str := Clock.strftime_Ymd now_utc in
  let parsed :=
    match preferences_str with
    | Some t => if text_truthy t then loads t else Returns (Some ∅)
    | None => Returns (Some ∅)
    end in
  match parsed with
  | Raises _ => (st, None)
  | Returns None => (st, Some (AttributeError "get"))
  | Returns (Some preferences) =>
      if truthy_val (preferences !! "daily_prompt_enabled")
         && negb (bool_decide (preferences !! "last_prompt_sent_date" = Some (JStr today_str)))
      then
        let preferred_time_obj :=
          match preferences !! "preferred_prompt_time" with
          | None => Returns (default 540%Z (strptime_HM "09:00"))
          | Some (JStr preferred_time_str) =>
              Returns (default 540%Z (strptime_HM preferred_time_str))
          | Some _ => Raises TypeError
          end in
        match preferred_time_obj with
        | Raises e => (st, Some e)
        | Returns preferred =>
            if (preferred <=? Clock.minute_of_day now_utc)%Z then
              match get_random_daily_prompt (connects w) (pick w user_id) (prompts st) with
              | Some (_, text) =>
                  if delivers w user_id then
                    let preferences' :=
                      <["last_prompt_sent_date" := JStr today_str]> preferences in
                    let (users', _) :=
                      update_user_preferences (connects w) now_utc (users st) user_id
                        None (Some preferences') in
                    ({| users := users'; prompts := prompts st;
                        outbox := outbox st ++ [(user_id, text)] |}, None)
                  else (st, None)
              | None => (st, None)
              end
            else (st, None)
        end
      else (st, None)
  end.

Fixpoint for_users (w : world) (users_to_prompt : list (Z * option pref_text)) (st : state)
    : state :=
  match users_to_prompt with
  | [] => st
  | (user_id, preferences_str) :: more =>
      match prompt_user w user_id preferences_str st with
      | (st', None) => for_users w more st'
      | (st', Some _) => st'
      end
  end.

(** One pass of the body of [daily_prompt_scheduler]; the handler around it
    logs whatever is raised. [get_users] is what the attribute
    [db_utils.get_users_for_daily_prompt_check] evaluates to. *)
Definition scan (get_users : outcome (gmap Z user_row -> list (Z * option pref_text)))
    (w : world) (st : state) : state :=
  match get_users with
  | Raises _ => st
  | Returns get_users_for_daily_prompt_check =>
      for_users w (get_users_for_daily_prompt_check (users st)) st
  end.

(** Modelled from the spec: [get_users_for_daily_prompt_check] is called by
    [New_Main.py] and defined nowhere in the repository; the specification
    lists it as the store's operation that retrieves all users with the
    daily-prompt preference enabled, as pairs of user id and preferences. *)
Definition users_with_prompt_enabled (users : gmap Z user_row)
    : list (Z * option pref_text) :=
  omap (fun kv =>
          match preferences (snd kv) with
          | Some (JsonObject d) =>
              if truthy_val (d !! "daily_prompt_enabled")
              then Some (fst kv, preferences (snd kv)) else None
          | _ => None
          end) (map_to_list users).

(** The attribute as the module of the repository gives it. *)
Definition get_users_for_daily_prompt_check
    : outcome (gmap Z user_row -> list (Z * option pref_text)) :=
  attribute "get_users_for_daily_prompt_check" users_with_prompt_enabled.

End Scheduler.

(** ** New_Main.py: commands and modes *)

Module Commands.

Import Db.

Record tg_user : Type := {
  id : Z;
  username : option string;
  first_name : option string
}.

(** [str(user_id)] *)
Definition str_of_Z (z : Z) : string :=
  if (z <? 0)%Z then "-" +:+ str_of_nat (Z.to_nat (- z)) else str_of_nat (Z.to_nat z).

(** [a or b] for a string that may be absent. *)
Definition or_else (a : option string) (b : string) : string :=
  match a with
  | Some s => if truthy s then s else b
  | None => b
  end.

Definition telegram_username_of (user : tg_user) : string :=
  or_else (username user) (str_of_Z (id user)).

Definition SELECTING_MODE : string := "SELECTING_MODE".


Inductive next_state : Type :=
  | State (name : string)
  | Ended.

(** [start_command]: the users, the mode kept in [user_data], the name in
    the greeting and the next state. All calls of one command read the
    clock as [now]. *)
Definition start_command (connects : bool) (now : Z) (users : gmap Z user_row)
    (user : tg_user) (current_mode : option string)
    : gmap Z user_row * option string * string * next_state :=
  let telegram_username := telegram_username_of user in
  let (users1, db_user_info) := get_user connects now users (id user) in
  let (users2, db_user_info) :=
    match db_user_info with
    | Some row => (users1, Some row)
    | None =>
        let users' :=
          fst (add_user connects now users1 (id user) (Some telegram_username)
                 (Some (or_else (first_name user) telegram_username))) in
        get_user connects now users' (id user)
    end in
  let display_name :=
    match db_user_info with
    | Some row => or_else (display_name row) telegram_username
    | None => telegram_username
    end in
  (users2, None, display_name, State SELECTING_MODE).





(** The replies of [set_username_command]. *)
Inductive username_reply : Type :=
  | Usage
  | Invalid
  | SetTo (new_display_name : string)
  | ErrorSaving.

Definition set_username_command (connects : bool) (now : Z) (users : gmap Z user_row)
    (user : tg_user) (args : list string) : gmap Z user_row * outcome username_reply :=
  match args with
  | [] => (users, Returns Usage)
  | _ =>
      let new_display_name := strip (join " " args) in
      if negb (truthy new_display_name) || (50 <? String.length new_display_name)%nat
      then (users, Returns Invalid)
      else
        let (users1, db_user_info) := get_user connects now users (id user) in
        match db_user_info with
        | None =>
            (fst (add_user connects now users1 (id user)
                    (Some (telegram_username_of user)) (Some new_display_name)),
             Returns (SetTo new_display_name))
        | Some _ =>
            match update_user_preferences connects now users1 (id user)
                    (Some new_display_name) None with
            | (users2, Returns true) => (users2, Returns (SetTo new_display_name))
            | (users2, Returns false) => (users2, Returns ErrorSaving)
            | (users2, Raises e) => (users2, Raises e)
            end
        end
  end.

(** [feedback_command]: the users, the feedback table and whether the
    thanks are sent ([None]: the usage text). *)
Definition feedback_command (connects : bool) (now : Z) (users : gmap Z user_row)
    (feedbacks : table feedback) (user : tg_user) (args : list string)
    : gmap Z user_row * table feedback * option bool :=
  match args with
  | [] => (users, feedbacks, None)
  | _ =>
      let feedback_message := join " " args in
      let (users1, db_user_info) := get_user connects now users (id user) in
      let users2 :=
        match db_user_info with
        | Some _ => users1
        | None =>
            fst (add_user connects now users1 (id user)
                   (Some (telegram_username_of user)) None)
        end in
      let (feedbacks', success) :=
        add_feedback connects now feedbacks (id user) feedback_message in
      (users2, feedbacks', Some success)
  end.

(** [disable_prompts_command]: whether the confirmation is sent. *)
Definition disable_prompts_command (connects : bool) (now : Z) (users : gmap Z user_row)
    (user : tg_user) : gmap Z user_row * outcome bool :=
  update_user_preferences connects now users (id user) None
    (Some {[ "daily_prompt_enabled" := JBool false ]}).

End Commands.

(** ** New_Main.py: the journal pipeline as a whole *)

Module Pipeline.

Import Db Commands.

(** [text.split()]: the words between runs of whitespace. *)
Fixpoint split_whitespace (s : string) : list string :=
  match s with
  | EmptyString => []
  | String c s' =>
      if isspace c then split_whitespace s'
      else
        match s' with
        | EmptyString => [String c EmptyString]
        | String d _ =>
            if isspace d then String c EmptyString :: split_whitespace s'
            else match split_whitespace s' with
                 | w :: ws => String c w :: ws
                 | [] => [String c EmptyString]
                 end
        end
  end.

(** [len(text.split())] (line 653) *)
Definition word_count (text : string) : Z := Z.of_nat (length (split_whitespace text)).

(** Lines 750 and 751. *)
Definition clean_text_summary (text : string) : string :=
  replace "}" ")" (replace "{" "(" (replace newline " " (replace dquote EmptyString (take 30 text)))).

Definition clean_sentiment (sentiment : string) : string :=
  replace "}" ")" (replace "{" "(" (replace dquote EmptyString sentiment)).

Definition JOURNAL_CATEGORIES_LIST : list string :=
  ["Emotional"; "Family"; "Grief"; "Workplace"; "Technology"; "AI"; "Spouse"; "Kid";
   "Personal Reflection"; "Health"; "Finance"; "Social"; "Hobby"; "Other"].

(** The string that the f-string of lines 666-678 evaluates to: the display
    name and the list of categories are put in, and the doubled braces
    around [text] come out as single ones. *)
Definition categorization_prompt_template (display_name : string) : string :=
  "Analyze the following journal entry for user " +:+ display_name +:+ ":" +:+ NL
  +:+ "---" +:+ NL
  +:+ "{text}" +:+ NL
  +:+ "---" +:+ NL
  +:+ "Provide:" +:+ NL
  +:+ "1. Sentiment: (e.g., Positive, Negative, Neutral, Mixed, Anxious, Hopeful, etc. - be specific if possible)" +:+ NL
  +:+ "2. Topics: (e.g., Work, Family, Personal Growth, Hobbies, Current Events - list up to 3 comma-separated topics, or 'None' if not applicable)" +:+ NL
  +:+ "3. Categories: (Choose up to 3 relevant categories from this list: "
  +:+ join ", " JOURNAL_CATEGORIES_LIST
  +:+ ". If none seem to fit well, suggest 'Other' or a more specific category if evident from the text. List as comma-separated.)" +:+ NL
  +:+ NL
  +:+ "Format your response *exactly* as follows, with each item on a new line, and do not add any extra text or explanations:" +:+ NL
  +:+ "Sentiment: [Identified Sentiment]" +:+ NL
  +:+ "Topics: [Identified Topics]" +:+ NL
  +:+ "Categories: [Chosen Categories]".

(** The string that the f-string of lines 722-748 evaluates to. It has no
    expression in it, only doubled braces, which come out as single ones:
    around the seven names, and around the body of the digraph. *)
Definition therapist_analysis_prompt_template : string :=
  "Act as a thoughtful and empathetic journaling assistant. The user, {display_name}, has provided the following journal entry:" +:+ NL
  +:+ NL
  +:+ "{current_entry_summary}" +:+ NL
  +:+ NL
  +:+ "{history_context}" +:+ NL
  +:+ NL
  +:+ "Considering the current entry and any available history, please provide a concise (2-3 paragraphs), empathetic, and insightful analysis. Focus on potential patterns, underlying feelings, or themes. Offer 1-2 gentle, actionable suggestions or reflective questions that might help {display_name}. Avoid giving direct medical advice. Address the user as {display_name}." +:+ NL
  +:+ NL
  +:+ "Also, generate a DOT language representation for a mind map visualizing the key themes and connections in the *current* entry. The mind map should be simple and clear. Format this DOT code *exactly* between '--- DOT START ---' and '--- DOT END ---' markers. Ensure the DOT code is valid and self-contained." +:+ NL
  +:+ NL
  +:+ "**Analysis for {display_name}:**" +:+ NL
  +:+ "[Your insightful analysis here]" +:+ NL
  +:+ NL
  +:+ "--- DOT START ---" +:+ NL
  +:+ "digraph JournalMap {" +:+ NL
  +:+ "    rankdir=LR;" +:+ NL
  +:+ "    bgcolor=" +:+ DQ +:+ "transparent" +:+ DQ +:+ ";" +:+ NL
  +:+ "    node [shape=box, style=" +:+ DQ +:+ "rounded,filled" +:+ DQ
  +:+ ", fillcolor=lightblue, fontname=" +:+ DQ +:+ "Arial" +:+ DQ +:+ ", fontsize=10];" +:+ NL
  +:+ "    edge [arrowhead=none, color=" +:+ DQ +:+ "#555555" +:+ DQ +:+ "];" +:+ NL
  +:+ "    main [label=" +:+ DQ +:+ "{text_summary}..." +:+ DQ +:+ "];" +:+ NL
  +:+ "    senti [label=" +:+ DQ +:+ "Sentiment: {sentiment}" +:+ DQ +:+ "];" +:+ NL
  +:+ "    main -> senti;" +:+ NL
  +:+ "    {topics_dot}" +:+ NL
  +:+ "    {categories_dot}" +:+ NL
  +:+ "}" +:+ NL
  +:+ "--- DOT END ---" +:+ NL.

(** The collaborators of one run. [connects] tells whether
    [get_db_connection] gives a connection, [clock] is the time in UTC,
    [delivers n] whether the call number [n] to the chat transport goes
    through, [generate] what [generate_gemini_response] returns for a
    one-part prompt, [escape_markdown] the helper of the transport library,
    [timestamp_text] what lines 708-715 make of a stored timestamp,
    [exotic] what the interpreter makes of a replacement field that is more
    than a name, [render] whether Graphviz produces an image. *)
Record world : Type := {
  connects : bool;
  clock : Z;
  delivers : nat -> bool;
  generate : string -> option string;
  escape_markdown : string -> string;
  timestamp_text : Z -> string;
  exotic : string -> option ascii -> string -> outcome string;
  render : string -> bool
}.

(** The store, the calls made to the transport and what was seen. *)
Record state : Type := {
  users : gmap Z user_row;
  entries : table entry;
  calls : nat;
  trace : list Input.event
}.

Definition note (e : Input.event) : step state unit :=
  fun s =>
    (Returns tt,
     {| users := users s; entries := entries s; calls := calls s; trace := trace s ++ [e] |}).

(** One call to the transport. *)
Definition send (w : world) (e : Input.event) : step state unit :=
  fun s =>
    if delivers w (calls s)
    then (Returns tt,
          {| users := users s; entries := entries s; calls := S (calls s);
             trace := trace s ++ [e] |})
    else (Raises SendFailed,
          {| users := users s; entries := entries s; calls := S (calls s);
             trace := trace s |}).

(** A value computed without effects that may raise. *)
Definition lift {A} (x : outcome A) : step state A := fun s => (x, s).

(** [generate_gemini_response] for a one-part prompt: the text. *)
Definition ask (w : world) (prompt : string) : step state (option string) :=
  note (Input.AskModel prompt) ;; ret (generate w prompt).

Definition get_user (w : world) (user_id : Z) : step state (option user_row) :=
  fun s =>
    let (users', row) := Db.get_user (connects w) (clock w) (users s) user_id in
    (Returns row,
     {| users := users'; entries := entries s; calls := calls s; trace := trace s |}).

Definition add_user (w : world) (user_id : Z) (telegram_username display_name : option string)
    : step state bool :=
  fun s =>
    let (users', ok) :=
      Db.add_user (connects w) (clock w) (users s) user_id telegram_username display_name in
    (Returns ok,
     {| users := users'; entries := entries s; calls := calls s; trace := trace s |}).

Definition add_journal_entry (w : world) (user_id : Z) (raw_text : string)
    (input_type : option string) (word_count : Z) : step state (option Z) :=
  fun s =>
    let (entries', entry_id) :=
      Db.add_journal_entry (connects w) (clock w) (entries s) user_id raw_text input_type
        word_count in
    (Returns entry_id,
     {| users := users s; entries := entries'; calls := calls s; trace := trace s |}).

Definition update_journal_entry_analysis (w : world) (entry_id : Z)
    (sentiment topics categories ai_analysis_text dot_code : option string)
    : step state bool :=
  fun s =>
    let (entries', ok) :=
      Db.update_journal_entry_analysis (connects w) (entries s) entry_id
        sentiment topics categories ai_analysis_text dot_code in
    (Returns ok,
     {| users := users s; entries := entries'; calls := calls s; trace := trace s |}).

Definition get_journal_entries_by_user (w : world) (user_id : Z) (limit : nat)
    : step state (list (Z * entry)) :=
  fun s => (Returns (Db.get_journal_entries_by_user (connects w) (entries s) user_id limit), s).

(** Lines 636-645: the name the user is addressed by. *)
Definition resolve_display_name (w : world) (user : tg_user) : step state string :=
  let user_id := id user in
  let telegram_username := telegram_username_of user in
  db_user_info <- get_user w user_id ;;
  match db_user_info with
  | Some row => ret (or_else (display_name row) telegram_username)
  | None =>
      let initial_display_name := or_else (first_name user) telegram_username in
      add_user w user_id (Some telegram_username) (Some initial_display_name) ;;
      db_user_info <- get_user w user_id ;;
      ret (match db_user_info with
           | Some row =>
               if truthy (default EmptyString (display_name row))
               then default EmptyString (display_name row)
               else or_else (first_name user) telegram_username
           | None => or_else (first_name user) telegram_username
           end)
  end.

(** [escape_markdown] applied to a column that may be NULL: the helper
    hands its argument to [re.sub], which raises [TypeError] for [None]. *)
Definition escape_column (w : world) (value : option string) : outcome string :=
  match value with
  | Some v => Returns (escape_markdown w v)
  | None => Raises TypeError
  end.

(** The f-string of line 716 for one earlier entry. *)
Definition history_line (w : world) (e : entry) : outcome string :=
  let text := escape_markdown w (take 100 (raw_text e)) in
  Db.bind (escape_column w (sentiment e)) (fun sentiment =>
  Db.bind (escape_column w (topics e)) (fun topics =>
  Returns ("- On " +:+ timestamp_text w (timestamp e) +:+ ": " +:+ text
           +:+ "... (Sentiment: " +:+ sentiment +:+ ", Topics: " +:+ topics +:+ ")"))).

(** The loop of lines 705-716 over the entries, the entry of this run
    skipped. *)
Fixpoint history_lines (w : world) (entry_id : Z) (l : list (Z * entry))
    : outcome (list string) :=
  match l with
  | [] => Returns []
  | (k, e) :: l' =>
      if (k =? entry_id)%Z then history_lines w entry_id l'
      else
        Db.bind (history_line w e) (fun line =>
        Db.bind (history_lines w entry_id l') (fun lines =>
        Returns (line :: lines)))
  end.

Fixpoint concat (l : list string) : string :=
  match l with
  | [] => EmptyString
  | x :: l' => x +:+ concat l'
  end.

(** Lines 702-718. *)
Definition history_context (w : world) (display_name : string) (entry_id : Z)
    (recent_entries_from_db : list (Z * entry)) : outcome string :=
  match recent_entries_from_db with
  | [] =>
      Returns (NL +:+ NL
               +:+ "This seems to be one of your first entries, or I couldn't retrieve recent history.")
  | _ =>
      Db.bind (history_lines w entry_id (rev recent_entries_from_db)) (fun lines =>
      Returns (concat
        ((NL +:+ NL +:+ "Here are summaries of some of your recent entries, "
          +:+ escape_markdown w display_name +:+ ":") :: lines)))
  end.

(** [str(x)] for a string that may be [None]. *)
Definition str_of_option (x : option string) : string := default "None" x.

(** Line 720. *)
Definition current_entry_summary (w : world) (display_name text : string)
    (input_type : option string) (c : Journal.categorization) : string :=
  "User's name: " +:+ escape_markdown w display_name +:+ NL
  +:+ "The user's latest journal entry (submitted on " +:+ Clock.strftime_YmdHMSZ (clock w)
  +:+ " with input type '" +:+ str_of_option input_type
  +:+ "', AI-detected sentiment '" +:+ escape_markdown w (Journal.sentiment c)
  +:+ "', AI-detected topics '" +:+ escape_markdown w (Journal.topics c)
  +:+ "', and AI-detected categories '" +:+ escape_markdown w (Journal.categories c)
  +:+ "') is:" +:+ NL +:+ "---" +:+ NL +:+ escape_markdown w text +:+ NL +:+ "---".

Fixpoint lower_string (s : string) : string :=
  match s with
  | EmptyString => EmptyString
  | String c s' => String (lower c) (lower_string s')
  end.

(** [generate_mind_map_image]: whether there is an image to send. *)
Definition generate_mind_map_image (w : world) (dot_string : string) : bool :=
  if negb (truthy dot_string) || negb (contains "digraph" (lower_string dot_string))
  then false
  else render w dot_string.

(** Lines 806-826. *)
Definition mind_map_steps (w : world) (dot_code_for_db : option string) : step state unit :=
  (match dot_code_for_db with
   | Some dot =>
       if truthy dot then
         send w (Input.Reply "Generating mind map...") ;;
         if generate_mind_map_image w dot
         then try_ (send w (Input.Photo "Mind map of your entry.") ;;
                    send w Input.MapStatusDelete)
                   (fun _ => send w (Input.MapStatusEdit "Error sending the mind map image."))
         else send w (Input.MapStatusEdit
                        "Could not generate the mind map from the provided data.")
       else send w (Input.Reply "(Mind map could not be generated for this entry.)")
   | None => send w (Input.Reply "(Mind map could not be generated for this entry.)")
   end) ;;
  send w (Input.Reply "Your journal entry has been fully processed!").

(** Lines 766-803: the request for the analysis, its parsing and storing,
    and the edit of the status message. The handler of the edit names
    [telegram.error.BadRequest], and no name [telegram] is bound. *)
Definition analysis_steps (w : world) (entry_id : Z) (therapist_analysis_prompt : string)
    : step state (option string) :=
  analysis_response_text <- ask w therapist_analysis_prompt ;;
  let a := Journal.parse_analysis analysis_response_text in
  (if Journal.usable analysis_response_text
   then update_journal_entry_analysis w entry_id None None None
          (Journal.ai_analysis_text_for_db a) (Journal.dot_code_for_db a) ;; ret tt
   else if truthy (default EmptyString analysis_response_text)
   then update_journal_entry_analysis w entry_id None None None
          (Some (Journal.ai_analysis_output_for_user a)) None ;; ret tt
   else ret tt) ;;
  try_ (send w (Input.StatusEdit (escape_markdown w (Journal.ai_analysis_output_for_user a))))
       (fun _ => raise (NameError "telegram")) ;;
  ret (Journal.dot_code_for_db a).

(** Lines 665-826: what [handle_journal_logic] does once the entry is
    saved under [entry_id]. *)
Definition after_saving (w : world) (user_id : Z) (display_name text : string)
    (input_type : option string) (entry_id : Z) : step state unit :=
  send w (Input.StatusEdit "Analyzing your entry...") ;;
  categorization_prompt <-
    lift (format (exotic w) (categorization_prompt_template display_name)
            [("text", text)]) ;;
  categorization_response <- ask w categorization_prompt ;;
  let c := Journal.parse_categorization categorization_response in
  (if Journal.usable categorization_response
   then update_journal_entry_analysis w entry_id
          (Some (Journal.sentiment c)) (Some (Journal.topics c))
          (Some (Journal.categories c)) None None ;; ret tt
   else send w (Input.Reply
          ("AI categorization of your entry encountered an issue. It's saved, but some insights might be missing. Details: "
           +:+ Input.or_default categorization_response "No response"))) ;;
  send w (Input.StatusEdit "Thinking about your entry...") ;;
  recent_entries_from_db <- get_journal_entries_by_user w user_id 5 ;;
  history <- lift (history_context w display_name entry_id recent_entries_from_db) ;;
  let summary := current_entry_summary w display_name text input_type c in
  let topics_dot_str := Journal.topics_dot_str (Journal.topics c) in
  let categories_dot_str := Journal.categories_dot_str (Journal.categories c) in
  therapist_analysis_prompt <-
    lift (format (exotic w) therapist_analysis_prompt_template
            [("display_name", display_name);
             ("current_entry_summary", summary);
             ("history_context", history);
             ("text_summary", clean_text_summary text);
             ("sentiment", clean_sentiment (Journal.sentiment c));
             ("topics_dot", topics_dot_str);
             ("categories_dot", categories_dot_str)]) ;;
  dot_code_for_db <- analysis_steps w entry_id therapist_analysis_prompt ;;
  mind_map_steps w dot_code_for_db.

(** [handle_journal_logic] (lines 631-826). The test [not entry_id] holds
    for [None] and for the key 0. *)
Definition handle_journal_logic (w : world) (user : tg_user) (text : string)
    (input_type : option string) : step state unit :=
  let user_id := id user in
  display_name <- resolve_display_name w user ;;
  send w (Input.Status "Saving your thoughts...") ;;
  entry_id <- add_journal_entry w user_id text input_type (word_count text) ;;
  let saving_failed :=
    send w (Input.StatusEdit
              "Oops! There was an error saving your journal entry. Please try again.") in
  match entry_id with
  | None => saving_failed
  | Some entry_id =>
      if (entry_id =? 0)%Z then saving_failed
      else after_saving w user_id display_name text input_type entry_id
  end.

End Pipeline.


(** ** Vocabulary of the statements *)

Module Words.

Fixpoint all_chars (P : ascii -> bool) (s : string) : bool :=
  match s with
  | EmptyString => true
  | String c s' => P c && all_chars P s'
  end.

(** The character [c] occurs nowhere in [s]. *)
Definition lacks (c : ascii) (s : string) : bool :=
  all_chars (fun x => negb (Ascii.eqb x c)) s.

(** Every double quote of [s] directly follows a backslash. *)
Fixpoint dquotes_escaped_after (prev_backslash : bool) (s : string) : bool :=
  match s with
  | EmptyString => true
  | String c s' =>
      (if Ascii.eqb c dquote then prev_backslash else true)
      && dquotes_escaped_after (Ascii.eqb c backslash) s'
  end.
Definition dquotes_escaped (s : string) : bool := dquotes_escaped_after false s.

(** The only whitespace of [s] is the space character. *)
Definition spaces_only (s : string) : bool :=
  all_chars (fun c => negb (isspace c) || Ascii.eqb c " ") s.

(** [part] is a contiguous piece of [whole]. *)
Definition piece_of (part whole : string) : Prop :=
  exists a b, whole = a +:+ part +:+ b.

(** [pre +:+ sub] ends with the first occurrence of [sub] in it. *)
Definition first_at (sub pre : string) : Prop :=
  forall a b, pre +:+ sub = a +:+ sub +:+ b -> b = EmptyString.








(** [s] starts with an opening square bracket, as every error marker of
    the model gateway does. *)
Definition tagged (s : string) : bool :=
  match s with
  | String c _ => Ascii.eqb c "["
  | EmptyString => false
  end.

(** The answer of the handler of [get_text_from_input]. *)
Definition unexpected_error : string :=
  "An unexpected error occurred processing your input.".

End Words.

(** ** Inputs and outputs used as examples *)

Module Examples.

(** The categorization response of the specification. *)
Definition categorization_example : string :=
  "Sentiment: Hopeful" +:+ NL +:+ "Topics: Work, Family" +:+ NL +:+ "Categories: Workplace".

(** The analysis response of the specification. *)
Definition analysis_example : string :=
  "intro text" +:+ NL +:+ "--- DOT START ---" +:+ NL +:+ "digraph{a->b}" +:+ NL
  +:+ "--- DOT END ---" +:+ NL +:+ "trailer".

(** The topic named in the specification. *)
Definition named_topic : string :=
  "Test " +:+ DQ +:+ "Topic" +:+ DQ +:+ " - for 'project' & `code`".

(** A quote followed by a tab: the tab is not at an end of the string until
    the quote has been deleted. *)
Definition quote_tab_topic : string := "'" +:+ s_of tab +:+ "x".

(** Nodes of the diagram description for the topics Work, N/A. *)
Definition work_node : string :=
  "topic0 [label=" +:+ DQ +:+ "Topic: Work" +:+ DQ +:+ ", fillcolor=" +:+ DQ +:+ "lightgreen"
  +:+ DQ +:+ "]; main -> topic0;".

Definition na_node : string :=
  "topic1 [label=" +:+ DQ +:+ "Topic: N/A" +:+ DQ +:+ ", fillcolor=" +:+ DQ +:+ "lightgreen"
  +:+ DQ +:+ "]; main -> topic1;".

Definition na_category_node : string :=
  "cat1 [label=" +:+ DQ +:+ "Category: N/A" +:+ DQ +:+ ", fillcolor=" +:+ DQ +:+ "lightcoral"
  +:+ DQ +:+ "]; main -> cat1;".

(** A world in which the audio is silent: the model answers the
    transcription request with blanks. *)
Definition silent_world : Input.world :=
  {| Input.genai_model := true;
     Input.audio_file_exists := true;
     Input.audio := Gateway.AudioText "  ";
     Input.generate := fun _ => None;
     Input.vision := Input.ImageGone;
     Input.escape_markdown := fun s => s;
     Input.delivers := fun _ => true |}.

Definition voice_message : Input.message :=
  {| Input.text := None; Input.voice := true; Input.photo := false |}.

(** A world in which the model punctuates one transcript. *)
Definition talking_world : Input.world :=
  {| Input.genai_model := true;
     Input.audio_file_exists := true;
     Input.audio := Gateway.AudioText "had a rough day";
     Input.generate := fun _ => Some "Had a rough day.";
     Input.vision := Input.ImageGone;
     Input.escape_markdown := fun s => s;
     Input.delivers := fun _ => true |}.

(** A world in which the speaker cites a footnote, and the model writes it
    down as told. *)
Definition footnote_world : Input.world :=
  {| Input.genai_model := true;
     Input.audio_file_exists := true;
     Input.audio := Gateway.AudioText "see [1] for details";
     Input.generate := fun _ => Some "See [1] for details.";
     Input.vision := Input.ImageGone;
     Input.escape_markdown := fun s => s;
     Input.delivers := fun _ => true |}.

(** Clock readings on 2024-05-01: 10:00, 11:00, 21:00 and 23:00 UTC. *)
Definition at_10 : Z := 1714557600.
Definition at_11 : Z := 1714561200.
Definition at_21 : Z := 1714597200.
Definition at_23 : Z := 1714604400.

Definition utc (t : Z) : Clock.clock := {| Clock.unix_time := t; Clock.utcoffset := 0 |}.

(** The same instants read by a process two hours east of UTC. *)
Definition east (t : Z) : Clock.clock := {| Clock.unix_time := t; Clock.utcoffset := 7200 |}.

(** The counter of a process that has just started, with a writable file. *)
Definition started (data : option Tokens.token_data) : Tokens.state :=
  Tokens.initialize_token_data
    {| Tokens.file := data; Tokens.writable := true; Tokens.cache_session := 0 |}.

(** A file that already counts a hundred tokens for 2024-05-01. *)
Definition used_today : Tokens.token_data :=
  {| Tokens.total := 100; Tokens.daily_date := "2024-05-01";
     Tokens.daily_count := 100; Tokens.session := 40 |}.

Definition three_increments (c1 c2 c3 : Clock.clock) (st : Tokens.state) : Tokens.state :=
  Tokens.increment_token_usage c3 0 1
    (Tokens.increment_token_usage c2 3 2
      (Tokens.increment_token_usage c1 10 5 st)).

(** A user who asked for daily prompts at 09:00 and got the last one on
    2024-04-30. *)
Definition ann_preferences : gmap string Db.jval :=
  <["daily_prompt_enabled" := Db.JBool true]>
    (<["preferred_prompt_time" := Db.JStr "09:00"]>
      (<["last_prompt_sent_date" := Db.JStr "2024-04-30"]> ∅)).

Definition ann : Db.user_row :=
  {| Db.telegram_username := Some "ann";
     Db.display_name := Some "Ann";
     Db.first_seen := 0;
     Db.last_interaction := None;
     Db.preferences := Some (Db.JsonObject ann_preferences) |}.

(** A user without stored preferences. *)
Definition bob : Db.user_row :=
  {| Db.telegram_username := Some "bob";
     Db.display_name := Some "Bob";
     Db.first_seen := 0;
     Db.last_interaction := None;
     Db.preferences := None |}.

Definition one_prompt : Db.table Db.prompt :=
  {| Db.rows := {[ 1%Z := {| Db.prompt_text := "What are you grateful for today?";
                             Db.date_added := 0 |} ]};
     Db.last_id := 1 |}.

Definition ann_waiting : Scheduler.state :=
  {| Scheduler.users := {[ 7%Z := ann ]};
     Scheduler.prompts := one_prompt;
     Scheduler.outbox := [] |}.

Definition scan_world (t : Z) : Scheduler.world :=
  {| Scheduler.connects := true;
     Scheduler.delivers := fun _ => true;
     Scheduler.pick := fun _ => 0;
     Scheduler.clock := utc t |}.

End Examples.

(** ** More vocabulary and examples *)

Module MoreWords.


(** A run of calls of [increment_token_usage], each with its reading of the
    clock and its two counts. *)
Fixpoint increments (calls : list (Clock.clock * Z * Z)) (st : Tokens.state) : Tokens.state :=
  match calls with
  | [] => st
  | (c, prompt_tokens, candidate_tokens) :: more =>
      increments more (Tokens.increment_token_usage c prompt_tokens candidate_tokens st)
  end.

Fixpoint tokens_of (calls : list (Clock.clock * Z * Z)) : Z :=
  match calls with
  | [] => 0
  | (_, prompt_tokens, candidate_tokens) :: more =>
      (prompt_tokens + candidate_tokens + tokens_of more)%Z
  end.

(** Every key of the table is one that has been given out. *)
Definition keys_given_out {A} (t : Db.table A) : Prop :=
  forall k, is_Some (Db.rows t !! k) -> (k <= Db.last_id t)%Z.

(** No two prompts of the table have the same text. *)
Definition texts_distinct (t : Db.table Db.prompt) : Prop :=
  forall k1 k2 p1 p2,
    Db.rows t !! k1 = Some p1 -> Db.rows t !! k2 = Some p2 ->
    Db.prompt_text p1 = Db.prompt_text p2 -> k1 = k2.

(** An answer of the input normalisation: a text with its tag and no error,
    or no text and an error that is not empty; the error of a voice message
    has a bracket in it or is the answer of the handler. *)
Definition well_formed (r : Input.result) : Prop :=
  match r with
  | (Some _, Some tag, None) => tag = "text" \/ tag = "audio" \/ tag = "image"
  | (None, Some tag, Some e) =>
      e <> EmptyString /\
      (tag = "audio" -> contains "[" e = true \/ e = Words.unexpected_error)
  | (None, None, Some e) => e = "Unsupported message type."
  | _ => False
  end.

(** A time of day written with two digits for the hour and two for the
    minute. *)
Definition HH_MM (h m : nat) : string :=
  Clock.pad2 (Z.of_nat h) +:+ ":" +:+ Clock.pad2 (Z.of_nat m).

(** The prompts sent to the model, in order. *)
Fixpoint requests (trace : list Input.event) : list string :=
  match trace with
  | [] => []
  | Input.AskModel prompt :: more => prompt :: requests more
  | _ :: more => requests more
  end.

(** No row of [t'] holds an analysis text or a diagram description that
    the same row of [t] did not hold. *)
Definition analysis_untouched (t t' : Db.table Db.entry) : Prop :=
  forall k e', Db.rows t' !! k = Some e' ->
    (Db.ai_analysis_text e' = None /\ Db.dot_code e' = None) \/
    (exists e, Db.rows t !! k = Some e /\
               Db.ai_analysis_text e' = Db.ai_analysis_text e /\
               Db.dot_code e' = Db.dot_code e).

(** How a part of the pipeline that starts in [s] can end without having
    asked for the analysis: by an exception, with the users as they were,
    with at most the categorization prompt for the name [dn] and the entry
    [text] sent to the model, and with the analysis text and the diagram
    description of every row as they were. *)
Definition stops_short (w : Pipeline.world) (dn text : string) (s : Pipeline.state)
    (r : outcome unit * Pipeline.state) : Prop :=
  (exists e, fst r = Raises e) /\
  Pipeline.users (snd r) = Pipeline.users s /\
  (requests (Pipeline.trace (snd r)) = requests (Pipeline.trace s) \/
   exists p,
     format (Pipeline.exotic w) (Pipeline.categorization_prompt_template dn) [("text", text)]
     = Returns p /\
     requests (Pipeline.trace (snd r)) = requests (Pipeline.trace s) ++ [p]) /\
  (forall k e', Db.rows (Pipeline.entries (snd r)) !! k = Some e' ->
     exists e, Db.rows (Pipeline.entries s) !! k = Some e /\
               Db.ai_analysis_text e' = Db.ai_analysis_text e /\
               Db.dot_code e' = Db.dot_code e).

(** [template] with the first occurrence of [hole] replaced by [value]. *)
Definition substitute (hole value template : string) : string :=
  match search eq_exact hole template with
  | Some (before, after) => before +:+ value +:+ after
  | None => template
  end.

End MoreWords.

Module MoreExamples.

Import Examples.

Definition bob_account : Commands.tg_user :=
  {| Commands.id := 1; Commands.username := Some "bob"; Commands.first_name := Some "Bob" |}.

(** A world in which everything works: the store is reachable, every message
    is delivered, and the model answers the categorization request and any
    other request with the responses of the specification. *)
Definition journal_world : Pipeline.world :=
  {| Pipeline.connects := true;
     Pipeline.clock := at_10;
     Pipeline.delivers := fun _ => true;
     Pipeline.generate :=
       fun prompt =>
         if contains "Analyze the following journal entry" prompt
         then Some categorization_example
         else Some analysis_example;
     Pipeline.escape_markdown := fun s => s;
     Pipeline.timestamp_text := fun _ => "earlier";
     Pipeline.exotic := fun _ _ _ => Raises ValueError;
     Pipeline.render := fun _ => true |}.

(** The same world without a connection to the store. *)
Definition offline_world : Pipeline.world :=
  {| Pipeline.connects := false;
     Pipeline.clock := at_10;
     Pipeline.delivers := fun _ => true;
     Pipeline.generate := Pipeline.generate journal_world;
     Pipeline.escape_markdown := fun s => s;
     Pipeline.timestamp_text := fun _ => "earlier";
     Pipeline.exotic := fun _ _ _ => Raises ValueError;
     Pipeline.render := fun _ => true |}.

(** The same world with a model that answers nothing. *)
Definition mute_world : Pipeline.world :=
  {| Pipeline.connects := true;
     Pipeline.clock := at_11;
     Pipeline.delivers := fun _ => true;
     Pipeline.generate := fun _ => None;
     Pipeline.escape_markdown := fun s => s;
     Pipeline.timestamp_text := fun _ => "earlier";
     Pipeline.exotic := fun _ _ _ => Raises ValueError;
     Pipeline.render := fun _ => true |}.

(** A store that knows Bob and has no entries yet. *)
Definition bob_store : Pipeline.state :=
  {| Pipeline.users := {[ 1%Z := bob ]};
     Pipeline.entries := {| Db.rows := ∅; Db.last_id := 0 |};
     Pipeline.calls := 0;
     Pipeline.trace := [] |}.


(** A response with the markers written loosely. *)
Definition loose_markers_example : string :=
  "intro text" +:+ NL +:+ "---dot start---" +:+ NL +:+ "digraph{a->b}" +:+ NL
  +:+ "--- Dot End ---" +:+ NL +:+ "trailer".

End MoreExamples.

(* ===================================================================== *)
(** * Part II: properties                                                 *)
(* ===================================================================== *)

Import Words Examples.

#[local] Arguments String.append !s1 s2.

(** ** Characters *)




Lemma char_between_spec lo c hi :
  char_between lo c hi = true <-> (ord lo <= ord c <= ord hi)%N.
Proof.
  unfold char_between. rewrite andb_true_iff, !N.leb_le. tauto.
Qed.







(** ** Strings *)

Lemma append_nil_r (s : string) : s +:+ EmptyString = s.
Proof. induction s as [|c s IH]; simpl; [reflexivity | now rewrite IH]. Qed.

Lemma append_assoc (a b c : string) : (a +:+ b) +:+ c = a +:+ b +:+ c.
Proof. induction a as [|x a IH]; simpl; [reflexivity | now rewrite IH]. Qed.

Lemma length_append (a b : string) :
  String.length (a +:+ b) = String.length a + String.length b.
Proof. induction a as [|x a IH]; simpl; [reflexivity | now rewrite IH]. Qed.

Lemma length_zero (s : string) : String.length s = 0 -> s = EmptyString.
Proof. destruct s; [reflexivity | discriminate]. Qed.

Lemma append_inv_head (a b c : string) : a +:+ b = a +:+ c -> b = c.
Proof. induction a as [|x a IH]; simpl; [tauto | intros [=]; auto]. Qed.

(** Two ways of cutting one string: the shorter head is a head of the
    longer one. *)
Lemma append_eq_append (x y u v : string) :
  x +:+ y = u +:+ v -> String.length u <= String.length x ->
  exists w, x = u +:+ w /\ v = w +:+ y.
Proof.
  revert x. induction u as [|c u IH]; intros x H Hlen; simpl in *.
  - exists x. split; [reflexivity | now symmetry].
  - destruct x as [|d x]; simpl in *; [lia|].
    injection H as -> H. destruct (IH x H) as (w & -> & ->); [lia|].
    now exists w.
Qed.

Lemma skip_prefix_exact_iff (p s r : string) :
  skip_prefix eq_exact p s = Some r <-> s = p +:+ r.
Proof.
  revert s. induction p as [|a p IH]; intros s; simpl.
  - split; [now intros [= ->] | now intros ->].
  - destruct s as [|b s].
    + split; discriminate.
    + unfold eq_exact at 1. destruct (Ascii.eqb_spec a b) as [->|Hne].
      * rewrite IH. split; [now intros -> | now intros [= ->]].
      * split; [discriminate | intros [= -> _]; contradiction].
Qed.

Lemma first_at_nil (sub : string) : first_at sub EmptyString.
Proof.
  intros a b H. simpl in H. apply (f_equal String.length) in H.
  rewrite !length_append in H. apply length_zero. lia.
Qed.

Lemma first_at_tail (sub : string) (c : ascii) (pre : string) :
  first_at sub (String c pre) -> first_at sub pre.
Proof. intros H a b E. apply (H (String c a) b). simpl. now rewrite E. Qed.

Lemma first_at_no_head (sub : string) (c : ascii) (pre rest : string) :
  first_at sub (String c pre) ->
  skip_prefix eq_exact sub (String c pre +:+ sub +:+ rest) = None.
Proof.
  intros H. destruct (skip_prefix _ _ _) as [r|] eqn:E; [|reflexivity].
  apply skip_prefix_exact_iff in E. rewrite <- append_assoc in E.
  destruct (append_eq_append _ _ _ _ E) as (w & Hw & _).
  { rewrite length_append. lia. }
  assert (w = EmptyString) as -> by (apply (H EmptyString w); exact Hw).
  rewrite append_nil_r in Hw. apply (f_equal String.length) in Hw.
  rewrite length_append in Hw. simpl in Hw. lia.
Qed.

Lemma search_exact_complete (sub pre post : string) :
  first_at sub pre ->
  search eq_exact sub (pre +:+ sub +:+ post) = Some (pre, post).
Proof.
  induction pre as [|c pre IH]; intros H.
  - simpl "+:+". destruct (sub +:+ post) eqn:E; simpl;
      (destruct (skip_prefix eq_exact sub _) as [r|] eqn:Hr;
       [ rewrite <- E in Hr; apply skip_prefix_exact_iff in Hr;
         apply append_inv_head in Hr; now subst
       | rewrite <- E in Hr;
         assert (skip_prefix eq_exact sub (sub +:+ post) = Some post) as X
           by (now apply skip_prefix_exact_iff); congruence ]).
  - pose proof (first_at_no_head sub c pre post H) as Hn.
    simpl "+:+" in *. simpl. rewrite Hn.
    rewrite (IH (first_at_tail _ _ _ H)). reflexivity.
Qed.

Lemma search_exact_sound (sub s pre post : string) :
  search eq_exact sub s = Some (pre, post) ->
  s = pre +:+ sub +:+ post /\ first_at sub pre.
Proof.
  revert pre post. induction s as [|c s IH]; intros pre post; simpl.
  - destruct (skip_prefix eq_exact sub EmptyString) as [r|] eqn:E; [|discriminate].
    intros [= <- <-]. apply skip_prefix_exact_iff in E. split; [exact E | apply first_at_nil].
  - destruct (skip_prefix eq_exact sub (String c s)) as [r|] eqn:E.
    + intros [= <- <-]. apply skip_prefix_exact_iff in E. split; [exact E | apply first_at_nil].
    + destruct (search eq_exact sub s) as [[b a]|] eqn:Hs; [|discriminate].
      intros [= <- <-]. destruct (IH b a eq_refl) as [-> Hf]. split; [reflexivity|].
      intros x y Hxy. destruct x as [|d x].
      * exfalso. simpl in Hxy.
        assert (skip_prefix eq_exact sub (String c (b +:+ sub +:+ a)) = Some (y +:+ a)) as X.
        { apply skip_prefix_exact_iff.
          change (String c (b +:+ sub +:+ a)) with (String c b +:+ sub +:+ a).
          rewrite <- (append_assoc (String c b)). simpl "+:+" at 2. rewrite Hxy.
          now rewrite !append_assoc. }
        congruence.
      * simpl in Hxy. injection Hxy as -> Hxy. exact (Hf x y Hxy).
Qed.

Lemma search_exact_none (sub s : string) :
  search eq_exact sub s = None -> forall a b, s <> a +:+ sub +:+ b.
Proof.
  intros H a. revert s H. induction a as [|c a IH]; intros s H b E.
  - simpl in E. assert (skip_prefix eq_exact sub s = Some b) as X
      by (now apply skip_prefix_exact_iff).
    destruct s; simpl in H; rewrite X in H; discriminate.
  - subst s. simpl in H.
    destruct (skip_prefix eq_exact sub _); [discriminate|].
    destruct (search eq_exact sub (a +:+ sub +:+ b)) as [[]|] eqn:Hs; [discriminate|].
    exact (IH _ Hs b eq_refl).
Qed.

Lemma contains_true_iff (sub s : string) :
  contains sub s = true <-> piece_of sub s.
Proof.
  unfold contains, piece_of. split.
  - destruct (search eq_exact sub s) as [[b a]|] eqn:E; [|discriminate].
    intros _. apply search_exact_sound in E as [-> _]. now exists b, a.
  - intros (a & b & ->). destruct (search eq_exact sub _) eqn:E; [reflexivity|].
    exfalso. exact (search_exact_none _ _ E a b eq_refl).
Qed.

Lemma piece_of_refl (s : string) : piece_of s s.
Proof. exists EmptyString, EmptyString. simpl. now rewrite append_nil_r. Qed.

Lemma piece_of_trans (a b c : string) : piece_of a b -> piece_of b c -> piece_of a c.
Proof.
  intros (x & y & ->) (u & v & ->). exists (u +:+ x), (y +:+ v).
  now rewrite !append_assoc.
Qed.

Lemma contains_piece (sub a b : string) :
  piece_of a b -> contains sub b = false -> contains sub a = false.
Proof.
  intros Hab Hb. destruct (contains sub a) eqn:Ha; [|reflexivity].
  apply contains_true_iff in Ha.
  assert (contains sub b = true) as X
    by (apply contains_true_iff; eapply piece_of_trans; eauto).
  congruence.
Qed.

Lemma lstrip_suffix (s : string) : exists a, s = a +:+ lstrip s.
Proof.
  induction s as [|c s [a IH]]; simpl.
  - now exists EmptyString.
  - destruct (isspace c).
    + exists (String c a). simpl. now rewrite <- IH.
    + now exists EmptyString.
Qed.

Lemma rstrip_prefix (s : string) : exists b, s = rstrip s +:+ b.
Proof.
  induction s as [|c s [b IH]]; simpl.
  - now exists EmptyString.
  - destruct (rstrip s) as [|d r] eqn:E.
    + destruct (isspace c).
      * now exists (String c s).
      * exists s. reflexivity.
    + exists b. simpl in *. now rewrite <- IH.
Qed.

Lemma strip_piece (s : string) : piece_of (strip s) s.
Proof.
  unfold strip. destruct (lstrip_suffix s) as [a Ha].
  destruct (rstrip_prefix (lstrip s)) as [b Hb].
  exists a, b. now rewrite <- Hb.
Qed.

Lemma drop_suffix (n : nat) (s : string) : exists a, s = a +:+ drop n s.
Proof.
  revert s. induction n as [|n IH]; intros s; simpl.
  - now exists EmptyString.
  - destruct s as [|c s]; [now exists EmptyString|].
    destruct (IH s) as [a Ha]. exists (String c a). simpl. now rewrite <- Ha.
Qed.

Lemma slice_from_piece (i : Z) (s : string) : piece_of (slice_from i s) s.
Proof.
  unfold slice_from. destruct (i <? 0)%Z;
    match goal with |- piece_of (drop ?n s) s =>
      destruct (drop_suffix n s) as [a Ha]; exists a, EmptyString;
      now rewrite append_nil_r end.
Qed.

Lemma first_at_lacks (sub pre : string) :
  sub <> EmptyString -> first_at sub pre -> contains sub pre = false.
Proof.
  intros Hne H. destruct (contains sub pre) eqn:E; [|reflexivity].
  apply contains_true_iff in E as (a & b & ->).
  specialize (H a (b +:+ sub)). rewrite !append_assoc in H.
  specialize (H eq_refl). destruct b, sub; simpl in H; congruence.
Qed.

(** ** utils.py and chatbot mode *)








(** ** The journal pipeline: parsing *)
















Lemma dot_match_found (pre mid post : string) :
  first_at Journal.DOT_START pre -> first_at Journal.DOT_END mid ->
  Journal.dot_match (pre +:+ Journal.DOT_START +:+ mid +:+ Journal.DOT_END +:+ post)
  = Some (pre, mid, post).
Proof.
  intros H1 H2. unfold Journal.dot_match.
  rewrite (search_exact_complete _ _ _ H1).
  now rewrite (search_exact_complete _ _ _ H2).
Qed.

Lemma dot_match_missing (text : string) :
  contains Journal.DOT_START text = false \/ contains Journal.DOT_END text = false ->
  Journal.dot_match text = None.
Proof.
  unfold Journal.dot_match. intros [H|H].
  - unfold contains in H. now destruct (search eq_exact Journal.DOT_START text).
  - destruct (search eq_exact Journal.DOT_START text) as [[before rest]|] eqn:E; [|reflexivity].
    apply search_exact_sound in E as [-> _].
    assert (contains Journal.DOT_END rest = false) as X.
    { apply (contains_piece _ rest _ ltac:(now exists (before +:+ Journal.DOT_START), EmptyString;
        rewrite append_nil_r, append_assoc) H). }
    unfold contains in X. now destruct (search eq_exact Journal.DOT_END rest).
Qed.

(** ** The journal pipeline: diagram labels *)

Lemma all_chars_append (P : ascii -> bool) (a b : string) :
  all_chars P (a +:+ b) = all_chars P a && all_chars P b.
Proof. induction a as [|c a IH]; simpl; [reflexivity | now rewrite IH, andb_assoc]. Qed.

Lemma all_chars_piece (P : ascii -> bool) (part whole : string) :
  piece_of part whole -> all_chars P whole = true -> all_chars P part = true.
Proof.
  intros (a & b & ->). rewrite !all_chars_append, !andb_true_iff. tauto.
Qed.

Lemma all_chars_impl (P Q : ascii -> bool) (s : string) :
  (forall c, P c = true -> Q c = true) -> all_chars P s = true -> all_chars Q s = true.
Proof.
  intros H. induction s as [|c s IH]; simpl; [reflexivity|].
  rewrite !andb_true_iff. intros [Hc Hs]. auto.
Qed.

(** What survives a replacement: the characters of [new] and the characters
    of [s] other than [old]. *)
Lemma all_chars_replace (P0 P : ascii -> bool) (old : ascii) (new s : string) :
  (forall c, c <> old -> P0 c = true -> P c = true) ->
  all_chars P new = true -> all_chars P0 s = true ->
  all_chars P (replace old new s) = true.
Proof.
  intros H Hn. induction s as [|c s IH]; simpl; [reflexivity|].
  rewrite andb_true_iff. intros [Hc Hs]. destruct (Ascii.eqb_spec c old) as [->|Hne].
  - rewrite all_chars_append, Hn. simpl. auto.
  - simpl. rewrite (H c Hne Hc). simpl. auto.
Qed.

Lemma all_chars_true (s : string) : all_chars (fun _ => true) s = true.
Proof. induction s; simpl; auto. Qed.

Lemma lacks_replace_same (old : ascii) (new s : string) :
  lacks old new = true -> lacks old (replace old new s) = true.
Proof.
  intros Hn. apply (all_chars_replace (fun _ => true)); [| exact Hn | apply all_chars_true].
  intros c Hc _. now destruct (Ascii.eqb_spec c old).
Qed.

Lemma lacks_replace_other (c old : ascii) (new s : string) :
  lacks c new = true -> lacks c s = true -> lacks c (replace old new s) = true.
Proof. intros Hn Hs. apply (all_chars_replace (fun x => negb (Ascii.eqb x c))); auto. Qed.

Lemma replace_lacking (old : ascii) (new s : string) :
  lacks old s = true -> replace old new s = s.
Proof.
  unfold lacks. induction s as [|c s IH]; simpl; [reflexivity|].
  rewrite andb_true_iff, negb_true_iff. intros [-> Hs]. now rewrite IH.
Qed.

Lemma lstrip_no_space (s : string) :
  all_chars (fun c => negb (isspace c)) s = true -> lstrip s = s.
Proof. destruct s as [|c s]; simpl; [reflexivity|]. now destruct (isspace c). Qed.

Lemma rstrip_no_space (s : string) :
  all_chars (fun c => negb (isspace c)) s = true -> rstrip s = s.
Proof.
  induction s as [|c s IH]; simpl; [reflexivity|].
  rewrite andb_true_iff, negb_true_iff. intros [Hc Hs]. rewrite (IH Hs), Hc.
  now destruct s.
Qed.

Lemma strip_no_space (s : string) :
  all_chars (fun c => negb (isspace c)) s = true -> strip s = s.
Proof. intros H. unfold strip. now rewrite (lstrip_no_space s H), (rstrip_no_space s H). Qed.

(** The five characters that [sanitize_label] replaces are absent from its
    result. *)
Lemma sanitize_label_lacks (topic : string) :
  lacks "-" (Journal.sanitize_label topic) = true /\
  lacks " " (Journal.sanitize_label topic) = true /\
  lacks "'" (Journal.sanitize_label topic) = true /\
  lacks "`" (Journal.sanitize_label topic) = true /\
  lacks dquote (Journal.sanitize_label topic) = true.
Proof.
  unfold Journal.sanitize_label.
  repeat split;
    repeat first
      [ apply lacks_replace_same; reflexivity
      | apply lacks_replace_other; [reflexivity|] ].
Qed.

Lemma sanitize_label_stable (topic : string) :
  strip (Journal.sanitize_label topic) = Journal.sanitize_label topic ->
  Journal.sanitize_label (Journal.sanitize_label topic) = Journal.sanitize_label topic.
Proof.
  intros H. destruct (sanitize_label_lacks topic) as (H1 & H2 & H3 & H4 & H5).
  unfold Journal.sanitize_label at 1. rewrite H.
  rewrite (replace_lacking "-") by exact H1.
  rewrite (replace_lacking " ") by exact H2.
  rewrite (replace_lacking "'") by exact H3.
  rewrite (replace_lacking "`") by exact H4.
  now apply replace_lacking.
Qed.

Lemma sanitize_label_no_space (topic : string) :
  spaces_only topic = true ->
  all_chars (fun c => negb (isspace c)) (Journal.sanitize_label topic) = true.
Proof.
  intros H. unfold Journal.sanitize_label.
  apply (all_chars_replace (fun c => negb (isspace c))); [auto | reflexivity |].
  apply (all_chars_replace (fun c => negb (isspace c))); [auto | reflexivity |].
  apply (all_chars_replace (fun c => negb (isspace c))); [auto | reflexivity |].
  apply (all_chars_replace (fun c => negb (isspace c) || Ascii.eqb c " ")); [| reflexivity |].
  { intros c Hc. rewrite orb_true_iff. intros [Hs|Hs]; [exact Hs|].
    apply Ascii.eqb_eq in Hs. contradiction. }
  apply (all_chars_replace (fun c => negb (isspace c) || Ascii.eqb c " ")); [auto | reflexivity |].
  exact (all_chars_piece _ _ _ (strip_piece topic) H).
Qed.

Lemma processed_topic_escaped (b : bool) (s : string) :
  dquotes_escaped_after b (replace dquote (s_of backslash +:+ DQ) s) = true.
Proof.
  revert b. induction s as [|c s IH]; intros b; simpl; [reflexivity|].
  destruct (Ascii.eqb_spec c dquote) as [->|Hne].
  - simpl. apply IH.
  - simpl. destruct (Ascii.eqb_spec c dquote); [contradiction|]. simpl. apply IH.
Qed.

Lemma processed_topic_clean (topic_str : string) :
  lacks "-" (TestTopicEscaping.processed_topic topic_str) = true /\
  lacks " " (TestTopicEscaping.processed_topic topic_str) = true /\
  lacks "'" (TestTopicEscaping.processed_topic topic_str) = true /\
  lacks "`" (TestTopicEscaping.processed_topic topic_str) = true /\
  dquotes_escaped (TestTopicEscaping.processed_topic topic_str) = true.
Proof.
  unfold TestTopicEscaping.processed_topic.
  repeat split; try apply processed_topic_escaped;
    repeat first
      [ apply lacks_replace_same; reflexivity
      | apply lacks_replace_other; [reflexivity|] ].
Qed.

Lemma lacks_dquote_escaped (s : string) :
  lacks dquote s = true -> dquotes_escaped s = true.
Proof.
  unfold dquotes_escaped, lacks. generalize false.
  induction s as [|c s IH]; intros b; simpl; [reflexivity|].
  rewrite andb_true_iff, negb_true_iff. intros [-> Hs]. simpl. now apply IH.
Qed.

(** Claim C3, counterexample. Sanitizing twice is not sanitizing once:
    for the sanitization of [New_Main.py] on a quote followed by a tab, and
    for the escaping variant of [test_topic_escaping.py] on the named topic,
    whose escaped quotes are escaped again. *)
Lemma sanitization_not_idempotent :
  Journal.sanitize_label (Journal.sanitize_label quote_tab_topic)
    <> Journal.sanitize_label quote_tab_topic /\
  TestTopicEscaping.processed_topic (TestTopicEscaping.processed_topic named_topic)
    <> TestTopicEscaping.processed_topic named_topic.
Proof. split; vm_compute; discriminate. Qed.

(** Claim C3, as amended. The sanitization is total, and for every input
    its result has no single quote, backtick, space or hyphen and no
    unescaped double quote: [New_Main.py] deletes the double quotes, the
    variant of [test_topic_escaping.py] puts a backslash in front of each.
    Sanitizing a second time changes nothing when the first result has no
    whitespace at its ends, which is so for every input whose only
    whitespace is the space character, and for the named topic. *)
Theorem label_sanitization :
  (forall topic : string,
      lacks "'" (Journal.sanitize_label topic) = true /\
      lacks "`" (Journal.sanitize_label topic) = true /\
      lacks " " (Journal.sanitize_label topic) = true /\
      lacks "-" (Journal.sanitize_label topic) = true /\
      lacks dquote (Journal.sanitize_label topic) = true /\
      dquotes_escaped (Journal.sanitize_label topic) = true) /\
  (forall topic : string,
      lacks "'" (TestTopicEscaping.processed_topic topic) = true /\
      lacks "`" (TestTopicEscaping.processed_topic topic) = true /\
      lacks " " (TestTopicEscaping.processed_topic topic) = true /\
      lacks "-" (TestTopicEscaping.processed_topic topic) = true /\
      dquotes_escaped (TestTopicEscaping.processed_topic topic) = true) /\
  (forall topic : string,
      strip (Journal.sanitize_label topic) = Journal.sanitize_label topic ->
      Journal.sanitize_label (Journal.sanitize_label topic) = Journal.sanitize_label topic) /\
  (forall topic : string,
      spaces_only topic = true ->
      Journal.sanitize_label (Journal.sanitize_label topic) = Journal.sanitize_label topic) /\
  Journal.sanitize_label named_topic = "Test_Topic___for_project_&_code" /\
  Journal.sanitize_label (Journal.sanitize_label named_topic) = Journal.sanitize_label named_topic.
Proof.
  split; [|split; [|split; [|split; [|split]]]].
  - intros topic. destruct (sanitize_label_lacks topic) as (H1 & H2 & H3 & H4 & H5).
    repeat split; try assumption. now apply lacks_dquote_escaped.
  - intros topic. destruct (processed_topic_clean topic) as (H1 & H2 & H3 & H4 & H5).
    repeat split; assumption.
  - exact sanitize_label_stable.
  - intros topic H. apply sanitize_label_stable, strip_no_space.
    now apply sanitize_label_no_space.
  - vm_compute. reflexivity.
  - vm_compute. reflexivity.
Qed.

Lemma label_sanitization_witness :
  Journal.sanitize_label (Journal.sanitize_label "John's day-to-day tasks")
  = Journal.sanitize_label "John's day-to-day tasks".
Proof.
  apply (proj1 (proj2 (proj2 (proj2 label_sanitization)))). reflexivity.
Defined.

(** ** The journal pipeline: which topics get a node *)

Lemma keeps_blank (topic : string) : strip topic = EmptyString -> Journal.keeps topic = false.
Proof. intros H. unfold Journal.keeps. now rewrite H. Qed.

(** Claim C4, the code at the failing input. An element that trims to the
    empty string gets no node, and neither does the element N/A itself; but
    the comparison with N/A is made on the untrimmed element, so in the
    topics Work, N/A the second element, which has a space in front, gets a
    node with the label N/A, and likewise for categories. The loop of
    [test_topic_escaping.py] compares the trimmed element and leaves it
    out. *)
Theorem na_after_space_gets_a_node :
  (forall topic : string, strip topic = EmptyString -> Journal.keeps topic = false) /\
  Journal.keeps "N/A" = false /\
  Journal.keeps " N/A" = true /\
  Journal.topics_dot_str "Work, N/A" = work_node +:+ " " +:+ na_node /\
  piece_of na_category_node (Journal.categories_dot_str "Workplace, N/A") /\
  TestTopicEscaping.final_topics_dot_str "Work, N/A" = work_node.
Proof.
  split; [exact keeps_blank|].
  repeat split; try (vm_compute; reflexivity).
  apply contains_true_iff. vm_compute. reflexivity.
Qed.

Lemma na_after_space_gets_a_node_witness : Journal.keeps "   " = false.
Proof. apply (proj1 na_after_space_gets_a_node). reflexivity. Defined.

(** ** Voice input *)

Lemma contains_prefix (p rest : string) : contains p (p +:+ rest) = true.
Proof. apply contains_true_iff. now exists EmptyString, rest. Qed.

Lemma contains_nonempty_text (sub s : string) :
  sub <> EmptyString -> contains sub s = true -> s <> EmptyString.
Proof.
  intros Hne H ->. apply contains_true_iff in H as (a & b & H).
  destruct a; simpl in H; [|discriminate]. destruct sub; [contradiction | discriminate].
Qed.

Lemma transcribe_marker (file_exists genai_model : bool) (response : Gateway.audio_response) :
  (file_exists = false \/ genai_model = false \/
   forall text, response <> Gateway.AudioText text) ->
  exists r, Gateway.transcribe_audio_with_gemini file_exists genai_model response = Some r
            /\ contains "[" r = true.
Proof.
  intros H. unfold Gateway.transcribe_audio_with_gemini.
  destruct file_exists; simpl; [|eexists; split; [reflexivity|reflexivity]].
  destruct genai_model; simpl; [|eexists; split; [reflexivity|reflexivity]].
  destruct response as [reason|text| |name];
    try (eexists; split; [reflexivity|]; apply (contains_prefix "[")).
  destruct H as [H|[H|H]]; try discriminate. now destruct (H text).
Qed.

#[local] Arguments Input.voice_steps : simpl never.

Ltac run_steps :=
  unfold Input.voice_branch, Input.photo_branch, bind, ret, get, guarded, try_, raise,
    Input.call, Input.note, Input.assign_status_msg, Input.assign_temp_file_path,
    Input.assign_input_type; simpl.

(** Where the voice branch stands when the transcription comes back, if the
    transport delivered the four calls before it. *)
Lemma voice_branch_transcribed (w : Input.world) :
  (forall n, n < 4 -> Input.delivers w n = true) ->
  Input.voice_branch w Input.start
  = Input.voice_steps w
      (Gateway.transcribe_audio_with_gemini
         (Input.audio_file_exists w) (Input.genai_model w) (Input.audio w))
      {| Input.calls := 4;
         Input.trace :=
           [Input.Status "Downloading audio..."; Input.GetFile; Input.Download ".ogg";
            Input.StatusEdit "Transcribing audio with AI..."; Input.Transcribe];
         Input.status_msg := true; Input.temp_file_path := true;
         Input.input_type := Some "audio" |}.
Proof.
  intros H. run_steps.
  rewrite (H 0) by lia. simpl. rewrite (H 1) by lia. simpl.
  rewrite (H 2) by lia. simpl. rewrite (H 3) by lia. reflexivity.
Qed.

Lemma for_each_delivered (w : Input.world) (l : list string) (f : Input.frame) :
  (forall n, Input.delivers w n = true) ->
  for_each l
    (fun chunk => try_ (Input.call w (Input.Reply (Input.code_block chunk)))
                       (fun _ => raise (NameError "telegram"))) f
  = (Returns tt,
     {| Input.calls := Input.calls f + length l;
        Input.trace := Input.trace f ++ map (fun chunk => Input.Reply (Input.code_block chunk)) l;
        Input.status_msg := Input.status_msg f;
        Input.temp_file_path := Input.temp_file_path f;
        Input.input_type := Input.input_type f |}).
Proof.
  intros H. revert f. induction l as [|x l IH]; intros f.
  - simpl. unfold ret. destruct f. simpl. now rewrite Nat.add_0_r, app_nil_r.
  - cbn [for_each]. unfold bind at 1, try_, Input.call. rewrite H.
    rewrite IH. simpl. f_equal. f_equal; [lia | now rewrite <- app_assoc].
Qed.

Lemma bind_returns {S A B} (m : step S A) (k : A -> step S B) (s s' : S) (a : A) :
  m s = (Returns a, s') -> bind m k s = k a s'.
Proof. intros H. unfold bind. now rewrite H. Qed.

Lemma bind_raises {S A B} (m : step S A) (k : A -> step S B) (s s' : S) (e : exn) :
  m s = (Raises e, s') -> bind m k s = (Raises e, s').
Proof. intros H. unfold bind. now rewrite H. Qed.

Lemma call_delivered (w : Input.world) (e : Input.event) (f : Input.frame) :
  Input.delivers w (Input.calls f) = true ->
  Input.call w e f
  = (Returns tt,
     {| Input.calls := S (Input.calls f); Input.trace := Input.trace f ++ [e];
        Input.status_msg := Input.status_msg f;
        Input.temp_file_path := Input.temp_file_path f;
        Input.input_type := Input.input_type f |}).
Proof. intros H. unfold Input.call. now rewrite H. Qed.

(** The voice branch behind the transcription when every call is
    delivered and the transcript has no bracket. *)
Lemma voice_steps_delivered (w : Input.world) (raw : string) (f : Input.frame) :
  (forall n, Input.delivers w n = true) ->
  contains "[" raw = false ->
  let enhanced :=
    Gateway.add_punctuation_with_gemini (Input.genai_model w) (Input.generate w) raw in
  exists more n,
    Input.voice_steps w (Some raw) f
    = (Returns (Some (fst enhanced), Input.input_type f, None),
       {| Input.calls := n;
          Input.trace := Input.trace f ++ Input.StatusEdit "Enhancing transcript..." :: more;
          Input.status_msg := Input.status_msg f;
          Input.temp_file_path := Input.temp_file_path f;
          Input.input_type := Input.input_type f |}).
Proof.
  intros Hd Hc enhanced. subst enhanced. unfold Input.voice_steps. rewrite Hc.
  destruct (Gateway.add_punctuation_with_gemini _ _ raw) as [p asked].
  erewrite bind_returns by (apply call_delivered, Hd).
  destruct asked.
  - erewrite bind_returns by (unfold Input.note; reflexivity).
    erewrite bind_returns by (apply call_delivered, Hd).
    erewrite bind_returns by (unfold try_; rewrite call_delivered by apply Hd; reflexivity).
    erewrite bind_returns by (apply for_each_delivered, Hd).
    unfold bind, get, ret. simpl.
    eexists _, _. f_equal. f_equal. rewrite <- !app_assoc. simpl. reflexivity.
  - erewrite bind_returns by (unfold ret; reflexivity).
    erewrite bind_returns by (apply call_delivered, Hd).
    erewrite bind_returns by (unfold try_; rewrite call_delivered by apply Hd; reflexivity).
    erewrite bind_returns by (apply for_each_delivered, Hd).
    unfold bind, get, ret. simpl.
    eexists _, _. f_equal. f_equal. rewrite <- !app_assoc. simpl. reflexivity.
Qed.

(** Claim C5. The test behind the transcription is whether the result has
    an opening square bracket anywhere in it. A transcript with one is
    refused as if it were an error marker: the normalization fails with the
    transcript as its message, and the status message is deleted without
    any enhancement or display. The transcript see [1] for details is such
    an input: it is what the model wrote down, it is not empty and it does
    not start with a bracket. Every result of the transcription that is not
    a transcript starts with the bracket, so the markers are refused as they
    should be; and a transcript without a bracket, the empty one included,
    goes on to the enhancement and comes back tagged audio when the
    transport delivers. *)
Theorem transcript_with_bracket_is_refused :
  (forall (w : Input.world) (m : Input.message) (raw : string),
      truthy (default EmptyString (Input.text m)) = false -> Input.voice m = true ->
      (forall n, n < 4 -> Input.delivers w n = true) ->
      Gateway.transcribe_audio_with_gemini
        (Input.audio_file_exists w) (Input.genai_model w) (Input.audio w) = Some raw ->
      contains "[" raw = true ->
      Input.get_text_from_input w m
      = ((None, Some "audio", Some raw),
         [Input.Status "Downloading audio..."; Input.GetFile; Input.Download ".ogg";
          Input.StatusEdit "Transcribing audio with AI..."; Input.Transcribe]
         ++ (if Input.delivers w 4 then [Input.StatusDelete] else [])
         ++ (if Input.audio_file_exists w then [Input.RemoveTemp] else [])
         ++ (if Input.delivers w 5 then [Input.StatusDelete] else []))) /\
  (Gateway.transcribe_audio_with_gemini true true (Gateway.AudioText "see [1] for details")
   = Some "see [1] for details" /\
   tagged "see [1] for details" = false /\
   truthy "see [1] for details" = true) /\
  (forall (file_exists genai_model : bool) (response : Gateway.audio_response),
      (file_exists = false \/ genai_model = false \/
       forall text, response <> Gateway.AudioText text) ->
      exists r, Gateway.transcribe_audio_with_gemini file_exists genai_model response = Some r
                /\ tagged r = true /\ contains "[" r = true) /\
  (forall (w : Input.world) (m : Input.message) (raw : string),
      truthy (default EmptyString (Input.text m)) = false -> Input.voice m = true ->
      (forall n, Input.delivers w n = true) ->
      Gateway.transcribe_audio_with_gemini
        (Input.audio_file_exists w) (Input.genai_model w) (Input.audio w) = Some raw ->
      contains "[" raw = false ->
      let enhanced :=
        Gateway.add_punctuation_with_gemini (Input.genai_model w) (Input.generate w) raw in
      fst (Input.get_text_from_input w m) = (Some (fst enhanced), Some "audio", None) /\
      In (Input.StatusEdit "Enhancing transcript...") (snd (Input.get_text_from_input w m)) /\
      snd enhanced = negb (String.eqb (strip raw) EmptyString) && Input.genai_model w).
Proof.
  split; [|split; [|split]].
  - intros w m raw Ht Hv Hd Hr Hc.
    unfold Input.get_text_from_input, Input.main_try. rewrite Ht, Hv.
    rewrite (voice_branch_transcribed w Hd), Hr.
    unfold Input.voice_steps. rewrite Hc. run_steps.
    pose proof (contains_nonempty_text "[" raw ltac:(discriminate) Hc) as Hne.
    destruct raw as [|c raw]; [contradiction|].
    unfold Input.finally, Input.temp_file_exists, Input.delete_status_quietly.
    destruct (Input.delivers w 4); simpl;
      destruct (Input.audio_file_exists w); simpl; run_steps;
      destruct (Input.delivers w 5); reflexivity.
  - split; [reflexivity|]. split; reflexivity.
  - intros file_exists genai_model response H.
    unfold Gateway.transcribe_audio_with_gemini.
    destruct file_exists; simpl; [|eexists; repeat split; reflexivity].
    destruct genai_model; simpl; [|eexists; repeat split; reflexivity].
    destruct response as [reason|text| |name];
      try (eexists; split; [reflexivity|]; split; [reflexivity | apply (contains_prefix "[")]).
    destruct H as [H|[H|H]]; try discriminate. now destruct (H text).
  - intros w m raw Ht Hv Hd Hr Hc enhanced. subst enhanced.
    unfold Input.get_text_from_input, Input.main_try. rewrite Ht, Hv.
    rewrite (voice_branch_transcribed w (fun n _ => Hd n)), Hr.
    destruct (voice_steps_delivered w raw
                {| Input.calls := 4;
                   Input.trace :=
                     [Input.Status "Downloading audio..."; Input.GetFile; Input.Download ".ogg";
                      Input.StatusEdit "Transcribing audio with AI..."; Input.Transcribe];
                   Input.status_msg := true; Input.temp_file_path := true;
                   Input.input_type := Some "audio" |} Hd Hc) as (more & n & Hs).
    rewrite Hs. clear Hs.
    destruct (Gateway.add_punctuation_with_gemini _ _ raw) as [p asked] eqn:E.
    assert (asked = negb (String.eqb (strip raw) EmptyString) && Input.genai_model w) as Ha.
    { unfold Gateway.add_punctuation_with_gemini in E.
      destruct raw as [|c raw]; simpl in E.
      - injection E as <- <-. reflexivity.
      - destruct (String.eqb (strip (String c raw)) EmptyString); simpl in *.
        + now injection E as <- <-.
        + destruct (Input.genai_model w); simpl in *; [|now injection E as <- <-].
          destruct (Input.generate w _) as [f|]; [|now injection E as <- <-].
          destruct (_ && _); now injection E as <- <-. }
    simpl.
    split; [reflexivity|]. split; [|exact Ha].
    unfold Input.finally, Input.temp_file_exists, Input.delete_status_quietly. simpl.
    destruct (Input.audio_file_exists w); run_steps; rewrite Hd; simpl;
      rewrite ?in_app_iff; simpl; tauto.
Qed.

Lemma transcript_with_bracket_is_refused_witness :
  fst (Input.get_text_from_input footnote_world voice_message)
  = (None, Some "audio", Some "see [1] for details").
Proof.
  rewrite (proj1 transcript_with_bracket_is_refused footnote_world voice_message
             "see [1] for details" eq_refl eq_refl (fun _ _ => eq_refl) eq_refl eq_refl).
  reflexivity.
Defined.

(** ** The token counter *)

Lemma increment_token_usage_step (c : Clock.clock) (p q : Z) (st : Tokens.state) :
  Tokens.writable st = true ->
  let st' := Tokens.increment_token_usage c p q st in
  let before := Tokens.load_token_data st in
  let today := Clock.strftime_Ymd (Clock.now c) in
  Tokens.writable st' = true /\
  Tokens.cache_session st' = (Tokens.cache_session st + (p + q))%Z /\
  Tokens.load_token_data st'
  = {| Tokens.total := (Tokens.total before + (p + q))%Z;
       Tokens.daily_date := today;
       Tokens.daily_count :=
         ((if String.eqb (Tokens.daily_date before) today
           then Tokens.daily_count before else 0) + (p + q))%Z;
       Tokens.session := (Tokens.cache_session st + (p + q))%Z |}.
Proof.
  intros Hw. unfold Tokens.increment_token_usage, Tokens.save_token_data. simpl.
  rewrite Hw. simpl.
  destruct (String.eqb (Tokens.daily_date (Tokens.load_token_data st))
              (Clock.strftime_Ymd (Clock.now c))) eqn:E; simpl.
  - apply String.eqb_eq in E. rewrite <- E. repeat split.
  - repeat split.
Qed.

(** Claim C7, counterexample. The daily total after the three increments
    is not 21 when the file already counts tokens for that day; and three
    increments on one UTC day do not add up in the daily counter when the
    local date of the process changes between them. *)
Lemma daily_total_is_not_always_21 :
  Tokens.daily_count (Tokens.load_token_data
    (three_increments (utc at_10) (utc at_10) (utc at_11) (started (Some used_today))))
  = 121%Z /\
  Clock.strftime_Ymd (Clock.now_utc (east at_21))
  = Clock.strftime_Ymd (Clock.now_utc (east at_23)) /\
  Tokens.daily_count (Tokens.load_token_data
    (three_increments (east at_21) (east at_23) (east at_23) (started None)))
  = 6%Z.
Proof. repeat split; vm_compute; reflexivity. Qed.

(** Claim C7, as amended. From a session counter at zero and a writable
    file, the three increments made on one local calendar date of the
    process give session total 21, all-time total the prior value plus 21,
    and daily total 21 plus the tokens that the file already counted for
    that date. The daily counter starts again from zero at an increment
    whose local date differs from the stored one. *)
Theorem token_accumulation :
  (forall (st : Tokens.state) (c1 c2 c3 : Clock.clock) (today : string),
      Tokens.writable st = true -> Tokens.cache_session st = 0%Z ->
      Clock.strftime_Ymd (Clock.now c1) = today ->
      Clock.strftime_Ymd (Clock.now c2) = today ->
      Clock.strftime_Ymd (Clock.now c3) = today ->
      let before := Tokens.load_token_data st in
      let st' := three_increments c1 c2 c3 st in
      Tokens.cache_session st' = 21%Z /\
      Tokens.load_token_data st'
      = {| Tokens.total := (Tokens.total before + 21)%Z;
           Tokens.daily_date := today;
           Tokens.daily_count :=
             ((if String.eqb (Tokens.daily_date before) today
               then Tokens.daily_count before else 0) + 21)%Z;
           Tokens.session := 21 |}) /\
  (forall (st : Tokens.state) (c : Clock.clock) (p q : Z),
      Tokens.writable st = true ->
      Tokens.daily_date (Tokens.load_token_data st) <> Clock.strftime_Ymd (Clock.now c) ->
      Tokens.daily_count (Tokens.load_token_data (Tokens.increment_token_usage c p q st))
      = (p + q)%Z /\
      Tokens.daily_date (Tokens.load_token_data (Tokens.increment_token_usage c p q st))
      = Clock.strftime_Ymd (Clock.now c)).
Proof.
  split.
  - intros st c1 c2 c3 today Hw Hs H1 H2 H3 before st'. subst st'. unfold three_increments.
    destruct (increment_token_usage_step c1 10 5 st Hw) as (Hw1 & Hs1 & Hd1).
    destruct (increment_token_usage_step c2 3 2 _ Hw1) as (Hw2 & Hs2 & Hd2).
    destruct (increment_token_usage_step c3 0 1 _ Hw2) as (_ & Hs3 & Hd3).
    rewrite Hs3, Hd3, Hs2, Hd2, Hs1, Hd1, Hs, H1, H2, H3. simpl.
    rewrite String.eqb_refl. split; [reflexivity|]. subst before. f_equal; lia.
  - intros st c p q Hw Hne.
    destruct (increment_token_usage_step c p q st Hw) as (_ & _ & ->). simpl.
    apply String.eqb_neq in Hne. rewrite Hne. split; [lia | reflexivity].
Qed.

Lemma token_accumulation_witness :
  Tokens.cache_session
    (three_increments (utc at_10) (utc at_10) (utc at_11) (started (Some used_today)))
  = 21%Z.
Proof.
  apply (proj1 token_accumulation (started (Some used_today))
           (utc at_10) (utc at_10) (utc at_11) "2024-05-01");
    vm_compute; reflexivity.
Defined.

(** ** The user store *)

Lemma add_user_offline (ts : Z) (users : gmap Z Db.user_row) (user_id : Z)
    (username display : option string) :
  Db.add_user false ts users user_id username display = (users, false).
Proof. reflexivity. Qed.

(** Claim C8, counterexample. An empty display name is a value: it takes
    the place of the stored name Bob. *)
Lemma empty_display_name_overwrites :
  Db.display_name <$> (fst (Db.add_user true 9 {[ 1%Z := bob ]} 1 (Some "bob") (Some EmptyString)) !! 1%Z)
  = Some (Some EmptyString).
Proof. vm_compute. reflexivity. Qed.

(** Claim C8, as amended. With a connection, [add_user] returns true and:
    a user id that is absent gets a new row with the given names, first
    seen and last interaction at the time of the call and no preferences;
    for a user id that is present the username and the last interaction are
    set, the display name is set when one is supplied, be it empty, and kept
    when none is, and first seen and preferences are kept. No other row
    changes. Without a connection nothing changes and the result is
    false. *)
Theorem add_user_upsert :
  (forall (ts : Z) (users : gmap Z Db.user_row) (user_id : Z)
          (username display : option string),
      users !! user_id = None ->
      Db.add_user true ts users user_id username display
      = (<[user_id := {| Db.telegram_username := username;
                         Db.display_name := display;
                         Db.first_seen := ts;
                         Db.last_interaction := Some ts;
                         Db.preferences := None |}]> users, true)) /\
  (forall (ts : Z) (users : gmap Z Db.user_row) (user_id : Z) (row : Db.user_row)
          (username display : option string),
      users !! user_id = Some row ->
      snd (Db.add_user true ts users user_id username display) = true /\
      fst (Db.add_user true ts users user_id username display) !! user_id
      = Some {| Db.telegram_username := username;
                Db.display_name :=
                  match display with
                  | Some d => Some d
                  | None => Db.display_name row
                  end;
                Db.first_seen := Db.first_seen row;
                Db.last_interaction := Some ts;
                Db.preferences := Db.preferences row |}) /\
  (forall (connects : bool) (ts : Z) (users : gmap Z Db.user_row) (user_id other : Z)
          (username display : option string),
      other <> user_id ->
      fst (Db.add_user connects ts users user_id username display) !! other = users !! other) /\
  (forall (ts : Z) (users : gmap Z Db.user_row) (user_id : Z)
          (username display : option string),
      Db.add_user false ts users user_id username display = (users, false)).
Proof.
  split; [|split; [|split]].
  - intros ts users user_id username display H. unfold Db.add_user. simpl. now rewrite H.
  - intros ts users user_id row username display H. unfold Db.add_user. simpl. rewrite H.
    simpl. split; [reflexivity|]. apply lookup_insert_eq.
  - intros connects ts users user_id other username display Hne. unfold Db.add_user.
    destruct connects; simpl; [|reflexivity].
    destruct (users !! user_id); simpl; now rewrite lookup_insert_ne.
  - reflexivity.
Qed.

Lemma add_user_upsert_witness :
  Db.display_name <$> (fst (Db.add_user true 9 {[ 1%Z := bob ]} 1 (Some "bobby") None) !! 1%Z)
  = Some (Some "Bob").
Proof.
  destruct (proj1 (proj2 add_user_upsert) 9%Z {[ 1%Z := bob ]} 1%Z bob (Some "bobby") None)
    as [_ ->]; [apply lookup_singleton_eq | reflexivity].
Defined.

(** With a connection, a call that supplies a mapping never returns: the
    name [json] is not bound in the module. The table is left as it was. *)
Lemma update_user_preferences_mapping (now : Z) (users : gmap Z Db.user_row) (user_id : Z)
    (display : option string) (other : gmap string Db.jval) :
  Db.update_user_preferences true now users user_id display (Some other)
  = (users, Raises (NameError "json")).
Proof.
  unfold Db.update_user_preferences. simpl.
  destruct (users !! user_id) as [row|]; simpl; [|reflexivity].
  destruct (Db.preferences row) as [t|]; simpl; [|reflexivity].
  destruct (Db.text_truthy t); reflexivity.
Qed.

(** The same for a user whose stored preferences are not empty, whatever
    the call supplies. *)
Lemma update_user_preferences_stored (now : Z) (users : gmap Z Db.user_row) (user_id : Z)
    (row : Db.user_row) (t : Db.pref_text)
    (display : option string) (other : option (gmap string Db.jval)) :
  users !! user_id = Some row -> Db.preferences row = Some t -> Db.text_truthy t = true ->
  Db.update_user_preferences true now users user_id display other
  = (users, Raises (NameError "json")).
Proof.
  intros H1 H2 H3. unfold Db.update_user_preferences. simpl.
  now rewrite H1; simpl; rewrite H2, H3.
Qed.

(** Claim C9, the code at the failing inputs. [db_utils.py] does not import
    [json]. With a connection, every call of [update_user_preferences] that
    supplies a mapping to merge raises NameError, and so does every call for
    a user whose stored preferences are not empty; the table is left as it
    was. The function returns true when neither is the case and false when
    there is no connection. *)
Theorem update_user_preferences_raises :
  Db.global "json" = Raises (NameError "json") /\
  (forall (now : Z) (users : gmap Z Db.user_row) (user_id : Z)
          (display : option string) (other : gmap string Db.jval),
      Db.update_user_preferences true now users user_id display (Some other)
      = (users, Raises (NameError "json"))) /\
  (forall (now : Z) (users : gmap Z Db.user_row) (user_id : Z) (row : Db.user_row)
          (t : Db.pref_text) (display : option string) (other : option (gmap string Db.jval)),
      users !! user_id = Some row -> Db.preferences row = Some t -> Db.text_truthy t = true ->
      Db.update_user_preferences true now users user_id display other
      = (users, Raises (NameError "json"))) /\
  snd (Db.update_user_preferences true at_10 {[ 7%Z := ann ]} 7 (Some "Annie") None)
  = Raises (NameError "json") /\
  snd (Db.update_user_preferences true at_10 {[ 1%Z := bob ]} 1 None
         (Some {[ "daily_prompt_enabled" := Db.JBool false ]}))
  = Raises (NameError "json") /\
  snd (Db.update_user_preferences true at_10 {[ 1%Z := bob ]} 1 (Some "Bobby") None)
  = Returns true /\
  (forall (now : Z) (users : gmap Z Db.user_row) (user_id : Z)
          (display : option string) (other : option (gmap string Db.jval)),
      Db.update_user_preferences false now users user_id display other
      = (users, Returns false)).
Proof.
  split; [reflexivity|]. split; [exact update_user_preferences_mapping|].
  split; [exact update_user_preferences_stored|].
  repeat split; vm_compute; reflexivity.
Qed.

Lemma update_user_preferences_raises_witness :
  Db.update_user_preferences true at_10 {[ 7%Z := ann ]} 7 None None
  = ({[ 7%Z := ann ]}, Raises (NameError "json")).
Proof.
  apply (proj1 (proj2 (proj2 update_user_preferences_raises))
           at_10 {[ 7%Z := ann ]} 7%Z ann (Db.JsonObject ann_preferences));
    [apply lookup_singleton_eq | reflexivity | reflexivity].
Defined.

(** ** The daily prompt scheduler *)

Lemma prompt_user_keeps_users (w : Scheduler.world) (user_id : Z)
    (preferences_str : option Db.pref_text) (st : Scheduler.state) :
  Scheduler.users (fst (Scheduler.prompt_user w user_id preferences_str st))
  = Scheduler.users st.
Proof.
  unfold Scheduler.prompt_user.
  repeat match goal with
         | |- context [match ?x with _ => _ end] => destruct x eqn:?; simpl; try reflexivity
         | |- context [if ?x then _ else _] => destruct x eqn:?; simpl; try reflexivity
         end.
  all: match goal with
       | H : Db.update_user_preferences ?c _ _ _ None (Some _) = (_, _) |- _ =>
           destruct c; [rewrite update_user_preferences_mapping in H | simpl in H];
           now injection H as <- _
       end.
Qed.

Lemma for_users_keeps_users (w : Scheduler.world) (l : list (Z * option Db.pref_text))
    (st : Scheduler.state) :
  Scheduler.users (Scheduler.for_users w l st) = Scheduler.users st.
Proof.
  revert st. induction l as [|[user_id p] l IH]; intros st; simpl; [reflexivity|].
  pose proof (prompt_user_keeps_users w user_id p st) as H.
  destruct (Scheduler.prompt_user w user_id p st) as [st' [e|]]; simpl in *; [exact H|].
  now rewrite IH.
Qed.

(** Claim C6, the code at the failing input. The user asked for prompts at
    09:00 and got the last one yesterday. As the repository stands the scan
    of 10:00 sends nothing, because [db_utils] has no function
    [get_users_for_daily_prompt_check]. With that function as the
    specification describes it, the scan of 10:00 sends one prompt, but the
    date of the last prompt is not stored, since [update_user_preferences]
    raises NameError; so the scan of 11:00 sends a second prompt on the same
    UTC day. No scan ever changes the table of users. *)
Theorem scheduler_repeats_prompt :
  Scheduler.get_users_for_daily_prompt_check
  = Raises (AttributeError "get_users_for_daily_prompt_check") /\
  Scheduler.scan Scheduler.get_users_for_daily_prompt_check (scan_world at_10) ann_waiting
  = ann_waiting /\
  Scheduler.outbox
    (Scheduler.scan (Returns Scheduler.users_with_prompt_enabled) (scan_world at_10) ann_waiting)
  = [(7%Z, "What are you grateful for today?")] /\
  Scheduler.outbox
    (Scheduler.scan (Returns Scheduler.users_with_prompt_enabled) (scan_world at_11)
      (Scheduler.scan (Returns Scheduler.users_with_prompt_enabled) (scan_world at_10)
         ann_waiting))
  = [(7%Z, "What are you grateful for today?"); (7%Z, "What are you grateful for today?")] /\
  Clock.strftime_Ymd (Clock.now_utc (utc at_10)) = Clock.strftime_Ymd (Clock.now_utc (utc at_11)) /\
  (forall get_users (w : Scheduler.world) (st : Scheduler.state),
      Scheduler.users (Scheduler.scan get_users w st) = Scheduler.users st).
Proof.
  split; [reflexivity|]. split; [reflexivity|].
  split; [vm_compute; reflexivity|]. split; [vm_compute; reflexivity|].
  split; [vm_compute; reflexivity|].
  intros get_users w st. unfold Scheduler.scan.
  destruct get_users; [apply for_users_keeps_users | reflexivity].
Qed.

(* ===================================================================== *)
(** * Part III: further properties of the code                             *)
(* ===================================================================== *)

Import MoreWords MoreExamples.

(** ** Trimming *)

Lemma lstrip_lstrip (s : string) : lstrip (lstrip s) = lstrip s.
Proof.
  induction s as [|c s IH]; simpl; [reflexivity|].
  destruct (isspace c) eqn:E; [exact IH | simpl; now rewrite E].
Qed.

Lemma rstrip_rstrip (s : string) : rstrip (rstrip s) = rstrip s.
Proof.
  induction s as [|c s IH]; simpl; [reflexivity|].
  destruct (rstrip s) as [|d r] eqn:E.
  - destruct (isspace c) eqn:Ec; simpl; [reflexivity | now rewrite Ec].
  - simpl in *. now rewrite IH.
Qed.

Lemma lstrip_rstrip_head (c : ascii) (s : string) :
  isspace c = false -> lstrip (rstrip (String c s)) = rstrip (String c s).
Proof.
  intros H. simpl. rewrite H. destruct (rstrip s); simpl; now rewrite H.
Qed.

Lemma strip_strip (s : string) : strip (strip s) = strip s.
Proof.
  unfold strip. destruct (lstrip s) as [|c t] eqn:E; [reflexivity|].
  assert (isspace c = false) as Hc.
  { clear -E. induction s as [|d s IH]; simpl in E; [discriminate|].
    destruct (isspace d) eqn:Hd; [auto | now injection E as <- _]. }
  rewrite (lstrip_rstrip_head c t Hc). apply rstrip_rstrip.
Qed.

Lemma take_line_lacks_newline (s : string) : lacks newline (Journal.take_line s) = true.
Proof.
  unfold lacks. induction s as [|c s IH]; simpl; [reflexivity|].
  destruct (Ascii.eqb c newline) eqn:E; simpl; [reflexivity | now rewrite E].
Qed.

Lemma lacks_piece (c : ascii) (part whole : string) :
  piece_of part whole -> lacks c whole = true -> lacks c part = true.
Proof. apply all_chars_piece. Qed.

Lemma field_trimmed (label text : string) :
  strip (Journal.field label text) = Journal.field label text /\
  lacks newline (Journal.field label text) = true.
Proof.
  unfold Journal.field, Journal.re_search_label.
  destruct (search eq_ignorecase label text) as [[before rest]|]; [|split; reflexivity].
  split; [apply strip_strip|].
  eapply lacks_piece; [apply strip_piece | apply take_line_lacks_newline].
Qed.

(** X1. Whatever the model answers to the categorization request, each of
    the three parsed fields is a single line without whitespace at its
    ends. *)
Theorem categorization_fields_are_trimmed_lines (categorization_response : option string) :
  let c := Journal.parse_categorization categorization_response in
  (strip (Journal.sentiment c) = Journal.sentiment c /\
   lacks newline (Journal.sentiment c) = true) /\
  (strip (Journal.topics c) = Journal.topics c /\
   lacks newline (Journal.topics c) = true) /\
  (strip (Journal.categories c) = Journal.categories c /\
   lacks newline (Journal.categories c) = true).
Proof.
  unfold Journal.parse_categorization.
  destruct categorization_response as [text|]; [|repeat split].
  destruct (Journal.usable (Some text)); simpl; [|repeat split].
  repeat split; apply field_trimmed.
Qed.

Lemma skip_prefix_ignorecase_self (label rest : string) :
  skip_prefix eq_ignorecase label (label +:+ rest) = Some rest.
Proof.
  induction label as [|c label IH]; simpl; [now destruct rest|].
  unfold eq_ignorecase at 1. now rewrite Ascii.eqb_refl.
Qed.

Lemma search_ignorecase_self (label rest : string) :
  search eq_ignorecase label (label +:+ rest) = Some (EmptyString, rest).
Proof.
  pose proof (skip_prefix_ignorecase_self label rest) as H.
  destruct (label +:+ rest); simpl; now rewrite H.
Qed.

Lemma lstrip_spaces (ws rest : string) :
  all_chars isspace ws = true -> lstrip (ws +:+ rest) = lstrip rest.
Proof.
  induction ws as [|c ws IH]; simpl; [reflexivity|].
  rewrite andb_true_iff. intros [-> H]. auto.
Qed.

(** X2. The whitespace behind a label is skipped whatever it is, line
    breaks included: when a response starts with the label, putting a run
    of whitespace between the label and what follows does not change the
    field. In particular a label with nothing else on its line takes its
    value from the next line that is not blank. *)
Theorem field_skips_line_breaks (label ws rest : string) :
  all_chars isspace ws = true ->
  Journal.field label (label +:+ ws +:+ rest) = Journal.field label (label +:+ rest).
Proof.
  intros H. unfold Journal.field, Journal.re_search_label.
  rewrite !search_ignorecase_self. now rewrite (lstrip_spaces ws rest H).
Qed.

Lemma field_skips_line_breaks_witness :
  Journal.field "Sentiment:" ("Sentiment:" +:+ NL +:+ "Topics: Work")
  = Journal.field "Sentiment:" ("Sentiment:" +:+ "Topics: Work").
Proof. apply (field_skips_line_breaks "Sentiment:" NL "Topics: Work"). reflexivity. Defined.

(** ** Labels of the diagram prompt *)

Lemma length_replace_le (old : ascii) (new s : string) :
  String.length new <= 1 -> String.length (replace old new s) <= String.length s.
Proof.
  intros H. induction s as [|c s IH]; simpl; [lia|].
  destruct (Ascii.eqb c old); [rewrite length_append | simpl]; lia.
Qed.

Lemma length_take (n : nat) (s : string) : String.length (take n s) <= n.
Proof.
  revert s. induction n as [|n IH]; intros s; simpl; [lia|].
  destruct s as [|c s]; simpl; [lia|]. specialize (IH s). lia.
Qed.

(** X4. The summary of the entry put into the diagram prompt has at most
    30 characters and contains no double quote, line break or brace; the
    sentiment put there contains no double quote or brace and is not longer
    than the parsed sentiment. *)
Theorem prompt_labels_are_clean (text sentiment : string) :
  String.length (Pipeline.clean_text_summary text) <= 30 /\
  lacks dquote (Pipeline.clean_text_summary text) = true /\
  lacks newline (Pipeline.clean_text_summary text) = true /\
  lacks "{" (Pipeline.clean_text_summary text) = true /\
  lacks "}" (Pipeline.clean_text_summary text) = true /\
  String.length (Pipeline.clean_sentiment sentiment) <= String.length sentiment /\
  lacks dquote (Pipeline.clean_sentiment sentiment) = true /\
  lacks "{" (Pipeline.clean_sentiment sentiment) = true /\
  lacks "}" (Pipeline.clean_sentiment sentiment) = true.
Proof.
  unfold Pipeline.clean_text_summary, Pipeline.clean_sentiment.
  split.
  { pose proof (length_take 30 text).
    repeat (etransitivity; [apply length_replace_le; simpl; lia|]). assumption. }
  split; [|split; [|split; [|split; [|split; [|split; [|split]]]]]];
    try (repeat first
           [ apply lacks_replace_same; reflexivity
           | apply lacks_replace_other; [reflexivity|] ]).
  repeat (etransitivity; [apply length_replace_le; simpl; lia|]). lia.
Qed.

(** ** Word count *)

Lemma split_whitespace_head (c : ascii) (s : string) :
  isspace c = false -> Pipeline.split_whitespace (String c s) <> [].
Proof.
  intros H. simpl. rewrite H. destruct s as [|d s]; [discriminate|].
  destruct (isspace d); [discriminate|].
  destruct (Pipeline.split_whitespace (String d s)); discriminate.
Qed.

Lemma split_whitespace_space (a b : string) :
  Pipeline.split_whitespace (a +:+ " " +:+ b)
  = (Pipeline.split_whitespace a ++ Pipeline.split_whitespace b)%list.
Proof.
  induction a as [|c a IH]; [reflexivity|].
  destruct a as [|d a].
  - simpl. destruct (isspace c); reflexivity.
  - change (String c (String d a) +:+ " " +:+ b)
      with (String c (String d (a +:+ " " +:+ b))).
    change (String d a +:+ " " +:+ b) with (String d (a +:+ " " +:+ b)) in IH.
    remember (String d (a +:+ " " +:+ b)) as s' eqn:Es.
    remember (String d a) as a' eqn:Ea.
    simpl. destruct (isspace c) eqn:Hc; [exact IH|].
    rewrite Es, Ea. destruct (isspace d) eqn:Hd.
    + rewrite <- Es, <- Ea, IH. reflexivity.
    + rewrite <- Es, <- Ea, IH.
      pose proof (split_whitespace_head d a Hd) as Hne. rewrite <- Ea in Hne.
      destruct (Pipeline.split_whitespace a'); [contradiction | reflexivity].
Qed.

Lemma split_whitespace_blank (s : string) :
  Pipeline.split_whitespace s = [] <-> all_chars isspace s = true.
Proof.
  induction s as [|c s IH]; [simpl; tauto|].
  cbn [all_chars]. destruct (isspace c) eqn:Hc.
  - simpl. rewrite Hc. exact IH.
  - split; [|discriminate]. intros H. now destruct (split_whitespace_head c s Hc).
Qed.

(** X5. The word count stored with an entry is zero exactly for a text
    that is all whitespace, and the counts of two texts add up when they are
    joined by a space. *)
Theorem word_count_adds_up :
  (forall text : string, Pipeline.word_count text = 0%Z <-> all_chars isspace text = true) /\
  (forall a b : string,
      Pipeline.word_count (a +:+ " " +:+ b)
      = (Pipeline.word_count a + Pipeline.word_count b)%Z).
Proof.
  split.
  - intros text. unfold Pipeline.word_count. rewrite <- split_whitespace_blank.
    destruct (Pipeline.split_whitespace text); simpl; split; (reflexivity || discriminate || lia).
  - intros a b. unfold Pipeline.word_count.
    rewrite split_whitespace_space, length_app. lia.
Qed.

(** ** Input normalisation *)

Lemma usable_unfold (text : string) :
  Journal.usable (Some text)
  = truthy text && negb (contains "[BLOCKED:" text) && negb (contains "[API ERROR:" text)
    && negb (contains "[No text content received]" text).
Proof.
  unfold Journal.usable, Journal.err_tags. simpl.
  destruct (truthy text), (contains "[BLOCKED:" text), (contains "[API ERROR:" text),
    (contains "[No text content received]" text); reflexivity.
Qed.

(** X6. The enhancement of a transcript gives back either the transcript as
    it came, or the trimmed answer of the model, and the latter only when
    the model is available and its answer is not empty and carries none of
    the three tags; a blank transcript always comes back as it is. *)
Theorem enhancement_falls_back_to_raw (genai_model : bool) (generate : string -> option string)
    (raw_text : string) :
  let enhanced := fst (Gateway.add_punctuation_with_gemini genai_model generate raw_text) in
  (enhanced = raw_text \/
   exists formatted_text,
     genai_model = true /\
     generate (Gateway.punctuation_prompt raw_text) = Some formatted_text /\
     Journal.usable (Some formatted_text) = true /\
     enhanced = strip formatted_text) /\
  (strip raw_text = EmptyString -> enhanced = raw_text).
Proof.
  unfold Gateway.add_punctuation_with_gemini. split.
  - destruct (negb (truthy raw_text) || _); [now left|].
    destruct genai_model; simpl; [|now left].
    destruct (generate _) as [f|] eqn:E; [|now left].
    rewrite <- usable_unfold. destruct (Journal.usable (Some f)) eqn:Hu; [|now left].
    right. now exists f.
  - intros H. rewrite H. simpl. now rewrite orb_true_r.
Qed.

Lemma enhancement_falls_back_to_raw_witness :
  fst (Gateway.add_punctuation_with_gemini true (fun _ => Some "Hello.") "   ") = "   ".
Proof.
  apply (proj2 (enhancement_falls_back_to_raw true (fun _ => Some "Hello.") "   ")).
  reflexivity.
Defined.

Lemma call_keeps (w : Input.world) (e : Input.event) (f : Input.frame) :
  Input.input_type (snd (Input.call w e f)) = Input.input_type f.
Proof. unfold Input.call. now destruct (Input.delivers w (Input.calls f)). Qed.

Lemma for_each_keeps (w : Input.world) (l : list string) (f : Input.frame) :
  Input.input_type
    (snd (for_each l
            (fun chunk => try_ (Input.call w (Input.Reply (Input.code_block chunk)))
                               (fun _ => raise (NameError "telegram"))) f))
  = Input.input_type f.
Proof.
  revert f. induction l as [|x l IH]; intros f; [reflexivity|].
  cbn [for_each]. unfold bind at 1, try_, Input.call, raise.
  destruct (Input.delivers w (Input.calls f)); [|reflexivity].
  now rewrite IH.
Qed.

Lemma voice_tail_shape (w : Input.world) (p : string) (f : Input.frame) :
  Input.input_type f = Some "audio" ->
  match
    (Input.call w Input.StatusDelete ;;
     try_ (Input.call w (Input.Reply (Input.escape_markdown w "*Audio Transcript* (AI Enhanced):")))
          (fun _ => Input.call w (Input.Reply "Audio Transcript (AI Enhanced):")) ;;
     for_each (Input.chunks Input.max_len (Input.escape_markdown w p))
       (fun chunk =>
          try_ (Input.call w (Input.Reply (Input.code_block chunk)))
               (fun _ => raise (NameError "telegram"))) ;;
     f' <- get ;;
     ret (Some p, Input.input_type f', None)) f
  with
  | (Returns r, _) => well_formed r
  | (Raises _, f') => Input.input_type f' = Some "audio"
  end.
Proof.
  intros H2. unfold bind at 1. unfold Input.call at 1.
  destruct (Input.delivers w (Input.calls f)); [|exact H2].
  set (f3 := {| Input.calls := S (Input.calls f) |}).
  assert (Input.input_type f3 = Some "audio") as H3 by exact H2.
  clearbody f3.
  unfold bind at 1. unfold try_ at 1.
  pose proof (call_keeps w
    (Input.Reply (Input.escape_markdown w "*Audio Transcript* (AI Enhanced):")) f3) as K4.
  destruct (Input.call w (Input.Reply (Input.escape_markdown w _)) f3) as [[[]|e] f4].
  + simpl in K4. rewrite H3 in K4.
    unfold bind at 1.
    pose proof (for_each_keeps w
      (Input.chunks Input.max_len (Input.escape_markdown w p)) f4) as K5.
    destruct (for_each _ _ f4) as [[[]|e] f5]; simpl in K5; rewrite K4 in K5; [|exact K5].
    unfold bind, get, ret. rewrite K5. simpl. right. now left.
  + simpl in K4. rewrite H3 in K4.
    pose proof (call_keeps w (Input.Reply "Audio Transcript (AI Enhanced):") f4) as K4'.
    destruct (Input.call w (Input.Reply "Audio Transcript (AI Enhanced):") f4)
      as [[[]|e'] f4']; simpl in K4'; rewrite K4 in K4'; [|exact K4'].
    unfold bind at 1.
    pose proof (for_each_keeps w
      (Input.chunks Input.max_len (Input.escape_markdown w p)) f4') as K5.
    destruct (for_each _ _ f4') as [[[]|e''] f5]; simpl in K5; rewrite K4' in K5; [|exact K5].
    unfold bind, get, ret. rewrite K5. simpl. right. now left.
Qed.

(** What the voice branch makes of a transcription result, whatever the
    transport does. *)
Lemma voice_steps_shape (w : Input.world) (raw : string) (f : Input.frame) :
  Input.input_type f = Some "audio" ->
  match Input.voice_steps w (Some raw) f with
  | (Returns r, _) => well_formed r
  | (Raises _, f') => Input.input_type f' = Some "audio"
  end.
Proof.
  intros Hf. unfold Input.voice_steps.
  destruct (contains "[" raw) eqn:Hc.
  - pose proof (contains_nonempty_text "[" raw ltac:(discriminate) Hc) as Hne.
    run_steps. destruct (Input.delivers w (Input.calls f)); simpl; rewrite Hf;
      (destruct raw; [contradiction|]); simpl;
      (split; [discriminate | intros _; now left]).
  - destruct (Gateway.add_punctuation_with_gemini _ _ raw) as [p asked].
    unfold bind at 1. unfold Input.call at 1.
    destruct (Input.delivers w (Input.calls f)); [|exact Hf].
    destruct asked; unfold bind at 1; [unfold Input.note at 1 | unfold ret at 1];
      apply voice_tail_shape; exact Hf.
Qed.

Lemma transcribe_gives_text (file_exists genai_model : bool) (response : Gateway.audio_response) :
  exists raw, Gateway.transcribe_audio_with_gemini file_exists genai_model response = Some raw.
Proof.
  unfold Gateway.transcribe_audio_with_gemini.
  destruct (negb file_exists); [eauto|]. destruct (negb genai_model); [eauto|].
  destruct response; eauto.
Qed.

Lemma classify_shape (extracted_text_result : option string) :
  well_formed (Input.classify (Some "image") extracted_text_result).
Proof.
  unfold Input.classify. destruct extracted_text_result as [x|]; [|now split].
  destruct (contains "[API ERROR:" x) eqn:H1.
  { pose proof (contains_nonempty_text "[API ERROR:" x ltac:(discriminate) H1) as Hne.
    destruct x; [contradiction|]. simpl. split; discriminate. }
  destruct (contains "[BLOCKED:" x); [split; discriminate|].
  destruct (negb (truthy x) || _); [split; discriminate|].
  right. now right.
Qed.

(** What the body of the normalisation ends in: a well-formed answer, or
    an exception raised after the input type was assigned. *)
Lemma main_try_shape (w : Input.world) (m : Input.message) :
  match Input.main_try w m Input.start with
  | (Returns r, _) => well_formed r
  | (Raises _, f) => Input.input_type f = Some "audio" \/ Input.input_type f = Some "image"
  end.
Proof.
  unfold Input.main_try.
  destruct (truthy (default EmptyString (Input.text m))) eqn:Ht.
  { destruct (Input.text m); simpl in *; [now left | discriminate]. }
  destruct (Input.voice m).
  { destruct (transcribe_gives_text (Input.audio_file_exists w) (Input.genai_model w)
                (Input.audio w)) as [raw Hr].
    unfold Input.voice_branch. rewrite Hr.
    unfold bind at 1. unfold Input.assign_input_type at 1.
    unfold bind at 1. unfold Input.call at 1. simpl.
    destruct (Input.delivers w 0); [|now left].
    unfold bind at 1. unfold Input.assign_status_msg at 1.
    unfold bind at 1. unfold Input.assign_temp_file_path at 1.
    unfold bind at 1. unfold Input.call at 1. simpl.
    destruct (Input.delivers w 1); [|now left].
    unfold bind at 1. unfold Input.call at 1. simpl.
    destruct (Input.delivers w 2); [|now left].
    unfold bind at 1. unfold Input.call at 1. simpl.
    destruct (Input.delivers w 3); [|now left].
    unfold bind at 1. unfold Input.note at 1. simpl.
    match goal with
    | |- context [Input.voice_steps w (Some raw) ?f] =>
        pose proof (voice_steps_shape w raw f eq_refl) as H;
        destruct (Input.voice_steps w (Some raw) f) as [[r|e] f']
    end; [exact H | now left]. }
  destruct (Input.photo m); [|reflexivity].
  unfold Input.photo_branch.
  unfold bind at 1. unfold Input.assign_input_type at 1.
  unfold bind at 1. unfold Input.call at 1. simpl.
  destruct (Input.delivers w 0); [|now right].
  unfold bind at 1. unfold Input.assign_status_msg at 1.
  unfold bind at 1. unfold Input.assign_temp_file_path at 1.
  unfold bind at 1. unfold Input.call at 1. simpl.
  destruct (Input.delivers w 1); [|now right].
  unfold bind at 1. unfold Input.call at 1. simpl.
  destruct (Input.delivers w 2); [|now right].
  unfold bind at 1. unfold Input.call at 1. simpl.
  destruct (Input.delivers w 3); [|now right].
  unfold bind at 1. unfold get at 1. simpl.
  destruct (Input.vision w) as [| |x]; try (split; discriminate).
  run_steps. destruct (Input.delivers w 4); [apply classify_shape | now right].
Qed.

Lemma normalisation_shape (w : Input.world) (m : Input.message) :
  well_formed (fst (Input.get_text_from_input w m)).
Proof.
  unfold Input.get_text_from_input.
  pose proof (main_try_shape w m) as H.
  destruct (Input.main_try w m Input.start) as [[r|e] f]; simpl; [exact H|].
  destruct H as [-> | ->]; split; try discriminate. intros _. now right.
Qed.

(** When every call is delivered the body of the normalisation returns. *)
Lemma main_try_delivered (w : Input.world) (m : Input.message) :
  (forall n, Input.delivers w n = true) ->
  exists r f, Input.main_try w m Input.start = (Returns r, f) /\
              snd r <> Some unexpected_error.
Proof.
  intros Hd. unfold Input.main_try.
  destruct (truthy (default EmptyString (Input.text m))); [eexists _, _; split; [reflexivity | discriminate]|].
  destruct (Input.voice m).
  { rewrite (voice_branch_transcribed w (fun n _ => Hd n)).
    destruct (transcribe_gives_text (Input.audio_file_exists w) (Input.genai_model w)
                (Input.audio w)) as [raw ->].
    destruct (contains "[" raw) eqn:Hc.
    - unfold Input.voice_steps. rewrite Hc. run_steps. rewrite Hd. simpl.
      eexists _, _. split; [reflexivity|]. simpl.
      pose proof (contains_nonempty_text "[" raw ltac:(discriminate) Hc) as Hne.
      destruct raw as [|c raw]; [contradiction|]. simpl.
      intros E. assert (String c raw = unexpected_error) as E' by congruence.
      rewrite E' in Hc. vm_compute in Hc. discriminate Hc.
    - destruct (voice_steps_delivered w raw
                  {| Input.calls := 4;
                     Input.trace :=
                       [Input.Status "Downloading audio..."; Input.GetFile;
                        Input.Download ".ogg";
                        Input.StatusEdit "Transcribing audio with AI..."; Input.Transcribe];
                     Input.status_msg := true; Input.temp_file_path := true;
                     Input.input_type := Some "audio" |} Hd Hc) as (more & n & ->).
      eexists _, _. split; [reflexivity | discriminate]. }
  destruct (Input.photo m); [|eexists _, _; split; [reflexivity | discriminate]].
  run_steps. rewrite (Hd 0). simpl. rewrite (Hd 1). simpl. rewrite (Hd 2). simpl.
  rewrite (Hd 3). simpl.
  destruct (Input.vision w) as [| |x]; try (eexists _, _; split; [reflexivity | discriminate]).
  simpl. rewrite (Hd 4). eexists _, _. split; [reflexivity|].
  unfold Input.classify. destruct x as [x|]; [|discriminate].
  destruct (contains "[API ERROR:" x) eqn:H1.
  { pose proof (contains_nonempty_text "[API ERROR:" x ltac:(discriminate) H1) as Hne.
    destruct x as [|c x]; [contradiction|]. simpl.
    intros E. assert (String c x = unexpected_error) as E' by congruence.
    rewrite E' in H1. vm_compute in H1. discriminate H1. }
  destruct (contains "[BLOCKED:" x); [discriminate|].
  destruct (negb (truthy x) || _); discriminate.
Qed.

(** X7. Whatever the message, the model and the transport do, the input
    normalisation ends in exactly one of two ways: a text with the tag
    text, audio or image and no error message, or no text and an error
    message that is not empty. For a voice message the error is a result of
    the transcription with a bracket in it, or the fixed answer of the
    handler of unexpected errors; that answer is given only when a call to
    the transport failed, and it is all the user gets, with no status
    message, when the very first reply to a voice message or a photo fails. *)
Theorem normalisation_gives_text_or_error (w : Input.world) (m : Input.message) :
  well_formed (fst (Input.get_text_from_input w m)) /\
  ((forall n, Input.delivers w n = true) ->
   snd (fst (Input.get_text_from_input w m)) <> Some unexpected_error) /\
  (truthy (default EmptyString (Input.text m)) = false ->
   Input.voice m = true \/ Input.photo m = true ->
   Input.delivers w 0 = false ->
   Input.get_text_from_input w m
   = ((None, Some (if Input.voice m then "audio" else "image"), Some unexpected_error), [])).
Proof.
  split; [apply normalisation_shape|]. split.
  - intros Hd. unfold Input.get_text_from_input.
    destruct (main_try_delivered w m Hd) as (r & f & -> & Hr). exact Hr.
  - intros Ht Hm H0. unfold Input.get_text_from_input, Input.main_try. rewrite Ht.
    destruct (Input.voice m).
    + run_steps. rewrite H0. reflexivity.
    + destruct Hm as [Hm|Hm]; [discriminate|]. rewrite Hm.
      run_steps. rewrite H0. reflexivity.
Qed.

Lemma normalisation_gives_text_or_error_witness :
  Input.get_text_from_input
    {| Input.genai_model := true; Input.audio_file_exists := true;
       Input.audio := Gateway.AudioText "had a rough day";
       Input.generate := fun _ => None; Input.vision := Input.ImageGone;
       Input.escape_markdown := fun s => s; Input.delivers := fun _ => false |}
    voice_message
  = ((None, Some "audio", Some unexpected_error), []).
Proof.
  apply (proj2 (proj2 (normalisation_gives_text_or_error
    {| Input.genai_model := true; Input.audio_file_exists := true;
       Input.audio := Gateway.AudioText "had a rough day";
       Input.generate := fun _ => None; Input.vision := Input.ImageGone;
       Input.escape_markdown := fun s => s; Input.delivers := fun _ => false |}
    voice_message)));
    [reflexivity | now left | reflexivity].
Defined.

(** X8. Without a mode [handle_input] asks for one and does nothing else:
    nothing is downloaded and the model is not called. With a mode it never
    ends in the reply that the input could not be processed; and when it
    hands a text to the handler of a mode, that mode is the current one and
    the text and its tag are what the normalisation returned. *)
Theorem handle_input_dispatch (w : Input.world) (m : Input.message) :
  (forall mode, mode = None \/ mode = Some EmptyString ->
      Input.handle_input w mode m = (Input.AskForMode, [])) /\
  (forall mode, fst (Input.handle_input w mode m) <> Input.Unprocessed) /\
  (forall mode t tag,
      (fst (Input.handle_input w mode m) = Input.ToChatbot t ->
       mode = Some Input.CHATBOT_MODE /\ exists ty,
         fst (Input.get_text_from_input w m) = (Some t, ty, None)) /\
      (fst (Input.handle_input w mode m) = Input.ToJournal t tag ->
       mode = Some Input.JOURNAL_MODE /\
       fst (Input.get_text_from_input w m) = (Some t, tag, None)) /\
      (fst (Input.handle_input w mode m) = Input.ToOcr t tag ->
       mode = Some Input.OCR_MODE /\
       fst (Input.get_text_from_input w m) = (Some t, tag, None))).
Proof.
  split; [|split].
  - intros mode [->| ->]; reflexivity.
  - intros mode. unfold Input.handle_input.
    destruct (negb _); [discriminate|].
    pose proof (normalisation_shape w m) as H. unfold well_formed in H.
    destruct (Input.get_text_from_input w m) as [[[ft ty] err] trace]. simpl in *.
    destruct ft as [t|], ty as [tag|], err as [e|]; try contradiction; simpl.
    + repeat (destruct (String.eqb _ _)); discriminate.
    + destruct H as [H _]. destruct e; [contradiction | discriminate].
    + subst e. discriminate.
  - intros mode t tag. unfold Input.handle_input.
    destruct mode as [mo|]; simpl; [|split; [|split]; intros E; discriminate E].
    destruct (truthy mo) eqn:Hm; simpl; [|split; [|split]; intros E; discriminate E].
    pose proof (normalisation_shape w m) as H. unfold well_formed in H.
    destruct (Input.get_text_from_input w m) as [[[ft ty] err] trace]. simpl in *.
    destruct ft as [t'|], ty as [tag'|], err as [e|]; try contradiction; simpl.
    + destruct (String.eqb_spec mo Input.CHATBOT_MODE) as [->|]; simpl.
      { split; [|split]; intros E; try discriminate E.
        injection E as ->. split; [reflexivity | now exists (Some tag')]. }
      destruct (String.eqb_spec mo Input.JOURNAL_MODE) as [->|]; simpl.
      { split; [|split]; intros E; try discriminate E. now injection E as -> ->. }
      destruct (String.eqb_spec mo Input.OCR_MODE) as [->|]; simpl.
      { split; [|split]; intros E; try discriminate E. now injection E as -> ->. }
      split; [|split]; intros E; discriminate E.
    + destruct H as [H _]. destruct e; [contradiction|].
      split; [|split]; intros E; discriminate E.
    + subst e. split; [|split]; intros E; discriminate E.
Qed.

Lemma handle_input_dispatch_witness :
  Input.handle_input talking_world None voice_message = (Input.AskForMode, []).
Proof. apply (proj1 (handle_input_dispatch talking_world voice_message)). now left. Defined.

(** ** Chunks *)










(** ** The token counter, further *)

Lemma increments_writable (calls : list (Clock.clock * Z * Z)) (st : Tokens.state) :
  Tokens.writable st = true ->
  Tokens.writable (increments calls st) = true /\
  Tokens.cache_session (increments calls st) = (Tokens.cache_session st + tokens_of calls)%Z /\
  Tokens.total (Tokens.load_token_data (increments calls st))
  = (Tokens.total (Tokens.load_token_data st) + tokens_of calls)%Z.
Proof.
  revert st. induction calls as [|[[c p] q] calls IH]; intros st Hw; simpl.
  - repeat split; [assumption | lia | lia].
  - destruct (increment_token_usage_step c p q st Hw) as (Hw1 & Hs1 & Hd1).
    destruct (IH _ Hw1) as (Hw2 & Hs2 & Ht2).
    rewrite Hs2, Ht2, Hs1, Hd1. simpl. repeat split; [assumption | lia | lia].
Qed.

(** X10. With a writable file, any run of increments, on whatever dates,
    raises the session count and the all-time total by the same amount, the
    sum of all prompt and candidate counts; the file stays writable. *)
Theorem session_and_total_rise_together
    (calls : list (Clock.clock * Z * Z)) (st : Tokens.state) :
  Tokens.writable st = true ->
  Tokens.cache_session (increments calls st) = (Tokens.cache_session st + tokens_of calls)%Z /\
  Tokens.total (Tokens.load_token_data (increments calls st))
  = (Tokens.total (Tokens.load_token_data st) + tokens_of calls)%Z.
Proof. intros Hw. now destruct (increments_writable calls st Hw) as (_ & H1 & H2). Qed.

Lemma session_and_total_rise_together_witness :
  Tokens.cache_session
    (increments [(utc at_10, 10, 5); (east at_23, 3, 2)]%Z (started (Some used_today)))
  = 20%Z.
Proof.
  apply (proj1 (session_and_total_rise_together
           [(utc at_10, 10, 5); (east at_23, 3, 2)]%Z (started (Some used_today)) eq_refl)).
Defined.

(** X11. When the file cannot be written, an increment is counted for the
    session only: the file, and with it the all-time and daily totals that
    the next call will load, stay as they were. *)
Theorem unsaved_increment_counts_for_session_only
    (c : Clock.clock) (p q : Z) (st : Tokens.state) :
  Tokens.writable st = false ->
  Tokens.file (Tokens.increment_token_usage c p q st) = Tokens.file st /\
  Tokens.load_token_data (Tokens.increment_token_usage c p q st) = Tokens.load_token_data st /\
  Tokens.cache_session (Tokens.increment_token_usage c p q st)
  = (Tokens.cache_session st + (p + q))%Z.
Proof.
  intros Hw. unfold Tokens.increment_token_usage, Tokens.save_token_data. simpl. rewrite Hw.
  destruct (negb _); simpl; repeat split.
Qed.

Lemma unsaved_increment_counts_for_session_only_witness :
  Tokens.cache_session
    (Tokens.increment_token_usage (utc at_10) 10 5
       {| Tokens.file := Some used_today; Tokens.writable := false;
          Tokens.cache_session := 0 |})
  = 15%Z.
Proof.
  apply (proj2 (proj2 (unsaved_increment_counts_for_session_only (utc at_10) 10 5
    {| Tokens.file := Some used_today; Tokens.writable := false;
       Tokens.cache_session := 0 |} eq_refl))).
Defined.

(** X12. The usage command shows the session count of the cache and the
    all-time total of the file and changes neither. On a local date other
    than the stored one it shows zero for today and, if the file can be
    written, stores that date with a zero count; on the stored date it shows
    the stored count and leaves everything as it is. *)
Theorem tokens_command_reads (c : Clock.clock) (st : Tokens.state) :
  let today := Clock.strftime_Ymd (Clock.now c) in
  let before := Tokens.load_token_data st in
  let st' := fst (Tokens.tokens_command c st) in
  Tokens.cache_session st' = Tokens.cache_session st /\
  Tokens.total (Tokens.load_token_data st') = Tokens.total before /\
  (Tokens.daily_date before = today ->
   Tokens.tokens_command c st
   = (st, (Tokens.cache_session st, Tokens.daily_count before, Tokens.total before))) /\
  (Tokens.daily_date before <> today ->
   snd (Tokens.tokens_command c st) = (Tokens.cache_session st, 0%Z, Tokens.total before) /\
   (Tokens.writable st = true ->
    Tokens.daily_date (Tokens.load_token_data st') = today /\
    Tokens.daily_count (Tokens.load_token_data st') = 0%Z)).
Proof.
  unfold Tokens.tokens_command, Tokens.save_token_data. simpl.
  destruct (String.eqb_spec (Tokens.daily_date (Tokens.load_token_data st))
              (Clock.strftime_Ymd (Clock.now c))) as [E|E]; simpl.
  - split; [reflexivity|]. split; [reflexivity|]. split; [reflexivity|].
    intros H. contradiction.
  - destruct (Tokens.writable st) eqn:Hw; simpl;
      (split; [reflexivity|]; split; [reflexivity|]; split; [intros H; contradiction|];
       intros _; split; [reflexivity|]; intros H');
      [split; reflexivity | discriminate H'].
Qed.

Lemma tokens_command_reads_witness :
  snd (Tokens.tokens_command (utc at_10) (started None)) = (0, 0, 0)%Z.
Proof.
  apply (proj2 (proj2 (proj2 (tokens_command_reads (utc at_10) (started None))))).
  vm_compute. discriminate.
Defined.

(** ** The store, further *)

(** X13. Reading a user is also a write: with a connection [get_user]
    returns the row as it was stored and sets the time of the last
    interaction, leaving every other column and every other user alone; an
    unknown user, or no connection, gives nothing and changes nothing. *)
Theorem get_user_touches (now : Z) (users : gmap Z Db.user_row) (user_id : Z) :
  (forall row, users !! user_id = Some row ->
      snd (Db.get_user true now users user_id) = Some row /\
      fst (Db.get_user true now users user_id) !! user_id
      = Some {| Db.telegram_username := Db.telegram_username row;
                Db.display_name := Db.display_name row;
                Db.first_seen := Db.first_seen row;
                Db.last_interaction := Some now;
                Db.preferences := Db.preferences row |}) /\
  (users !! user_id = None -> Db.get_user true now users user_id = (users, None)) /\
  Db.get_user false now users user_id = (users, None) /\
  (forall connects other, other <> user_id ->
      fst (Db.get_user connects now users user_id) !! other = users !! other).
Proof.
  unfold Db.get_user. split; [|split; [|split]].
  - intros row H. simpl. rewrite H. simpl. split; [reflexivity | apply lookup_insert_eq].
  - intros H. simpl. now rewrite H.
  - reflexivity.
  - intros connects other Hne. destruct connects; simpl; [|reflexivity].
    destruct (users !! user_id); simpl; [now rewrite lookup_insert_ne | reflexivity].
Qed.

Lemma get_user_touches_witness :
  snd (Db.get_user true at_10 {[ 1%Z := bob ]} 1) = Some bob.
Proof.
  apply (proj1 (get_user_touches at_10 {[ 1%Z := bob ]} 1%Z) bob).
  apply lookup_singleton_eq.
Defined.

(** X14. A user added with a display name can be read back: whatever the
    table held, after [add_user] with a connection [get_user] returns a row
    with the username and the display name of the call and the time of the
    call as last interaction. *)
Theorem add_user_then_get_user (t1 t2 : Z) (users : gmap Z Db.user_row) (user_id : Z)
    (username : option string) (display : string) :
  exists row,
    snd (Db.get_user true t2 (fst (Db.add_user true t1 users user_id username (Some display)))
           user_id) = Some row /\
    Db.telegram_username row = username /\
    Db.display_name row = Some display /\
    Db.last_interaction row = Some t1 /\
    Db.first_seen row = default t1 (Db.first_seen <$> users !! user_id) /\
    Db.preferences row = (users !! user_id) ≫= Db.preferences.
Proof.
  unfold Db.add_user, Db.get_user. simpl.
  destruct (users !! user_id) as [old|]; simpl; rewrite lookup_insert_eq;
    eexists; (split; [reflexivity|]); simpl; repeat split.
Qed.

(** X15. The part of [update_user_preferences] that works: with a
    connection, a call that only sets the display name of a user without
    stored preferences returns true and sets that name and the time of the
    last interaction, nothing else; for an unknown user it returns true and
    changes nothing, no row is created. *)
Theorem update_display_name_only (now : Z) (users : gmap Z Db.user_row) (user_id : Z)
    (display : string) :
  (forall row, users !! user_id = Some row -> Db.preferences row = None ->
      Db.update_user_preferences true now users user_id (Some display) None
      = (<[user_id := {| Db.telegram_username := Db.telegram_username row;
                         Db.display_name := Some display;
                         Db.first_seen := Db.first_seen row;
                         Db.last_interaction := Some now;
                         Db.preferences := None |}]> users, Returns true)) /\
  (users !! user_id = None ->
      Db.update_user_preferences true now users user_id (Some display) None
      = (users, Returns true)).
Proof.
  unfold Db.update_user_preferences. simpl. split.
  - intros row H1 H2. rewrite H1. simpl. rewrite H2. simpl. f_equal.
    apply map_eq. intros k. rewrite lookup_alter.
    destruct (decide (user_id = k)) as [->|Hne]; simpl.
    + rewrite lookup_insert_eq, H1. simpl. unfold Db.set_display_name. now rewrite H2.
    + now rewrite lookup_insert_ne.
  - intros H. rewrite H. simpl. f_equal.
    apply map_eq. intros k. rewrite lookup_alter.
    destruct (decide (user_id = k)) as [->|Hne]; simpl; [now rewrite H | reflexivity].
Qed.

Lemma update_display_name_only_witness :
  snd (Db.update_user_preferences true at_10 {[ 1%Z := bob ]} 1 (Some "Bobby") None)
  = Returns true.
Proof.
  rewrite (proj1 (update_display_name_only at_10 {[ 1%Z := bob ]} 1%Z "Bobby") bob);
    [reflexivity | apply lookup_singleton_eq | reflexivity].
Defined.

(** X16. A new journal entry gets a key that was never given out before,
    one more than the last; it can be read at once, with the text, the input
    type and the word count of the call and all analysis columns empty; the
    entries that were there stay as they are, and every key of the table is
    still one that has been given out. Without a connection nothing is
    stored. *)
Theorem add_journal_entry_is_fresh (now : Z) (t : Db.table Db.entry) (user_id : Z)
    (text : string) (input_type : option string) (words : Z) :
  keys_given_out t ->
  let t' := fst (Db.add_journal_entry true now t user_id text input_type words) in
  let id := (Db.last_id t + 1)%Z in
  snd (Db.add_journal_entry true now t user_id text input_type words) = Some id /\
  Db.rows t !! id = None /\
  Db.rows t' !! id
  = Some {| Db.entry_user := user_id; Db.timestamp := now; Db.raw_text := text;
            Db.input_type := input_type; Db.word_count := words;
            Db.sentiment := None; Db.topics := None; Db.categories := None;
            Db.ai_analysis_text := None; Db.dot_code := None |} /\
  (forall k, k <> id -> Db.rows t' !! k = Db.rows t !! k) /\
  keys_given_out t' /\
  Db.add_journal_entry false now t user_id text input_type words = (t, None).
Proof.
  intros Hk t' id. subst t' id. unfold Db.add_journal_entry, Db.insert_row. simpl.
  assert (Db.rows t !! (Db.last_id t + 1)%Z = None) as Hfresh.
  { destruct (Db.rows t !! (Db.last_id t + 1)%Z) eqn:E; [|reflexivity].
    assert (Db.last_id t + 1 <= Db.last_id t)%Z by (apply Hk; eauto). lia. }
  split; [reflexivity|]. split; [exact Hfresh|]. split; [apply lookup_insert_eq|].
  split; [intros k Hne; now apply lookup_insert_ne|]. split; [|reflexivity].
  intros k. simpl. destruct (decide (k = Db.last_id t + 1)%Z) as [->|Hne]; [lia|].
  rewrite lookup_insert_ne by congruence. intros H. specialize (Hk k H). lia.
Qed.

Lemma add_journal_entry_is_fresh_witness :
  snd (Db.add_journal_entry true at_10 {| Db.rows := ∅; Db.last_id := 0 |} 7
         "Had a rough day at work" (Some "text") 6) = Some 1%Z.
Proof.
  apply (add_journal_entry_is_fresh at_10 {| Db.rows := ∅; Db.last_id := 0 |} 7%Z
           "Had a rough day at work" (Some "text") 6%Z).
  intros k [x H]. simpl in H. rewrite lookup_empty in H. discriminate.
Defined.

(** X17. An analysis update sets the columns for which a value is given
    and keeps those for which none is; it never touches the text, the input
    type or the word count of the entry, any other entry, or the keys. For
    an entry that does not exist it returns true all the same and changes
    nothing, and so does a call without any value. *)
Theorem update_journal_entry_analysis_partial (t : Db.table Db.entry) (entry_id : Z)
    (s' tp' c' a' d' : option string) :
  let r := Db.update_journal_entry_analysis true t entry_id s' tp' c' a' d' in
  snd r = true /\
  Db.last_id (fst r) = Db.last_id t /\
  (forall k, k <> entry_id -> Db.rows (fst r) !! k = Db.rows t !! k) /\
  (Db.rows t !! entry_id = None -> Db.rows (fst r) !! entry_id = None) /\
  (forall e, Db.rows t !! entry_id = Some e ->
      Db.rows (fst r) !! entry_id
      = Some {| Db.entry_user := Db.entry_user e; Db.timestamp := Db.timestamp e;
                Db.raw_text := Db.raw_text e; Db.input_type := Db.input_type e;
                Db.word_count := Db.word_count e;
                Db.sentiment := Db.or_kept s' (Db.sentiment e);
                Db.topics := Db.or_kept tp' (Db.topics e);
                Db.categories := Db.or_kept c' (Db.categories e);
                Db.ai_analysis_text := Db.or_kept a' (Db.ai_analysis_text e);
                Db.dot_code := Db.or_kept d' (Db.dot_code e) |}).
Proof.
  unfold Db.update_journal_entry_analysis. simpl.
  destruct s', tp', c', a', d'; simpl;
    (split; [reflexivity|]; split; [reflexivity|]; split;
     [intros k Hne; try reflexivity; now rewrite lookup_alter_ne|]; split;
     [intros H; try assumption; now rewrite lookup_alter_eq, H
     |intros e H; try (rewrite H; now destruct e); now rewrite lookup_alter_eq, H]).
Qed.

Lemma update_journal_entry_analysis_partial_witness :
  Db.rows (fst (Db.update_journal_entry_analysis true {| Db.rows := ∅; Db.last_id := 0 |} 5
                  (Some "Hopeful") None None None None)) !! 5%Z = None.
Proof.
  apply (proj1 (proj2 (proj2 (proj2 (update_journal_entry_analysis_partial
           {| Db.rows := ∅; Db.last_id := 0 |} 5%Z (Some "Hopeful") None None None None))))).
  apply lookup_empty.
Defined.

(** ** Daily prompts *)

Lemma has_prompt_iff (t : Db.table Db.prompt) (text : string) :
  existsb (fun kv => Db.has_text text (snd kv)) (map_to_list (Db.rows t)) = true
  <-> exists k p, Db.rows t !! k = Some p /\ Db.prompt_text p = text.
Proof.
  rewrite existsb_exists. split.
  - intros ([k p] & Hin & H). apply list_elem_of_In, elem_of_map_to_list in Hin.
    apply String.eqb_eq in H. eauto.
  - intros (k & p & Hk & H). exists (k, p). split.
    + now apply list_elem_of_In, elem_of_map_to_list.
    + now apply String.eqb_eq.
Qed.

Lemma add_daily_prompt_known (now : Z) (t : Db.table Db.prompt) (text : string) :
  (exists k p, Db.rows t !! k = Some p /\ Db.prompt_text p = text) ->
  Db.add_daily_prompt true now t text = (t, None).
Proof.
  intros H. apply has_prompt_iff in H. unfold Db.add_daily_prompt. simpl. now rewrite H.
Qed.

Lemma add_daily_prompt_new (now : Z) (t : Db.table Db.prompt) (text : string) :
  ~ (exists k p, Db.rows t !! k = Some p /\ Db.prompt_text p = text) ->
  Db.add_daily_prompt true now t text
  = ({| Db.rows := <[(Db.last_id t + 1)%Z :=
                       {| Db.prompt_text := text; Db.date_added := now |}]> (Db.rows t);
        Db.last_id := (Db.last_id t + 1)%Z |}, Some (Db.last_id t + 1)%Z).
Proof.
  intros H. unfold Db.add_daily_prompt. simpl.
  destruct (existsb _ _) eqn:E; [|reflexivity].
  apply has_prompt_iff in E. contradiction.
Qed.

(** X18. The prompt texts stay pairwise distinct: a text that is already
    in the table is refused, the answer is [None] and the table is as it
    was; a new text gets the next key. In particular the same text cannot be
    added twice. Every key remains one that has been given out. *)
Theorem add_daily_prompt_keeps_texts_distinct (t1 t2 : Z) (t : Db.table Db.prompt)
    (text : string) :
  keys_given_out t -> texts_distinct t ->
  let t' := fst (Db.add_daily_prompt true t1 t text) in
  texts_distinct t' /\ keys_given_out t' /\
  (exists k p, Db.rows t' !! k = Some p /\ Db.prompt_text p = text) /\
  Db.add_daily_prompt true t2 t' text = (t', None).
Proof.
  intros Hk Hd t'. subst t'.
  destruct (existsb (fun kv => Db.has_text text (snd kv)) (map_to_list (Db.rows t))) eqn:E.
  - pose proof (proj1 (has_prompt_iff t text) E) as Hex.
    rewrite (add_daily_prompt_known t1 t text Hex). simpl.
    split; [assumption|]. split; [assumption|]. split; [assumption|].
    now apply add_daily_prompt_known.
  - assert (~ (exists k p, Db.rows t !! k = Some p /\ Db.prompt_text p = text)) as Hno.
    { intros H. apply has_prompt_iff in H. congruence. }
    rewrite (add_daily_prompt_new t1 t text Hno). simpl.
    assert (Db.rows t !! (Db.last_id t + 1)%Z = None) as Hfresh.
    { destruct (Db.rows t !! (Db.last_id t + 1)%Z) eqn:F; [|reflexivity].
      assert (Db.last_id t + 1 <= Db.last_id t)%Z by (apply Hk; eauto). lia. }
    split; [|split; [|split]].
    + intros k1 k2 p1 p2. simpl.
      destruct (decide (k1 = Db.last_id t + 1)%Z) as [->|N1];
        destruct (decide (k2 = Db.last_id t + 1)%Z) as [->|N2]; [reflexivity | | |].
      * rewrite lookup_insert_eq, lookup_insert_ne by congruence.
        intros [= <-] H2 Ht. exfalso. apply Hno. exists k2, p2. now split.
      * rewrite lookup_insert_eq, lookup_insert_ne by congruence.
        intros H1 [= <-] Ht. exfalso. apply Hno. exists k1, p1. now split.
      * rewrite !lookup_insert_ne by congruence. apply Hd.
    + intros k. simpl. destruct (decide (k = Db.last_id t + 1)%Z) as [->|Hne]; [lia|].
      rewrite lookup_insert_ne by congruence. intros H. specialize (Hk k H). lia.
    + exists (Db.last_id t + 1)%Z. eexists. split; [apply lookup_insert_eq | reflexivity].
    + apply add_daily_prompt_known.
      exists (Db.last_id t + 1)%Z. eexists. split; [apply lookup_insert_eq | reflexivity].
Qed.

Lemma add_daily_prompt_keeps_texts_distinct_witness :
  Db.add_daily_prompt true at_11
    (fst (Db.add_daily_prompt true at_10 {| Db.rows := ∅; Db.last_id := 0 |}
            "What is one thing you learned recently?"))
    "What is one thing you learned recently?"
  = (fst (Db.add_daily_prompt true at_10 {| Db.rows := ∅; Db.last_id := 0 |}
            "What is one thing you learned recently?"), None).
Proof.
  apply (add_daily_prompt_keeps_texts_distinct at_10 at_11
           {| Db.rows := ∅; Db.last_id := 0 |} "What is one thing you learned recently?").
  - intros k [x H]. simpl in H. rewrite lookup_empty in H. discriminate.
  - intros k1 k2 p1 p2 H. simpl in H. rewrite lookup_empty in H. discriminate.
Defined.

Lemma get_random_daily_prompt_in_table (pick : nat) (t : Db.table Db.prompt)
    (k : Z) (text : string) :
  Db.get_random_daily_prompt true pick t = Some (k, text) ->
  exists p, Db.rows t !! k = Some p /\ Db.prompt_text p = text.
Proof.
  unfold Db.get_random_daily_prompt. simpl.
  intros H. apply fmap_Some in H as ([k' p] & Hl & [= -> ->]).
  apply list_elem_of_lookup_2, elem_of_map_to_list in Hl. now exists p.
Qed.

(** X19. With a connection the draw of a daily prompt gives nothing exactly
    when the table is empty, and what it gives is a prompt of the table,
    with its key; without a connection it gives nothing. *)
Theorem get_random_daily_prompt_is_stored (pick : nat) (t : Db.table Db.prompt) :
  (Db.get_random_daily_prompt true pick t = None <-> Db.rows t = ∅) /\
  (forall k text, Db.get_random_daily_prompt true pick t = Some (k, text) ->
      exists p, Db.rows t !! k = Some p /\ Db.prompt_text p = text) /\
  Db.get_random_daily_prompt false pick t = None.
Proof.
  unfold Db.get_random_daily_prompt. simpl. split; [|split; [|reflexivity]].
  - rewrite <- map_to_list_empty_iff. split.
    + intros H. destruct (map_to_list (Db.rows t)) as [|x l] eqn:E; [reflexivity|].
      exfalso. apply fmap_None in H. apply lookup_ge_None in H.
      pose proof (Nat.mod_upper_bound pick (length (x :: l)) ltac:(simpl; lia)). lia.
    + intros ->. reflexivity.
  - intros k text H. apply fmap_Some in H as ([k' p] & Hl & [= -> ->]).
    apply list_elem_of_lookup_2, elem_of_map_to_list in Hl. now exists p.
Qed.

Lemma get_random_daily_prompt_is_stored_witness :
  exists p, Db.rows one_prompt !! 1%Z = Some p
            /\ Db.prompt_text p = "What are you grateful for today?".
Proof.
  apply (proj1 (proj2 (get_random_daily_prompt_is_stored 3 one_prompt))).
  vm_compute. reflexivity.
Defined.

(** ** The scheduler, further *)

Lemma digit_range (c : ascii) : Scheduler.is_digit c = true -> (0 <= Scheduler.digit c <= 9)%Z.
Proof.
  unfold Scheduler.is_digit, Scheduler.digit. intros H.
  apply char_between_spec in H. change (ord "0") with 48%N in H.
  change (ord "9") with 57%N in H. lia.
Qed.

Lemma parse_hour_range (s rest : string) (h : Z) :
  Scheduler.parse_hour s = Some (h, rest) -> (0 <= h < 24)%Z.
Proof.
  unfold Scheduler.parse_hour. destruct s as [|a [|b s]].
  - discriminate.
  - destruct (Scheduler.is_digit a) eqn:Ha; [|discriminate].
    intros [= <- _]. pose proof (digit_range a Ha). lia.
  - destruct (Scheduler.is_digit a) eqn:Ha; simpl; [|discriminate].
    pose proof (digit_range a Ha).
    destruct (Scheduler.is_digit b) eqn:Hb; simpl.
    + pose proof (digit_range b Hb).
      destruct (Z.ltb_spec (10 * Scheduler.digit a + Scheduler.digit b) 24);
        intros [= <- _]; lia.
    + intros [= <- _]. lia.
Qed.

Lemma parse_minute_range (s rest : string) (m : Z) :
  Scheduler.parse_minute s = Some (m, rest) -> (0 <= m < 60)%Z.
Proof.
  unfold Scheduler.parse_minute. destruct s as [|a [|b s]].
  - discriminate.
  - destruct (Scheduler.is_digit a) eqn:Ha; [|discriminate].
    intros [= <- _]. pose proof (digit_range a Ha). lia.
  - destruct (Scheduler.is_digit a) eqn:Ha; simpl; [|discriminate].
    pose proof (digit_range a Ha).
    destruct (Scheduler.is_digit b) eqn:Hb; simpl.
    + pose proof (digit_range b Hb).
      destruct (Z.ltb_spec (Scheduler.digit a) 6); intros [= <- _]; lia.
    + intros [= <- _]. lia.
Qed.

Lemma strptime_HM_range (s : string) (t : Z) :
  Scheduler.strptime_HM s = Some t -> (0 <= t < 1440)%Z.
Proof.
  unfold Scheduler.strptime_HM.
  destruct (Scheduler.parse_hour s) as [[h [|c rest]]|] eqn:Hh; try discriminate.
  destruct (Ascii.eqb_spec c ":") as [->|Hne].
  - destruct (Scheduler.parse_minute rest) as [[m [|]]|] eqn:Hm; try discriminate.
    intros [= <-]. apply parse_hour_range in Hh. apply parse_minute_range in Hm. lia.
  - destruct c as [[] [] [] [] [] [] [] []]; try discriminate. now destruct Hne.
Qed.

Lemma strptime_HM_table :
  forallb (fun h => forallb (fun m =>
    bool_decide (Scheduler.strptime_HM (HH_MM h m) = Some (Z.of_nat h * 60 + Z.of_nat m)%Z))
    (seq 0 60)) (seq 0 24) = true.
Proof. vm_compute. reflexivity. Qed.

(** X20. A preferred time is read as a minute of the day: whatever the
    text, a result lies between 0 and 1439; and every time of day written
    with two digits for the hour and two for the minute is read as that
    time. *)
Theorem preferred_time_is_a_minute_of_the_day :
  (forall (s : string) (t : Z), Scheduler.strptime_HM s = Some t -> (0 <= t < 1440)%Z) /\
  (forall h m : nat, h < 24 -> m < 60 ->
      Scheduler.strptime_HM (HH_MM h m) = Some (Z.of_nat h * 60 + Z.of_nat m)%Z).
Proof.
  split; [exact strptime_HM_range|].
  intros h m Hh Hm. pose proof strptime_HM_table as T.
  rewrite forallb_forall in T. specialize (T h ltac:(apply in_seq; lia)).
  rewrite forallb_forall in T. specialize (T m ltac:(apply in_seq; lia)).
  now apply bool_decide_eq_true in T.
Qed.

Lemma preferred_time_is_a_minute_of_the_day_witness :
  Scheduler.strptime_HM "09:00" = Some 540%Z.
Proof.
  apply (proj2 preferred_time_is_a_minute_of_the_day 9 0); lia.
Defined.

(** X21. What keeps a user from getting a prompt in a scan: no stored
    preferences; prompts not enabled; the date of the last prompt equal to
    today's UTC date; or a valid preferred time that is still ahead. In each
    case the turn for that user changes nothing and the scan goes on. *)
Theorem prompt_user_guards (w : Scheduler.world) (user_id : Z) (st : Scheduler.state)
    (d : gmap string Db.jval) :
  let today := Clock.strftime_Ymd (Clock.now_utc (Scheduler.clock w)) in
  Scheduler.prompt_user w user_id None st = (st, None) /\
  (Scheduler.truthy_val (d !! "daily_prompt_enabled") = false ->
   Scheduler.prompt_user w user_id (Some (Db.JsonObject d)) st = (st, None)) /\
  (d !! "last_prompt_sent_date" = Some (Db.JStr today) ->
   Scheduler.prompt_user w user_id (Some (Db.JsonObject d)) st = (st, None)) /\
  (forall s t, d !! "preferred_prompt_time" = Some (Db.JStr s) ->
     Scheduler.strptime_HM s = Some t ->
     (Clock.minute_of_day (Clock.now_utc (Scheduler.clock w)) < t)%Z ->
     Scheduler.prompt_user w user_id (Some (Db.JsonObject d)) st = (st, None)).
Proof.
  unfold Scheduler.prompt_user. simpl. split; [reflexivity|]. split; [|split].
  - intros ->. reflexivity.
  - intros ->. rewrite bool_decide_eq_true_2 by reflexivity.
    now rewrite andb_false_r.
  - intros s t Hs Ht Hlt. rewrite Hs, Ht.
    destruct (_ && _); [|reflexivity].
    apply Z.leb_gt in Hlt. cbn [default]. change (id t) with t. now rewrite Hlt.
Qed.

Lemma prompt_user_guards_witness :
  Scheduler.prompt_user (scan_world at_10) 7
    (Some (Db.JsonObject (<["last_prompt_sent_date" := Db.JStr "2024-05-01"]> ann_preferences)))
    ann_waiting
  = (ann_waiting, None).
Proof.
  apply (proj1 (proj2 (proj2 (prompt_user_guards (scan_world at_10) 7 ann_waiting
    (<["last_prompt_sent_date" := Db.JStr "2024-05-01"]> ann_preferences))))).
  vm_compute. reflexivity.
Defined.

Lemma prompt_user_outbox (w : Scheduler.world) (user_id : Z)
    (preferences_str : option Db.pref_text) (st : Scheduler.state) :
  let st' := fst (Scheduler.prompt_user w user_id preferences_str st) in
  Scheduler.prompts st' = Scheduler.prompts st /\
  (Scheduler.outbox st' = Scheduler.outbox st \/
   exists k p, Db.rows (Scheduler.prompts st) !! k = Some p /\
     Scheduler.outbox st' = (Scheduler.outbox st ++ [(user_id, Db.prompt_text p)])%list).
Proof.
  unfold Scheduler.prompt_user.
  repeat match goal with
         | |- context [Db.get_random_daily_prompt ?a ?b ?c] =>
             destruct (Db.get_random_daily_prompt a b c) as [[k text]|] eqn:Hg;
             simpl; try (split; [reflexivity | now left])
         | |- context [Db.update_user_preferences ?a ?b ?c ?d ?e ?f] =>
             destruct (Db.update_user_preferences a b c d e f); simpl
         | |- context [match ?x with _ => _ end] =>
             destruct x eqn:?; simpl; try (split; [reflexivity | now left])
         end.
  split; [reflexivity|]. right.
  destruct (Scheduler.connects w).
  - apply get_random_daily_prompt_in_table in Hg as (p & Hp & <-).
    now exists k, p.
  - discriminate.
Qed.

Lemma for_users_outbox (w : Scheduler.world) (l : list (Z * option Db.pref_text))
    (st : Scheduler.state) :
  Scheduler.prompts (Scheduler.for_users w l st) = Scheduler.prompts st /\
  (exists sent,
      Scheduler.outbox (Scheduler.for_users w l st) = (Scheduler.outbox st ++ sent)%list /\
      length sent <= length l /\
      Forall (fun m => m.1 ∈ l.*1 /\
                       exists k p, Db.rows (Scheduler.prompts st) !! k = Some p
                                   /\ m.2 = Db.prompt_text p) sent).
Proof.
  revert st. induction l as [|[user_id p] l IH]; intros st; simpl.
  - split; [reflexivity|]. exists []. rewrite app_nil_r.
    split; [reflexivity|]. split; [simpl; lia | constructor].
  - destruct (prompt_user_outbox w user_id p st) as [Hp Ho].
    destruct (Scheduler.prompt_user w user_id p st) as [st' [e|]] eqn:E; simpl in *.
    + split; [assumption|]. destruct Ho as [->|(k & q & Hq & ->)].
      * exists []. rewrite app_nil_r.
        split; [reflexivity|]. split; [simpl; lia | constructor].
      * eexists. split; [reflexivity|]. split; [simpl; lia|].
        constructor; [|constructor]. simpl. split; [apply list_elem_of_here | eauto].
    + destruct (IH st') as (Hp' & sent & Hs & Hlen & Hall). rewrite Hp'. split; [assumption|].
      assert (Forall (fun m => m.1 ∈ user_id :: l.*1 /\
                exists k p, Db.rows (Scheduler.prompts st) !! k = Some p
                            /\ m.2 = Db.prompt_text p) sent) as Hall'.
      { eapply Forall_impl; [exact Hall|]. intros m [H1 H2]. rewrite <- Hp.
        split; [now apply list_elem_of_further | assumption]. }
      destruct Ho as [Ho|(k & q & Hq & Ho)]; rewrite Hs, Ho.
      * exists sent. split; [reflexivity|]. split; [simpl; lia | assumption].
      * exists ((user_id, Db.prompt_text q) :: sent). rewrite <- app_assoc.
        split; [reflexivity|]. split; [simpl; lia|].
        constructor; [|assumption]. simpl. split; [apply list_elem_of_here | eauto].
Qed.

(** X22. One scan sends at most one prompt for each entry of the list of
    users it goes through; every message it sends goes to a user of that
    list and carries the text of a prompt of the table; the messages sent
    before stay in front, and the table of prompts is not changed. *)
Theorem scan_sends_at_most_one_per_user
    (get_users : gmap Z Db.user_row -> list (Z * option Db.pref_text))
    (w : Scheduler.world) (st : Scheduler.state) :
  let st' := Scheduler.scan (Returns get_users) w st in
  Scheduler.prompts st' = Scheduler.prompts st /\
  exists sent,
    Scheduler.outbox st' = (Scheduler.outbox st ++ sent)%list /\
    length sent <= length (get_users (Scheduler.users st)) /\
    Forall (fun m => m.1 ∈ (get_users (Scheduler.users st)).*1 /\
                     exists k p, Db.rows (Scheduler.prompts st) !! k = Some p
                                 /\ m.2 = Db.prompt_text p) sent.
Proof. apply for_users_outbox. Qed.

(** X23. How far a failure for one user reaches. A preferences text that
    is not JSON makes the scan skip that user and go on with the next ones.
    A preferences text that is JSON but no object, and a preferred time that
    is not a string in the preferences of a user who is due, end the scan
    there: the users behind in the list are not served by it. *)
Theorem scan_failure_reach (w : Scheduler.world) (user_id : Z)
    (more : list (Z * option Db.pref_text)) (st : Scheduler.state) :
  (forall raw,
      Scheduler.for_users w ((user_id, Some (Db.NotJson raw)) :: more) st
      = Scheduler.for_users w more st) /\
  Scheduler.for_users w ((user_id, Some Db.JsonOther) :: more) st = st /\
  (forall d v,
      Scheduler.truthy_val (d !! "daily_prompt_enabled") = true ->
      d !! "last_prompt_sent_date" = None ->
      d !! "preferred_prompt_time" = Some v -> (forall s, v <> Db.JStr s) ->
      Scheduler.for_users w ((user_id, Some (Db.JsonObject d)) :: more) st = st).
Proof.
  split; [|split].
  - intros raw. simpl. unfold Scheduler.prompt_user. simpl.
    now destruct (truthy raw).
  - reflexivity.
  - intros d v H1 H2 H3 H4. simpl. unfold Scheduler.prompt_user. simpl.
    rewrite H1, H2, H3. simpl.
    destruct v as [|b|z|s]; try reflexivity. now destruct (H4 s).
Qed.

Lemma scan_failure_reach_witness :
  Scheduler.for_users (scan_world at_10)
    [(3%Z, Some (Db.JsonObject (<["preferred_prompt_time" := Db.JNull]>
                                  {[ "daily_prompt_enabled" := Db.JBool true ]})));
     (7%Z, Some (Db.JsonObject ann_preferences))] ann_waiting
  = ann_waiting.
Proof.
  apply (proj2 (proj2 (scan_failure_reach (scan_world at_10) 3
           [(7%Z, Some (Db.JsonObject ann_preferences))] ann_waiting))
         (<["preferred_prompt_time" := Db.JNull]> {[ "daily_prompt_enabled" := Db.JBool true ]})
         Db.JNull); [vm_compute; reflexivity | vm_compute; reflexivity
                    | vm_compute; reflexivity | discriminate].
Defined.

(** ** Commands and modes *)

(** X24. The display name command takes the arguments joined by spaces
    and trimmed; it accepts the name only when it has between 1 and 50
    characters, and otherwise leaves the store alone. An accepted name is
    answered as follows. Without a connection the command says that the
    name is set although nothing is stored. With a connection, for a user
    without a row and for a user whose stored preferences are empty, it says
    that the name is set and reading the user gives that name; for a user
    with stored preferences the update raises NameError and the stored name
    stays. Whenever the answer is that the name is set with a connection,
    reading the user gives that display name. *)
Theorem set_username_command_stores_the_name (connects : bool) (now : Z)
    (users : gmap Z Db.user_row) (user : Commands.tg_user) (args : list string) :
  let r := Commands.set_username_command connects now users user args in
  let name := strip (join " " args) in
  (args = [] -> r = (users, Returns Commands.Usage)) /\
  (args <> [] -> name = EmptyString \/ 50 < String.length name ->
   r = (users, Returns Commands.Invalid)) /\
  (args <> [] -> 1 <= String.length name <= 50 ->
   (connects = false -> r = (users, Returns (Commands.SetTo name))) /\
   (connects = true -> users !! Commands.id user = None ->
    snd r = Returns (Commands.SetTo name) /\
    Db.display_name <$> (fst r !! Commands.id user) = Some (Some name)) /\
   (connects = true ->
    forall row, users !! Commands.id user = Some row ->
      match Db.preferences row with
      | Some t => Db.text_truthy t = false
      | None => True
      end ->
      snd r = Returns (Commands.SetTo name) /\
      Db.display_name <$> (fst r !! Commands.id user) = Some (Some name)) /\
   (connects = true ->
    forall row t, users !! Commands.id user = Some row ->
      Db.preferences row = Some t -> Db.text_truthy t = true ->
      snd r = Raises (NameError "json") /\
      Db.display_name <$> (fst r !! Commands.id user) = Some (Db.display_name row))) /\
  (forall n, snd r = Returns (Commands.SetTo n) ->
     n = name /\ 1 <= String.length n <= 50 /\
     (connects = true -> Db.display_name <$> (fst r !! Commands.id user) = Some (Some n)) /\
     (connects = false -> fst r = users)).
Proof.
  unfold Commands.set_username_command. destruct args as [|a args].
  { split; [reflexivity|]. split; [intros H; now destruct H|].
    split; [intros H; now destruct H | discriminate]. }
  remember (strip (join " " (a :: args))) as name eqn:En. clear En.
  split; [discriminate|]. split; [|split].
  - intros _ [->|H]; [reflexivity|].
    apply Nat.ltb_lt in H. rewrite H. now rewrite orb_true_r.
  - intros _ [Hl1 Hl2].
    assert (truthy name = true) as Ht by (destruct name; [simpl in Hl1; lia | reflexivity]).
    rewrite Ht. simpl.
    destruct (Nat.ltb_spec 50 (String.length name)) as [Hl|_]; [lia|].
    split; [|split; [|split]].
    + intros ->. reflexivity.
    + intros -> Hu. unfold Db.get_user, Db.add_user. simpl. rewrite Hu. simpl. rewrite Hu.
      simpl. split; [reflexivity|]. now rewrite lookup_insert_eq.
    + intros -> row Hu Hp. unfold Db.get_user. simpl. rewrite Hu. simpl.
      unfold Db.update_user_preferences. simpl. rewrite lookup_insert_eq. simpl.
      destruct (Db.preferences row) as [t|]; simpl.
      * rewrite Hp. simpl. split; [reflexivity|].
        now rewrite lookup_alter_eq, lookup_insert_eq.
      * split; [reflexivity|]. now rewrite lookup_alter_eq, lookup_insert_eq.
    + intros -> row t Hu Hp Ht'. unfold Db.get_user. simpl. rewrite Hu. simpl.
      unfold Db.update_user_preferences. simpl. rewrite lookup_insert_eq. simpl.
      rewrite Hp. simpl. rewrite Ht'. simpl. split; [reflexivity|].
      now rewrite lookup_insert_eq.
  - intros n. destruct (truthy name) eqn:Ht; simpl; [|discriminate].
    destruct (Nat.ltb_spec 50 (String.length name)) as [Hl|Hl]; [discriminate|].
    assert (1 <= String.length name) as Hl1 by (destruct name; [discriminate | simpl; lia]).
    destruct connects; unfold Db.get_user; simpl.
    + destruct (users !! Commands.id user) as [row|] eqn:Hu; simpl.
      * match goal with
        | |- context [Db.update_user_preferences ?x1 ?x2 ?x3 ?x4 ?x5 ?x6] =>
            destruct (Db.update_user_preferences x1 x2 x3 x4 x5 x6)
              as [users2 [[]|exc]] eqn:Hup; simpl; try discriminate
        end.
        intros [= <-]. split; [reflexivity|]. split; [lia|]. split; [|discriminate].
        intros _. unfold Db.update_user_preferences in Hup. simpl in Hup.
        rewrite lookup_insert_eq in Hup. simpl in Hup.
        destruct (Db.preferences row) as [t|]; simpl in Hup.
        -- destruct (Db.text_truthy t); simpl in Hup; [discriminate|].
           injection Hup as <-. now rewrite lookup_alter_eq, lookup_insert_eq.
        -- injection Hup as <-. now rewrite lookup_alter_eq, lookup_insert_eq.
      * intros [= <-]. split; [reflexivity|]. split; [lia|]. split; [|discriminate].
        intros _. unfold Db.add_user. simpl. rewrite Hu. simpl.
        now rewrite lookup_insert_eq.
    + intros [= <-]. split; [reflexivity|]. split; [lia|]. split; [discriminate|].
      reflexivity.
Qed.

Lemma set_username_command_stores_the_name_witness :
  Commands.set_username_command false at_10 {[ 1%Z := bob ]} bob_account ["Bobby"]
  = ({[ 1%Z := bob ]}, Returns (Commands.SetTo "Bobby")).
Proof.
  apply (proj1 (proj1 (proj2 (proj2 (set_username_command_stores_the_name false at_10
                  {[ 1%Z := bob ]} bob_account ["Bobby"])))
                 ltac:(discriminate) ltac:(simpl; lia))).
  reflexivity.
Defined.



(** X26. The start command never changes what is stored about a user who
    is already known, except the time of the last interaction; and with a
    connection every user has a row after it, a new one carrying the first
    name, or the username when there is no first name, as display name. *)
Theorem start_command_keeps_known_users (now : Z) (users : gmap Z Db.user_row)
    (user : Commands.tg_user) (current_mode : option string) :
  let users' := (Commands.start_command true now users user current_mode).1.1.1 in
  (forall row, users !! Commands.id user = Some row ->
     users' !! Commands.id user
     = Some {| Db.telegram_username := Db.telegram_username row;
               Db.display_name := Db.display_name row;
               Db.first_seen := Db.first_seen row;
               Db.last_interaction := Some now;
               Db.preferences := Db.preferences row |}) /\
  (users !! Commands.id user = None ->
     users' !! Commands.id user
     = Some {| Db.telegram_username := Some (Commands.telegram_username_of user);
               Db.display_name :=
                 Some (Commands.or_else (Commands.first_name user)
                         (Commands.telegram_username_of user));
               Db.first_seen := now;
               Db.last_interaction := Some now;
               Db.preferences := None |}) /\
  (forall other, other <> Commands.id user -> users' !! other = users !! other).
Proof.
  unfold Commands.start_command, Db.get_user, Db.add_user. simpl. split; [|split].
  - intros row H. rewrite H. simpl. apply lookup_insert_eq.
  - intros H. rewrite H. simpl. rewrite H. simpl. rewrite lookup_insert_eq. simpl.
    now rewrite lookup_insert_eq.
  - intros other Hne. destruct (users !! Commands.id user) as [row|] eqn:H; simpl.
    + now rewrite lookup_insert_ne.
    + rewrite H. simpl. rewrite lookup_insert_eq. simpl.
      now rewrite !lookup_insert_ne.
Qed.

Lemma start_command_keeps_known_users_witness :
  Db.display_name <$>
    ((Commands.start_command true at_10 {[ 1%Z := bob ]} bob_account None).1.1.1 !! 1%Z)
  = Some (Some "Bob").
Proof.
  rewrite (proj1 (start_command_keeps_known_users at_10 {[ 1%Z := bob ]} bob_account None) bob);
    [reflexivity | apply lookup_singleton_eq].
Defined.

(** X27. Feedback is stored as the arguments joined by single spaces, under
    a key never given out before, with the sender and the time; the command
    makes sure that the sender has a row. Without arguments nothing is
    stored. *)
Theorem feedback_command_stores (now : Z) (users : gmap Z Db.user_row)
    (feedbacks : Db.table Db.feedback) (user : Commands.tg_user) (args : list string) :
  keys_given_out feedbacks ->
  let r := Commands.feedback_command true now users feedbacks user args in
  (args = [] -> r = (users, feedbacks, None)) /\
  (args <> [] ->
   r.2 = Some true /\
   Db.rows feedbacks !! (Db.last_id feedbacks + 1)%Z = None /\
   Db.rows r.1.2 !! (Db.last_id feedbacks + 1)%Z
   = Some {| Db.feedback_user := Commands.id user; Db.feedback_timestamp := now;
             Db.feedback_text := join " " args |} /\
   is_Some (r.1.1 !! Commands.id user)).
Proof.
  intros Hk. unfold Commands.feedback_command. destruct args as [|a args].
  { split; [reflexivity | intros H; now destruct H]. }
  split; [discriminate|]. intros _.
  remember (join " " (a :: args)) as msg eqn:Em. clear Em.
  unfold Db.get_user, Db.add_feedback, Db.insert_row, Db.add_user. simpl.
  assert (Db.rows feedbacks !! (Db.last_id feedbacks + 1)%Z = None) as Hfresh.
  { destruct (Db.rows feedbacks !! (Db.last_id feedbacks + 1)%Z) eqn:E; [|reflexivity].
    assert (Db.last_id feedbacks + 1 <= Db.last_id feedbacks)%Z by (apply Hk; eauto). lia. }
  destruct (users !! Commands.id user) as [row|] eqn:Hu; simpl.
  - split; [reflexivity|]. split; [exact Hfresh|]. split; [apply lookup_insert_eq|].
    rewrite lookup_insert_eq. eauto.
  - rewrite Hu. simpl. split; [reflexivity|]. split; [exact Hfresh|].
    split; [apply lookup_insert_eq|]. rewrite lookup_insert_eq. eauto.
Qed.

Lemma feedback_command_stores_witness :
  (Commands.feedback_command true at_10 {[ 1%Z := bob ]}
     {| Db.rows := ∅; Db.last_id := 0 |} bob_account ["I"; "love"; "this"; "bot!"]).2
  = Some true.
Proof.
  apply (proj2 (feedback_command_stores at_10 {[ 1%Z := bob ]}
                  {| Db.rows := ∅; Db.last_id := 0 |} bob_account ["I"; "love"; "this"; "bot!"]
                  ltac:(intros k [x H]; simpl in H; rewrite lookup_empty in H; discriminate))).
  discriminate.
Defined.

(** X28. The command that turns the daily prompts off never gets to its
    confirmation: with a connection the update of the preferences raises
    NameError and the users are as before; without a connection the update
    returns false and the user is told that there was an issue. *)
Theorem disable_prompts_command_never_confirms (connects : bool) (now : Z)
    (users : gmap Z Db.user_row) (user : Commands.tg_user) :
  fst (Commands.disable_prompts_command connects now users user) = users /\
  snd (Commands.disable_prompts_command connects now users user) <> Returns true /\
  snd (Commands.disable_prompts_command true now users user) = Raises (NameError "json") /\
  snd (Commands.disable_prompts_command false now users user) = Returns false.
Proof.
  unfold Commands.disable_prompts_command.
  rewrite update_user_preferences_mapping.
  destruct connects;
    [rewrite update_user_preferences_mapping | ]; simpl; repeat split; discriminate.
Qed.

(** ** The journal pipeline as a whole *)

(** *** Formatting the prompts *)

Lemma format_literal (render : string -> option ascii -> string -> outcome string)
    (lit rest : string) :
  lacks "{" lit = true -> lacks "}" lit = true ->
  format_from render Literal (lit +:+ rest)
  = match format_from render Literal rest with
    | Returns r => Returns (lit +:+ r)
    | Raises e => Raises e
    end.
Proof.
  unfold lacks. induction lit as [|c lit IH]; simpl.
  - intros _ _. now destruct (format_from render Literal rest).
  - rewrite !andb_true_iff, !negb_true_iff. intros [H1 H1'] [H2 H2'].
    rewrite H1, H2, (IH H1' H2').
    now destruct (format_from render Literal rest).
Qed.

Lemma first_at_lacking_head (c : ascii) (sub pre : string) :
  lacks c pre = true -> first_at (String c sub) pre.
Proof.
  unfold lacks, first_at. induction pre as [|d pre IH]; simpl; intros H a b E.
  - destruct a as [|x a]; simpl in E.
    + injection E as E. apply (f_equal String.length) in E.
      rewrite length_append in E. destruct b; [reflexivity | simpl in E; lia].
    + injection E as _ E. apply (f_equal String.length) in E.
      rewrite length_append in E. simpl in E. rewrite length_append in E. lia.
  - apply andb_true_iff in H as [Hd H]. apply negb_true_iff in Hd.
    destruct a as [|x a]; simpl in E.
    + injection E as -> _. now rewrite Ascii.eqb_refl in Hd.
    + injection E as _ E. now apply (IH H a b).
Qed.

Lemma lacks_append (c : ascii) (a b : string) :
  lacks c (a +:+ b) = lacks c a && lacks c b.
Proof. apply all_chars_append. Qed.

(** The categorization prompt of a display name without braces is the
    template with the entry text in the place of its one field. *)
Lemma categorization_prompt_formats
    (exotic : string -> option ascii -> string -> outcome string) (dn text : string) :
  lacks "{" dn = true -> lacks "}" dn = true ->
  format exotic (Pipeline.categorization_prompt_template dn) [("text", text)]
  = Returns (substitute "{text}" text (Pipeline.categorization_prompt_template dn)).
Proof.
  intros H1 H2. unfold format, Pipeline.categorization_prompt_template.
  match goal with |- context ["{text}" +:+ ?rest] => set (REST := rest) end.
  assert (format_from (render_field exotic [("text", text)]) Literal REST = Returns REST) as HR.
  { subst REST. vm_compute. reflexivity. }
  rewrite format_literal by reflexivity.
  rewrite format_literal by assumption.
  rewrite format_literal by reflexivity.
  rewrite format_literal by reflexivity.
  rewrite format_literal by reflexivity.
  rewrite format_literal by reflexivity.
  change (format_from (render_field exotic [("text", text)]) Literal ("{text}" +:+ REST))
    with (match format_from (render_field exotic [("text", text)]) Literal REST with
          | Returns r => Returns (text +:+ r)
          | Raises e => Raises e
          end).
  rewrite HR. f_equal.
  unfold substitute.
  replace ("Analyze the following journal entry for user " +:+ dn +:+ ":" +:+ NL +:+ "---"
           +:+ NL +:+ "{text}" +:+ REST)
    with (("Analyze the following journal entry for user " +:+ dn +:+ ":" +:+ NL +:+ "---"
           +:+ NL) +:+ "{text}" +:+ REST)
    by (now rewrite !append_assoc).
  rewrite search_exact_complete.
  - now rewrite !append_assoc.
  - apply first_at_lacking_head. rewrite !lacks_append, H1. reflexivity.
Qed.
Lemma requests_app (a b : list Input.event) : requests (a ++ b) = requests a ++ requests b.
Proof.
  induction a as [|e a IH]; [reflexivity|]. destruct e; simpl; now rewrite ?IH.
Qed.

(** The prompt of the analysis step cannot be built: whatever the seven
    values are, formatting the template raises. *)
Lemma therapist_prompt_does_not_format
    (exotic : string -> option ascii -> string -> outcome string) (a b c d e f g : string) :
  format exotic Pipeline.therapist_analysis_prompt_template
    [("display_name", a); ("current_entry_summary", b); ("history_context", c);
     ("text_summary", d); ("sentiment", e); ("topics_dot", f); ("categories_dot", g)]
  = Raises ValueError.
Proof. vm_compute. reflexivity. Qed.

Lemma update_keeps_analysis (connects : bool) (t t' : Db.table Db.entry) (id : Z)
    (s tp c : option string) (ok : bool) (k : Z) (e' : Db.entry) :
  Db.update_journal_entry_analysis connects t id s tp c None None = (t', ok) ->
  Db.rows t' !! k = Some e' ->
  exists e, Db.rows t !! k = Some e /\
            Db.ai_analysis_text e' = Db.ai_analysis_text e /\
            Db.dot_code e' = Db.dot_code e.
Proof.
  unfold Db.update_journal_entry_analysis.
  destruct connects; simpl; [|intros [= <- _]; eauto].
  assert (forall f : Db.entry -> Db.entry,
            (forall e, Db.ai_analysis_text (f e) = Db.ai_analysis_text e /\
                       Db.dot_code (f e) = Db.dot_code e) ->
            alter f id (Db.rows t) !! k = Some e' ->
            exists e, Db.rows t !! k = Some e /\
                      Db.ai_analysis_text e' = Db.ai_analysis_text e /\
                      Db.dot_code e' = Db.dot_code e) as A.
  { intros f Hf H. destruct (decide (k = id)) as [->|Hne].
    - rewrite lookup_alter_eq in H. destruct (Db.rows t !! id) as [e|]; [|discriminate].
      injection H as <-. exists e. split; [reflexivity | apply Hf].
    - rewrite lookup_alter_ne in H by congruence. eauto. }
  destruct s, tp, c; simpl; intros [= <- _]; simpl;
    try (apply A; intros e; split; reflexivity). eauto.
Qed.

#[local] Opaque Py.format Pipeline.history_context Journal.parse_categorization Journal.usable
  Journal.topics_dot_str Journal.categories_dot_str Pipeline.current_entry_summary
  Pipeline.clean_text_summary Pipeline.clean_sentiment Db.update_journal_entry_analysis
  Db.get_journal_entries_by_user Pipeline.categorization_prompt_template
  Pipeline.therapist_analysis_prompt_template.

Ltac fin :=
  unfold stops_short; cbn [fst snd Pipeline.users Pipeline.trace Pipeline.entries];
  split; [eauto|]; split; [reflexivity|]; split;
  [ rewrite ?requests_app; cbn [requests]; rewrite ?app_nil_r;
    first [ now left | right; eexists; split; [eassumption | reflexivity] ]
  | intros k e' H; try (eapply update_keeps_analysis in H; [|eassumption]); eauto ].

Ltac proj := cbn [fst snd Pipeline.users Pipeline.entries Pipeline.calls Pipeline.trace].

Ltac step_send :=
  unfold bind at 1; unfold Pipeline.send at 1; proj;
  match goal with
  | |- context [Pipeline.delivers ?w ?n] => destruct (Pipeline.delivers w n); [|fin]
  end.

Lemma after_saving_never_analyses (w : Pipeline.world) (user_id : Z) (dn text : string)
    (it : option string) (id : Z) (s : Pipeline.state) :
  stops_short w dn text s (Pipeline.after_saving w user_id dn text it id s).
Proof.
  unfold Pipeline.after_saving.
  step_send.
  unfold bind at 1. unfold Pipeline.lift at 1.
  destruct (format _ _ _) as [p|e] eqn:Ef; [|fin].
  unfold bind at 1. unfold Pipeline.ask, bind at 1, Pipeline.note, ret. proj.
  assert (forall s1 : Pipeline.state,
    Pipeline.users s1 = Pipeline.users s ->
    requests (Pipeline.trace s1) = requests (Pipeline.trace s) ++ [p] ->
    (forall k e', Db.rows (Pipeline.entries s1) !! k = Some e' ->
       exists e, Db.rows (Pipeline.entries s) !! k = Some e /\
                 Db.ai_analysis_text e' = Db.ai_analysis_text e /\
                 Db.dot_code e' = Db.dot_code e) ->
    stops_short w dn text s
      ((Pipeline.send w (Input.StatusEdit "Thinking about your entry...");;
        recent_entries_from_db <- Pipeline.get_journal_entries_by_user w user_id 5;;
        history <- Pipeline.lift (Pipeline.history_context w dn id recent_entries_from_db);;
        therapist_analysis_prompt <-
          Pipeline.lift
            (format (Pipeline.exotic w) Pipeline.therapist_analysis_prompt_template
               [("display_name", dn);
                ("current_entry_summary",
                 Pipeline.current_entry_summary w dn text it
                   (Journal.parse_categorization (Pipeline.generate w p)));
                ("history_context", history);
                ("text_summary", Pipeline.clean_text_summary text);
                ("sentiment",
                 Pipeline.clean_sentiment
                   (Journal.sentiment (Journal.parse_categorization (Pipeline.generate w p))));
                ("topics_dot",
                 Journal.topics_dot_str
                   (Journal.topics (Journal.parse_categorization (Pipeline.generate w p))));
                ("categories_dot",
                 Journal.categories_dot_str
                   (Journal.categories (Journal.parse_categorization (Pipeline.generate w p))))]);;
        dot_code_for_db <- Pipeline.analysis_steps w id therapist_analysis_prompt;;
        Pipeline.mind_map_steps w dot_code_for_db) s1)) as Tail.
  { intros s1 Hu Hr Hk.
    assert (forall o s2, Pipeline.users s2 = Pipeline.users s1 ->
              requests (Pipeline.trace s2) = requests (Pipeline.trace s1) ->
              Pipeline.entries s2 = Pipeline.entries s1 ->
              stops_short w dn text s (Raises o, s2)) as End.
    { intros o s2 H1 H2 H3. unfold stops_short. cbn [fst snd].
      split; [eauto|]. split; [congruence|]. split.
      - right. exists p. split; [exact Ef | congruence].
      - rewrite H3. exact Hk. }
    unfold bind at 1. unfold Pipeline.send at 1.
    destruct (Pipeline.delivers w (Pipeline.calls s1)); [|now apply End].
    unfold bind at 1. unfold Pipeline.get_journal_entries_by_user at 1. proj.
    unfold bind at 1. unfold Pipeline.lift at 1.
    destruct (Pipeline.history_context _ _ _ _) as [h|e];
      [|apply End; [reflexivity | proj; rewrite requests_app; simpl; now rewrite !app_nil_r
                   | reflexivity]].
    unfold bind at 1. unfold Pipeline.lift at 1.
    rewrite therapist_prompt_does_not_format.
    apply End; [reflexivity | proj; rewrite requests_app; simpl; now rewrite !app_nil_r
               | reflexivity]. }
  destruct (Journal.usable (Pipeline.generate w p)).
  - unfold bind at 1. unfold bind at 1. unfold Pipeline.update_journal_entry_analysis at 1.
    destruct (Db.update_journal_entry_analysis _ _ _ _ _ _ _ _) as [t' ok] eqn:Eu. proj.
    cbv beta. apply Tail; proj.
    + reflexivity.
    + rewrite !requests_app. simpl. now rewrite !app_nil_r.
    + intros k e' H. eapply update_keeps_analysis in H; [|exact Eu]. exact H.
  - unfold bind at 1. unfold Pipeline.send at 1. proj.
    destruct (Pipeline.delivers w (S (Pipeline.calls s))).
    + apply Tail; proj; [reflexivity | | eauto].
      rewrite !requests_app. simpl. now rewrite !app_nil_r.
    + unfold stops_short. proj. split; [eauto|]. split; [reflexivity|]. split; [|eauto].
      right. exists p. split; [exact Ef|]. rewrite !requests_app. simpl. now rewrite !app_nil_r.
Qed.

#[local] Transparent Py.format Pipeline.history_context Journal.parse_categorization Journal.usable
  Journal.topics_dot_str Journal.categories_dot_str Pipeline.current_entry_summary
  Pipeline.clean_text_summary Pipeline.clean_sentiment Db.update_journal_entry_analysis
  Db.get_journal_entries_by_user Pipeline.categorization_prompt_template
  Pipeline.therapist_analysis_prompt_template.

(** *** The store behind the pipeline *)

Lemma update_categorization_rows (t : Db.table Db.entry) (id : Z) (a b c : string) :
  let t' := fst (Db.update_journal_entry_analysis true t id (Some a) (Some b) (Some c)
                   None None) in
  (forall k, k <> id -> Db.rows t' !! k = Db.rows t !! k) /\
  (forall e, Db.rows t !! id = Some e ->
     Db.rows t' !! id
     = Some {| Db.entry_user := Db.entry_user e; Db.timestamp := Db.timestamp e;
               Db.raw_text := Db.raw_text e; Db.input_type := Db.input_type e;
               Db.word_count := Db.word_count e;
               Db.sentiment := Some a; Db.topics := Some b; Db.categories := Some c;
               Db.ai_analysis_text := Db.ai_analysis_text e;
               Db.dot_code := Db.dot_code e |}).
Proof.
  unfold Db.update_journal_entry_analysis. simpl. split.
  - intros k Hne. now rewrite lookup_alter_ne.
  - intros e H. now rewrite lookup_alter_eq, H.
Qed.

Lemma In_insert_sorted (x y : Z * Db.entry) (l : list (Z * Db.entry)) :
  In y (Db.insert_sorted x l) -> y = x \/ In y l.
Proof.
  induction l as [|z l IH]; simpl; [intuition congruence|].
  destruct (Db.newer x z); simpl; [intuition congruence|]. intros [H|H]; [tauto|].
  destruct (IH H); tauto.
Qed.

Lemma In_newest_first (y : Z * Db.entry) (l : list (Z * Db.entry)) :
  In y (Db.newest_first l) -> In y l.
Proof.
  induction l as [|x l IH]; simpl; [tauto|]. intros H.
  apply In_insert_sorted in H as [->|H]; [now left | right; now apply IH].
Qed.

Lemma In_firstn_list {A} (n : nat) (y : A) (l : list A) : In y (firstn n l) -> In y l.
Proof.
  revert l. induction n as [|n IH]; intros [|x l]; simpl; try tauto.
  intros [H|H]; [now left | right; now apply IH].
Qed.

(** What the query gives are rows of the table that belong to the user. *)
Lemma get_journal_entries_by_user_rows (connects : bool) (t : Db.table Db.entry)
    (user_id : Z) (limit : nat) (k : Z) (e : Db.entry) :
  In (k, e) (Db.get_journal_entries_by_user connects t user_id limit) ->
  Db.rows t !! k = Some e /\ Db.entry_user e = user_id.
Proof.
  unfold Db.get_journal_entries_by_user. destruct connects; simpl; [|tauto].
  intros H. apply In_firstn_list, In_newest_first, filter_In in H as [H1 H2].
  simpl in H2. apply Z.eqb_eq in H2. split; [|exact H2].
  apply elem_of_map_to_list. now apply list_elem_of_In.
Qed.

(** *** The history *)

Lemma history_lines_raises (w : Pipeline.world) (id : Z) (l : list (Z * Db.entry)) (e : exn) :
  Pipeline.history_lines w id l = Raises e -> e = TypeError.
Proof.
  induction l as [|[k x] l IH]; simpl; [discriminate|].
  destruct (k =? id)%Z; [exact IH|].
  unfold Pipeline.history_line, Pipeline.escape_column.
  destruct (Db.sentiment x); simpl; [|now intros [= <-]].
  destruct (Db.topics x); simpl; [|now intros [= <-]].
  destruct (Pipeline.history_lines w id l); simpl; [discriminate|].
  intros [= <-]. now apply IH.
Qed.

Lemma history_lines_returns (w : Pipeline.world) (id : Z) (l : list (Z * Db.entry)) :
  (forall k x, In (k, x) l -> k <> id -> Db.sentiment x <> None /\ Db.topics x <> None) ->
  exists lines, Pipeline.history_lines w id l = Returns lines.
Proof.
  induction l as [|[k x] l IH]; simpl; intros H; [eauto|].
  destruct (IH (fun k' x' Hin => H k' x' (or_intror Hin))) as [lines Hl].
  destruct (Z.eqb_spec k id) as [->|Hne]; [eauto|].
  destruct (H k x (or_introl eq_refl) Hne) as [Hs Ht].
  unfold Pipeline.history_line, Pipeline.escape_column.
  destruct (Db.sentiment x); [|contradiction]. destruct (Db.topics x); [|contradiction].
  simpl. rewrite Hl. simpl. eauto.
Qed.

Lemma history_context_raises (w : Pipeline.world) (dn : string) (id : Z)
    (l : list (Z * Db.entry)) (e : exn) :
  Pipeline.history_context w dn id l = Raises e -> e = TypeError.
Proof.
  unfold Pipeline.history_context. destruct l as [|x l]; [discriminate|].
  destruct (Pipeline.history_lines w id (rev (x :: l))) eqn:E; simpl; [discriminate|].
  intros [= <-]. now apply (history_lines_raises w id _ _ E).
Qed.

Lemma history_context_returns (w : Pipeline.world) (dn : string) (id : Z)
    (l : list (Z * Db.entry)) :
  (forall k x, In (k, x) l -> k <> id -> Db.sentiment x <> None /\ Db.topics x <> None) ->
  exists h, Pipeline.history_context w dn id l = Returns h.
Proof.
  intros H. unfold Pipeline.history_context. destruct l as [|x l]; [eauto|].
  destruct (history_lines_returns w id (rev (x :: l))) as [lines Hl].
  { intros k y Hin. apply H. now apply in_rev. }
  rewrite Hl. simpl. eauto.
Qed.

(** *** The run *)

Lemma resolve_display_name_returns (w : Pipeline.world) (user : Commands.tg_user)
    (s : Pipeline.state) :
  exists dn users',
    Pipeline.resolve_display_name w user s
    = (Returns dn,
       {| Pipeline.users := users'; Pipeline.entries := Pipeline.entries s;
          Pipeline.calls := Pipeline.calls s; Pipeline.trace := Pipeline.trace s |}).
Proof.
  unfold Pipeline.resolve_display_name.
  unfold bind at 1. unfold Pipeline.get_user at 1.
  destruct (Db.get_user _ _ _ _) as [u1 [row|]]; proj.
  - unfold ret. eauto.
  - unfold bind at 1. unfold Pipeline.add_user at 1.
    destruct (Db.add_user _ _ _ _ _ _) as [u2 ok]; proj.
    unfold bind at 1. unfold Pipeline.get_user at 1. proj.
    destruct (Db.get_user _ _ _ _) as [u3 row]; proj.
    unfold ret. eauto.
Qed.

Ltac reqs := rewrite ?requests_app; cbn [requests]; rewrite ?app_nil_r.

(** Claim C1, the code at the failing input. No run of
    [handle_journal_logic] gets to the analysis step.
    A run returns only to report that the entry could not be saved; every
    other run ends in an exception. At most one prompt is sent to the model,
    the categorization prompt; and no row of the entries ever gets an
    analysis text or a diagram description that it did not have. Where
    everything else works (the store is reachable, every message is
    delivered, the model would answer the analysis request with the response
    of the specification), the run saves and categorizes the entry and then
    raises ValueError, because formatting the prompt of the analysis step
    raises for any seven values: no diagram description is extracted and the
    user sees no analysis. The parser behind that line, which is not
    reached, would give the diagram description digraph{a->b} and the
    analysis text intro text on that response, and the whole response
    without a diagram when the markers are written loosely; the parser of
    [multimode_bot_final.py] gives the same diagram description on the first
    response and also on the second. *)
Theorem analysis_step_is_never_reached :
  (forall (w : Pipeline.world) (user : Commands.tg_user) (text : string)
          (input_type : option string) (s : Pipeline.state),
      let r := Pipeline.handle_journal_logic w user text input_type s in
      (fst r = Returns tt ->
       Pipeline.trace (snd r)
       = Pipeline.trace s
         ++ [Input.Status "Saving your thoughts...";
             Input.StatusEdit
               "Oops! There was an error saving your journal entry. Please try again."]) /\
      (requests (Pipeline.trace (snd r)) = requests (Pipeline.trace s) \/
       exists dn p,
         format (Pipeline.exotic w) (Pipeline.categorization_prompt_template dn)
           [("text", text)] = Returns p /\
         requests (Pipeline.trace (snd r)) = requests (Pipeline.trace s) ++ [p]) /\
      analysis_untouched (Pipeline.entries s) (Pipeline.entries (snd r))) /\
  (forall (exotic : string -> option ascii -> string -> outcome string)
          (display_name current_entry_summary history_context text_summary sentiment
             topics_dot categories_dot : string),
      format exotic Pipeline.therapist_analysis_prompt_template
        [("display_name", display_name);
         ("current_entry_summary", current_entry_summary);
         ("history_context", history_context);
         ("text_summary", text_summary);
         ("sentiment", sentiment);
         ("topics_dot", topics_dot);
         ("categories_dot", categories_dot)]
      = Raises ValueError) /\
  (let r := Pipeline.handle_journal_logic journal_world bob_account
              "Had a rough day at work" (Some "text") bob_store in
   Pipeline.generate journal_world "any other prompt" = Some analysis_example /\
   fst r = Raises ValueError /\
   Db.rows (Pipeline.entries (snd r)) !! 1%Z
   = Some {| Db.entry_user := 1; Db.timestamp := at_10;
             Db.raw_text := "Had a rough day at work"; Db.input_type := Some "text";
             Db.word_count := 6;
             Db.sentiment := Some "Hopeful"; Db.topics := Some "Work, Family";
             Db.categories := Some "Workplace";
             Db.ai_analysis_text := None; Db.dot_code := None |} /\
   length (requests (Pipeline.trace (snd r))) = 1 /\
   forall e, In e (Pipeline.trace (snd r)) ->
     e <> Input.StatusEdit "intro text" /\ forall caption, e <> Input.Photo caption) /\
  (Journal.parse_analysis (Some analysis_example)
   = {| Journal.ai_analysis_output_for_user := "intro text";
        Journal.ai_analysis_text_for_db := Some "intro text";
        Journal.dot_code_for_db := Some "digraph{a->b}" |} /\
   Journal.parse_analysis (Some loose_markers_example)
   = {| Journal.ai_analysis_output_for_user := loose_markers_example;
        Journal.ai_analysis_text_for_db := Some loose_markers_example;
        Journal.dot_code_for_db := None |}) /\
  (Legacy.parse_analysis (Some analysis_example)
   = ("intro text" +:+ NL +:+ NL +:+ "trailer", Some "digraph{a->b}") /\
   contains Journal.DOT_START loose_markers_example = false /\
   Legacy.parse_analysis (Some loose_markers_example)
   = ("intro text" +:+ NL +:+ NL +:+ "trailer", Some "digraph{a->b}")).
Proof.
  split; [|split; [exact therapist_prompt_does_not_format|split; [|split]]].
  - intros w user text input_type s.
    match goal with
    | |- let r := ?X in @?Q r => set (P := Q); change (P X)
    end.
    unfold Pipeline.handle_journal_logic.
    destruct (resolve_display_name_returns w user s) as (dn & users' & Hres).
    unfold bind at 1. rewrite Hres.
    assert (forall k e', Db.rows (Pipeline.entries s) !! k = Some e' ->
              (Db.ai_analysis_text e' = None /\ Db.dot_code e' = None) \/
              (exists e, Db.rows (Pipeline.entries s) !! k = Some e /\
                         Db.ai_analysis_text e' = Db.ai_analysis_text e /\
                         Db.dot_code e' = Db.dot_code e)) as Same by (intros k e' H; eauto).
    unfold bind at 1. unfold Pipeline.send at 1. proj.
    destruct (Pipeline.delivers w (Pipeline.calls s)).
    2:{ subst P. cbv beta. proj. split; [discriminate|]. split; [now left | exact Same]. }
    unfold bind at 1. unfold Pipeline.add_journal_entry at 1. proj.
    unfold Db.add_journal_entry. destruct (Pipeline.connects w) eqn:Hc; simpl negb; cbv iota.
    2:{ proj. unfold Pipeline.send. proj.
        destruct (Pipeline.delivers w (S (Pipeline.calls s))); subst P; cbv beta; proj.
        - split; [intros _; now rewrite <- app_assoc|]. split; [|exact Same]. left. now reqs.
        - split; [discriminate|]. split; [|exact Same]. left. now reqs. }
    unfold Db.insert_row. proj.
    set (e0 := {| Db.entry_user := Commands.id user |}).
    assert (forall k e',
              <[(Db.last_id (Pipeline.entries s) + 1)%Z := e0]> (Db.rows (Pipeline.entries s))
                !! k = Some e' ->
              (Db.ai_analysis_text e' = None /\ Db.dot_code e' = None) \/
              (exists e, Db.rows (Pipeline.entries s) !! k = Some e /\
                         Db.ai_analysis_text e' = Db.ai_analysis_text e /\
                         Db.dot_code e' = Db.dot_code e)) as New.
    { intros k e' H.
      destruct (decide (k = Db.last_id (Pipeline.entries s) + 1)%Z) as [->|Hne].
      - rewrite lookup_insert_eq in H. injection H as <-. now left.
      - rewrite lookup_insert_ne in H by congruence. eauto. }
    destruct (Db.last_id (Pipeline.entries s) + 1 =? 0)%Z.
    { unfold Pipeline.send. proj.
      destruct (Pipeline.delivers w (S (Pipeline.calls s))); subst P; cbv beta; proj.
      - split; [intros _; now rewrite <- app_assoc|]. split; [|exact New]. left. now reqs.
      - split; [discriminate|]. split; [|exact New]. left. now reqs. }
    match goal with
    | |- context [Pipeline.after_saving ?a ?b ?c ?d ?e ?f ?g] =>
        pose proof (after_saving_never_analyses a b c d e f g) as A;
        destruct (Pipeline.after_saving a b c d e f g) as [o s']
    end.
    destruct A as ([e He] & _ & Hr & Hk). simpl in He. subst o. subst P. cbv beta.
    cbn [fst snd] in *. proj. split; [discriminate|]. split.
    + revert Hr. proj. reqs. intros [Hr|(p & Hp & Hr)]; [now left|].
      right. exists dn, p. split; [exact Hp | exact Hr].
    + intros k e' H. destruct (Hk k e' H) as (e1 & H1 & -> & ->). proj. eauto.
  - cbv zeta. split; [reflexivity|]. split; [vm_compute; reflexivity|].
    split; [vm_compute; reflexivity|]. split; [vm_compute; reflexivity|].
    intros e H. vm_compute in H.
    repeat (destruct H as [<-|H]; [split; [discriminate | intros c; discriminate]|]).
    destruct H.
  - split; vm_compute; reflexivity.
  - split; [|split]; vm_compute; reflexivity.
Qed.

Lemma analysis_step_is_never_reached_witness :
  Pipeline.trace
    (snd (Pipeline.handle_journal_logic offline_world bob_account
            "Had a rough day at work" (Some "text") bob_store))
  = [Input.Status "Saving your thoughts...";
     Input.StatusEdit "Oops! There was an error saving your journal entry. Please try again."].
Proof.
  apply (proj1 (proj1 analysis_step_is_never_reached offline_world bob_account
                  "Had a rough day at work" (Some "text") bob_store)).
  vm_compute. reflexivity.
Defined.



(** X29. What a run of the journal pipeline leaves behind when the store
    is reachable, every message is delivered and the display name has no
    brace. The entry is saved under the next key with the text, the input
    type and the word count. The model is asked once, for the
    categorization. Sentiment, topics and categories are the parsed fields
    when the response passed the gate, and stay empty, not N/A, when it did
    not, in which case the user is warned. The analysis text and the
    diagram description stay empty, and no other entry is changed. The run
    ends by raising TypeError or ValueError, and ValueError when every entry
    that the user had before has a sentiment and topics. TypeError is what
    the second run of a user raises whose first entry was not categorized. *)
Theorem journal_entry_as_stored (w : Pipeline.world) (user : Commands.tg_user)
    (text : string) (input_type : option string) (s s1 : Pipeline.state) (dn : string) :
  Pipeline.connects w = true ->
  (forall n, Pipeline.delivers w n = true) ->
  (0 <= Db.last_id (Pipeline.entries s))%Z ->
  Pipeline.resolve_display_name w user s = (Returns dn, s1) ->
  lacks "{" dn = true -> lacks "}" dn = true ->
  let r := Pipeline.handle_journal_logic w user text input_type s in
  let id := (Db.last_id (Pipeline.entries s) + 1)%Z in
  let prompt := substitute "{text}" text (Pipeline.categorization_prompt_template dn) in
  let response := Pipeline.generate w prompt in
  let c := Journal.parse_categorization response in
  let categorized := Journal.usable response in
  (fst r = Raises ValueError \/ fst r = Raises TypeError) /\
  Pipeline.trace (snd r)
  = Pipeline.trace s
    ++ [Input.Status "Saving your thoughts..."; Input.StatusEdit "Analyzing your entry...";
        Input.AskModel prompt]
    ++ (if categorized then []
        else [Input.Reply
                ("AI categorization of your entry encountered an issue. It's saved, but some insights might be missing. Details: "
                 +:+ Input.or_default response "No response")])
    ++ [Input.StatusEdit "Thinking about your entry..."] /\
  Db.rows (Pipeline.entries (snd r)) !! id
  = Some {| Db.entry_user := Commands.id user; Db.timestamp := Pipeline.clock w;
            Db.raw_text := text; Db.input_type := input_type;
            Db.word_count := Pipeline.word_count text;
            Db.sentiment := if categorized then Some (Journal.sentiment c) else None;
            Db.topics := if categorized then Some (Journal.topics c) else None;
            Db.categories := if categorized then Some (Journal.categories c) else None;
            Db.ai_analysis_text := None; Db.dot_code := None |} /\
  (forall k, k <> id ->
     Db.rows (Pipeline.entries (snd r)) !! k = Db.rows (Pipeline.entries s) !! k) /\
  ((forall k e, Db.rows (Pipeline.entries s) !! k = Some e ->
      Db.entry_user e = Commands.id user ->
      Db.sentiment e <> None /\ Db.topics e <> None) ->
   fst r = Raises ValueError) /\
  (let r1 := Pipeline.handle_journal_logic mute_world bob_account "first" (Some "text")
               bob_store in
   let r2 := Pipeline.handle_journal_logic journal_world bob_account "second" (Some "text")
               {| Pipeline.users := Pipeline.users (snd r1);
                  Pipeline.entries := Pipeline.entries (snd r1);
                  Pipeline.calls := 0; Pipeline.trace := [] |} in
   Journal.usable (Pipeline.generate mute_world "any prompt") = false /\
   fst r1 = Raises ValueError /\ fst r2 = Raises TypeError).
Proof.
  intros Hc Hd Hpos Hres H1 H2.
  destruct (resolve_display_name_returns w user s) as (dn' & users' & Hres').
  rewrite Hres in Hres'. injection Hres' as <- ->.
  match goal with
  | |- let r := ?X in @?Q r => set (P := Q); change (P X)
  end.
  unfold Pipeline.handle_journal_logic.
  unfold bind at 1. rewrite Hres.
  unfold bind at 1. unfold Pipeline.send at 1. proj. rewrite Hd.
  unfold bind at 1. unfold Pipeline.add_journal_entry at 1. proj.
  unfold Db.add_journal_entry. rewrite Hc. simpl negb. cbv iota.
  unfold Db.insert_row. proj.
  destruct (Z.eqb_spec (Db.last_id (Pipeline.entries s) + 1) 0) as [E|_]; [lia|].
  set (id := (Db.last_id (Pipeline.entries s) + 1)%Z) in *.
  set (e0 := {| Db.entry_user := Commands.id user; Db.timestamp := Pipeline.clock w;
                Db.raw_text := text; Db.input_type := input_type;
                Db.word_count := Pipeline.word_count text;
                Db.sentiment := None; Db.topics := None; Db.categories := None;
                Db.ai_analysis_text := None; Db.dot_code := None |}).
  set (t1 := {| Db.rows := <[id := e0]> (Db.rows (Pipeline.entries s)); Db.last_id := id |}).
  assert (Db.rows t1 !! id = Some e0) as L1 by apply lookup_insert_eq.
  assert (forall k, k <> id -> Db.rows t1 !! k = Db.rows (Pipeline.entries s) !! k) as O1
    by (intros k Hne; now apply lookup_insert_ne).
  unfold Pipeline.after_saving.
  unfold bind at 1. unfold Pipeline.send at 1. proj. rewrite Hd.
  unfold bind at 1. unfold Pipeline.lift at 1.
  rewrite (categorization_prompt_formats _ dn text H1 H2).
  set (prompt := substitute "{text}" text (Pipeline.categorization_prompt_template dn)) in *.
  unfold bind at 1. unfold Pipeline.ask, bind at 1, Pipeline.note, ret. proj.
  set (response := Pipeline.generate w prompt) in *.
  (* the history and the second formatting, from any state that has the rows *)
  assert (forall (t2 : Db.table Db.entry) (n : nat) (tr : list Input.event),
    (forall k, k <> id -> Db.rows t2 !! k = Db.rows (Pipeline.entries s) !! k) ->
    exists o,
      (Pipeline.send w (Input.StatusEdit "Thinking about your entry...");;
       recent_entries_from_db <- Pipeline.get_journal_entries_by_user w (Commands.id user) 5;;
       history <- Pipeline.lift (Pipeline.history_context w dn id recent_entries_from_db);;
       therapist_analysis_prompt <-
         Pipeline.lift
           (format (Pipeline.exotic w) Pipeline.therapist_analysis_prompt_template
              [("display_name", dn);
               ("current_entry_summary",
                Pipeline.current_entry_summary w dn text input_type
                  (Journal.parse_categorization response));
               ("history_context", history);
               ("text_summary", Pipeline.clean_text_summary text);
               ("sentiment",
                Pipeline.clean_sentiment
                  (Journal.sentiment (Journal.parse_categorization response)));
               ("topics_dot",
                Journal.topics_dot_str
                  (Journal.topics (Journal.parse_categorization response)));
               ("categories_dot",
                Journal.categories_dot_str
                  (Journal.categories (Journal.parse_categorization response)))]);;
       dot_code_for_db <- Pipeline.analysis_steps w id therapist_analysis_prompt;;
       Pipeline.mind_map_steps w dot_code_for_db)
        {| Pipeline.users := users'; Pipeline.entries := t2; Pipeline.calls := n;
           Pipeline.trace := tr |}
      = (Raises o,
         {| Pipeline.users := users'; Pipeline.entries := t2; Pipeline.calls := S n;
            Pipeline.trace := tr ++ [Input.StatusEdit "Thinking about your entry..."] |}) /\
      (o = ValueError \/ o = TypeError) /\
      ((forall k e, Db.rows (Pipeline.entries s) !! k = Some e ->
          Db.entry_user e = Commands.id user ->
          Db.sentiment e <> None /\ Db.topics e <> None) -> o = ValueError)) as Tail.
  { intros t2 n tr O2.
    unfold bind at 1. unfold Pipeline.send at 1. proj. rewrite Hd.
    unfold bind at 1. unfold Pipeline.get_journal_entries_by_user at 1. proj.
    unfold bind at 1. unfold Pipeline.lift at 1.
    destruct (Pipeline.history_context w dn id _) as [h|e] eqn:Eh.
    - unfold bind at 1. unfold Pipeline.lift at 1.
      rewrite therapist_prompt_does_not_format.
      exists ValueError. split; [reflexivity|]. split; [now left | reflexivity].
    - exists e. split; [reflexivity|].
      pose proof (history_context_raises _ _ _ _ _ Eh) as ->. split; [now right|].
      intros Hall. exfalso.
      destruct (history_context_returns w dn id
                  (Db.get_journal_entries_by_user (Pipeline.connects w) t2
                     (Commands.id user) 5)) as [h Hh]; [|congruence].
      intros k x Hin Hne. apply get_journal_entries_by_user_rows in Hin as [Hk Hu].
      rewrite O2 in Hk by exact Hne. now apply (Hall k x). }
  destruct (Journal.usable response) eqn:Hu.
  - unfold bind at 1. unfold bind at 1. unfold Pipeline.update_journal_entry_analysis at 1.
    proj. rewrite Hc.
    pose proof (update_categorization_rows t1 id
                  (Journal.sentiment (Journal.parse_categorization response))
                  (Journal.topics (Journal.parse_categorization response))
                  (Journal.categories (Journal.parse_categorization response))) as [U1 U2].
    destruct (Db.update_journal_entry_analysis true t1 id _ _ _ None None) as [t2 ok].
    cbn [fst] in U1, U2. proj. cbv beta.
    destruct (Tail t2 (S (S (Pipeline.calls s)))
                (((Pipeline.trace s ++ [Input.Status "Saving your thoughts..."])
                  ++ [Input.StatusEdit "Analyzing your entry..."])
                 ++ [Input.AskModel prompt])) as (o & -> & Ho & Hv).
    { intros k Hne. rewrite U1 by exact Hne. now apply O1. }
    subst P. cbv beta. proj. cbn [fst snd]. proj.
    change (Pipeline.generate w prompt) with response. rewrite Hu.
    split; [destruct Ho as [-> | ->]; [left | right]; reflexivity|].
    split; [now rewrite <- !app_assoc|].
    split; [now rewrite (U2 e0 L1)|].
    split; [intros k Hne; rewrite U1 by exact Hne; now apply O1|].
    split; [intros Hall; now rewrite (Hv Hall)|].
    split; [|split]; vm_compute; reflexivity.
  - unfold bind at 1. unfold Pipeline.send at 1. proj. rewrite Hd.
    destruct (Tail t1 (S (S (S (Pipeline.calls s))))
                ((((Pipeline.trace s ++ [Input.Status "Saving your thoughts..."])
                   ++ [Input.StatusEdit "Analyzing your entry..."])
                  ++ [Input.AskModel prompt])
                 ++ [Input.Reply
                       ("AI categorization of your entry encountered an issue. It's saved, but some insights might be missing. Details: "
                        +:+ Input.or_default response "No response")]))
      as (o & -> & Ho & Hv); [exact O1|].
    subst P. cbv beta. proj. cbn [fst snd]. proj.
    change (Pipeline.generate w prompt) with response. rewrite Hu.
    split; [destruct Ho as [-> | ->]; [left | right]; reflexivity|].
    split; [now rewrite <- !app_assoc|].
    split; [exact L1|]. split; [exact O1|].
    split; [intros Hall; now rewrite (Hv Hall)|].
    split; [|split]; vm_compute; reflexivity.
Qed.

Lemma journal_entry_as_stored_witness :
  fst (Pipeline.handle_journal_logic journal_world bob_account
         "Had a rough day at work" (Some "text") bob_store)
  = Raises ValueError.
Proof.
  refine (proj1 (proj2 (proj2 (proj2 (proj2
    (journal_entry_as_stored journal_world bob_account "Had a rough day at work"
       (Some "text") bob_store
       (snd (Pipeline.resolve_display_name journal_world bob_account bob_store))
       "Bob" eq_refl (fun _ => eq_refl) _ _ eq_refl eq_refl))))) _).
  - simpl. lia.
  - vm_compute. reflexivity.
  - intros k e H. vm_compute in H. discriminate H.
Defined.

